(** * Magnetometer calibration (src/modules/commander/mag_calibration.cpp)

    A shallow embedding of [do_mag_calibration] and [calibrate_instance].
    The routine talks to the sensor driver, the uORB transport, the clock,
    the parameter store and the operator console.  Those collaborators are
    gathered in the [Platform] interface; the routine itself is written in
    a small monad that threads the platform's world and records every call
    made to it, so that statements such as "the fit is never invoked" or
    "every field write is attempted" become statements about the recorded
    calls. *)

From Stdlib Require Import ZArith List String Ascii Bool Lia SpecFloat.
From Stdlib Require Import DecimalString Sorted.
From Stdlib Require DecimalN DecimalPos.
Import ListNotations.
Open Scope string_scope.
Open Scope list_scope.
Open Scope Z_scope.

(** ** Machine data *)

(** [unsigned] / [uint64_t] arithmetic wraps. *)
Definition uint32 (z : Z) : Z := z mod 2 ^ 32.
Definition uint64 (z : Z) : Z := z mod 2 ^ 64.

(** A C [float] is an IEEE-754 datum; [isfinite] is the C library macro. *)
Definition float : Type := spec_float.

Definition isfinite (f : float) : bool :=
  match f with
  | S754_zero _ => true
  | S754_finite _ _ _ => true
  | S754_infinity _ => false
  | S754_nan => false
  end.

(** The literals of the source, as binary32 values (sign, mantissa, exponent). *)
Module Lit.
Definition f0_0 : float := S754_zero false.                        (* 0.0f *)
Definition f1_0 : float := S754_finite false 8388608 (-23).        (* 1.0f *)
Definition f25_00 : float := S754_finite false 13107200 (-19).     (* 25.00f *)
Definition f3_30 : float := S754_finite false 13841203 (-22).      (* 3.30f *)
Definition f41_18 : float := S754_finite false 10795090 (-18).     (* 41.18f *)
(*  0.0000002037008925981353968f *)
Definition x3_0 : float := S754_finite false 14334176 (-46).
(* -0.0000053157482398091815412f *)
Definition x2_0 : float := S754_finite true 11689454 (-41).
(* -0.0008966009481810033321380f *)
Definition x1_0 : float := S754_finite true 15403487 (-34).
(* -0.0000000252839047476527412f *)
Definition x3_1 : float := S754_finite true 14233573 (-49).
(* -0.0000029153295599826378747f *)
Definition x2_1 : float := S754_finite true 12821755 (-42).
(*  0.0003352015919517725706100f *)
Definition x1_1 : float := S754_finite false 11517439 (-35).
(*  0.0000000083432984965270406f *)
Definition x3_2 : float := S754_finite false 9393719 (-50).
(*  0.0000064743926486698910593f *)
Definition x2_2 : float := S754_finite false 14237340 (-41).
(* -0.0014722041087225079536437f *)
Definition x1_2 : float := S754_finite true 12646137 (-33).
End Lit.

(** A [float[3]] member, indexed by [0], [1], [2]. *)
Record float3 : Type := mk_float3 { at0 : float; at1 : float; at2 : float }.

Definition sel3 (a : float3) (j : Z) : float :=
  if j =? 0 then at0 a else if j =? 1 then at1 a else at2 a.

(** Modelled from the spec: [struct mag_scale] of drv_mag.h, which is not
    among the sources.  The members are the ones the routine names, the offset
    and the scale of each axis interleaved, as the initialiser of
    [mscale_null] (offset 0, scale 1, three times) requires. *)
Record mag_scale : Type := mk_mag_scale {
  x_offset : float;
  x_scale : float;
  y_offset : float;
  y_scale : float;
  z_offset : float;
  z_scale : float;
  cal_temp : float;
  min_temp : float;
  max_temp : float;
  x1_temp : float3;
  x2_temp : float3;
  x3_temp : float3
}.

(** [static const int ERROR = -1;] and NuttX's [OK]. *)
Definition ERROR : Z := -1.
Definition OK : Z := 0.
Definition O_RDONLY : Z := 0.

Definition sensor_name : string := "mag".

(** [%u] of [sprintf]. *)
Definition fmt_u (n : Z) : string := NilZero.string_of_uint (N.to_uint (Z.to_N n)).

(** ** Calls to the platform *)

Inductive severity : Type := info | critical.

(** The message macros of calibration_messages.h and the literal format
    strings of the routine, with their arguments. *)
Inductive message : Type :=
| CAL_STARTED_MSG (sensor : string)
| CAL_DONE_MSG (sensor : string)
| CAL_FAILED_MSG (sensor : string)
| CAL_PROGRESS_MSG (sensor : string) (percent : Z)
| CAL_FAILED_RESET_CAL_MSG
| CAL_FAILED_SENSOR_MSG
| CAL_FAILED_SAVE_PARAMS_MSG
| CAL_FAILED_APPLY_CAL_MSG
| CAL_FAILED_SET_PARAMS_MSG
| msg_calibrating_magnetometer (s : Z)
| msg_skipped_scale_calibration
| msg_out_of_memory
| msg_no_mag_found
| msg_turn_on_all_sides
| msg_nan_in_sphere_fit
| msg_failed_to_get_calibration
| msg_mag_off (x y z : float)
| msg_mag_scale (x y z : float).

(** What [param_set] is handed: the 32-bit word of [device_id] or a float. *)
Inductive param_value : Type :=
| PWord (z : Z)
| PFloat (f : float).

Definition sphere : Type := (float * float * float * float)%type.

(** One recorded call, with its arguments and what the platform answered. *)
Inductive event : Type :=
| EvLog (sev : severity) (m : message)
| EvSleep (usec : Z)
| EvOpen (path : string) (flags : Z) (fd : Z)
| EvClose (fd : Z)
| EvDeviceId (fd : Z) (id : Z)
| EvSetScale (fd : Z) (m : mag_scale) (ret : Z)
| EvGetScale (fd : Z) (ret : Z) (m : mag_scale)
| EvRangeCal (fd : Z) (ret : Z)
| EvNew (n : Z) (ok : bool)
| EvSubscribe (s : Z) (sub : Z)
| EvSetInterval (sub : Z) (ms : Z)
| EvTime (t : Z)
| EvPoll (fd : Z) (timeout : Z) (ret : Z)
| EvCopy (sub : Z) (x y z : float)
| EvFit (x y z : list float) (size : Z) (max_iterations : Z) (delta : float)
        (out : sphere)
| EvParamSet (name : string) (handle : Z) (v : param_value) (ret : Z)
| EvParamSave (ret : Z)
| EvEnter (s : Z) (device_id : Z)
| EvLeave (s : Z) (ret : Z).

(** The collaborators of the routine.  [W] is the state of everything outside
    it: devices, topics, clock, parameter store, console. *)
Class Platform (W : Type) : Type := {
  (* MAG_BASE_DEVICE_PATH of drv_mag.h *)
  MAG_BASE_DEVICE_PATH : string;
  plat_log : severity -> message -> W -> W;
  plat_sleep : Z -> W -> W;
  plat_open : string -> Z -> W -> Z * W;
  plat_close : Z -> W -> W;
  plat_DEVIOCGDEVICEID : Z -> W -> Z * W;
  plat_MAGIOCSSCALE : Z -> mag_scale -> W -> Z * W;
  (* the status and the content of the caller's struct after the call *)
  plat_MAGIOCGSCALE : Z -> W -> (Z * mag_scale) * W;
  plat_MAGIOCCALIBRATE : Z -> W -> Z * W;
  (* [new float[n]]: whether a non-null pointer came back *)
  plat_new : Z -> W -> bool * W;
  plat_orb_subscribe_multi : Z -> W -> Z * W;
  plat_orb_set_interval : Z -> Z -> W -> W;
  plat_hrt_absolute_time : W -> Z * W;
  plat_poll : Z -> Z -> W -> Z * W;
  (* the x, y, z members of the [mag_report] after [orb_copy] *)
  plat_orb_copy : Z -> W -> (float * float * float) * W;
  (* sphere_fit_least_squares of calibration_routines.cpp: from the first
     [size] cells of the three arrays, the iteration cap, the damping and the
     previous content of the four output cells, their new content *)
  plat_sphere_fit :
    list float -> list float -> list float -> Z -> Z -> float -> sphere -> sphere;
  plat_param_find : string -> W -> Z * W;
  plat_param_set : Z -> param_value -> W -> Z * W;
  plat_param_save_default : W -> Z * W;
  (* what the automatic variables sphere_x, sphere_y, sphere_z and
     sphere_radius hold before anything is stored in them *)
  plat_uninitialized : W -> sphere
}.

(** ** The monad of the routine

    A computation takes the world and gives its value, the world after it and
    the calls it made, oldest first.  [None] is a loop that ran out of the
    fuel the embedding gave it (shown below never to happen). *)
Definition M (W A : Type) : Type := W -> option (A * W * list event).

Definition ret {W A} (a : A) : M W A := fun w => Some (a, w, []).

Definition bind {W A B} (m : M W A) (f : A -> M W B) : M W B :=
  fun w =>
    match m w with
    | None => None
    | Some (a, w1, e1) =>
        match f a w1 with
        | None => None
        | Some (b, w2, e2) => Some (b, w2, e1 ++ e2)
        end
    end.

Definition out_of_fuel {W A} : M W A := fun _ => None.

Notation "x <- c1 ;; c2" := (bind c1 (fun x => c2))
  (at level 61, c1 at next level, right associativity).
Notation "' pat <- c1 ;; c2" := (bind c1 (fun x => match x with pat => c2 end))
  (at level 61, pat pattern, c1 at next level, right associativity).
Notation "c1 ;; c2" := (bind c1 (fun _ => c2))
  (at level 61, right associativity).

(** A call that answers, and one that does not. *)
Definition call {W A} (op : W -> A * W) (ev : A -> event) : M W A :=
  fun w => let (a, w') := op w in Some (a, w', [ev a]).

Definition exec {W} (op : W -> W) (ev : event) : M W unit :=
  fun w => Some (tt, op w, [ev]).

(** An observation point of the embedding: the world is not touched. *)
Definition mark {W} (ev : event) : M W unit := fun w => Some (tt, w, [ev]).

(** [for (unsigned i = from; i < bound; i++) body], the loop variables in [S].
    A [continue] is the body returning early. *)
Fixpoint for_loop {W S} (fuel : nat) (i bound : Z) (body : Z -> S -> M W S)
    (st : S) : M W S :=
  match fuel with
  | O => out_of_fuel
  | Datatypes.S fuel' =>
      if i <? bound then
        st' <- body i st ;;
        for_loop fuel' (uint32 (i + 1)) bound body st'
      else ret st
  end.

(** [a[i] = v] on an array held as the list of its cells. *)
Fixpoint store {A} (i : nat) (v : A) (a : list A) : list A :=
  match a, i with
  | [], _ => []
  | _ :: t, O => v :: t
  | h :: t, Datatypes.S i' => h :: store i' v t
  end.

Section Routine.
Context {W : Type} {P : Platform W}.

Local Abbreviation M := (M W).

(** *** The collaborators' entry points *)

Definition mavlink_and_console_log_info (m : message) : M unit :=
  exec (plat_log info m) (EvLog info m).
Definition mavlink_and_console_log_critical (m : message) : M unit :=
  exec (plat_log critical m) (EvLog critical m).
Definition usleep (usec : Z) : M unit :=
  exec (plat_sleep usec) (EvSleep usec).
Definition sleep (sec : Z) : M unit := usleep (sec * 1000000).
Definition open (path : string) (flags : Z) : M Z :=
  call (plat_open path flags) (EvOpen path flags).
Definition close (fd : Z) : M unit :=
  exec (plat_close fd) (EvClose fd).
Definition ioctl_DEVIOCGDEVICEID (fd : Z) : M Z :=
  call (plat_DEVIOCGDEVICEID fd) (EvDeviceId fd).
Definition ioctl_MAGIOCSSCALE (fd : Z) (m : mag_scale) : M Z :=
  call (plat_MAGIOCSSCALE fd m) (EvSetScale fd m).
Definition ioctl_MAGIOCGSCALE (fd : Z) : M (Z * mag_scale) :=
  call (plat_MAGIOCGSCALE fd) (fun r => EvGetScale fd (fst r) (snd r)).
Definition ioctl_MAGIOCCALIBRATE (fd : Z) : M Z :=
  call (plat_MAGIOCCALIBRATE fd) (EvRangeCal fd).
Definition new_float (n : Z) : M bool :=
  call (plat_new n) (EvNew n).
Definition orb_subscribe_multi (s : Z) : M Z :=
  call (plat_orb_subscribe_multi s) (EvSubscribe s).
Definition orb_set_interval (sub ms : Z) : M unit :=
  exec (plat_orb_set_interval sub ms) (EvSetInterval sub ms).
Definition hrt_absolute_time : M Z :=
  call plat_hrt_absolute_time EvTime.
Definition poll (fd timeout : Z) : M Z :=
  call (plat_poll fd timeout) (EvPoll fd timeout).
Definition orb_copy (sub : Z) : M (float * float * float) :=
  call (plat_orb_copy sub)
       (fun r => EvCopy sub (fst (fst r)) (snd (fst r)) (snd r)).
Definition param_save_default : M Z :=
  call plat_param_save_default EvParamSave.

(** [param_set(param_find(str), &v)]. *)
Definition param_set_find (str : string) (v : param_value) : M Z :=
  fun w =>
    let (h, w1) := plat_param_find str w in
    let (r, w2) := plat_param_set h v w1 in
    Some (r, w2, [EvParamSet str h v r]).

(** [sphere_fit_least_squares(x, y, z, size, max_iterations, delta,
    &sphere_x, &sphere_y, &sphere_z, &sphere_radius)]; its status is not
    looked at. *)
Definition sphere_fit_least_squares (x y z : list float) (size : Z)
    (max_iterations : Z) (delta : float) (out : sphere) : M sphere :=
  let xs := firstn (Z.to_nat size) x in
  let ys := firstn (Z.to_nat size) y in
  let zs := firstn (Z.to_nat size) z in
  let r := plat_sphere_fit xs ys zs size max_iterations delta out in
  fun w => Some (r, w, [EvFit xs ys zs size max_iterations delta r]).

(** Reading automatic variables nothing was stored in. *)
Definition uninitialized : M sphere :=
  fun w => Some (plat_uninitialized w, w, []).

(** *** calibrate_instance: acquisition (lines 197-253) *)

Definition calibration_interval : Z := 25 * 1000 * 1000.
Definition calibration_maxcount : Z := 240.

(** The variables the acquisition loop reads and writes. *)
Record acq : Type := mk_acq {
  acq_res : Z;
  calibration_counter : Z;
  poll_errcount : Z;
  acq_x : list float;
  acq_y : list float;
  acq_z : list float
}.

(** One pass of the body of the [while], up to the check of
    [poll_errcount] (lines 220-242). *)
Definition acquire_poll (sub_mag : Z) (a : acq) : M acq :=
  poll_ret <- poll sub_mag 1000 ;;
  if 0 <? poll_ret then
    ' (mx, my, mz) <- orb_copy sub_mag ;;
    let i := Z.to_nat (calibration_counter a) in
    let c := uint32 (calibration_counter a + 1) in
    (if c mod (calibration_maxcount / 20) =? 0 then
       mavlink_and_console_log_info
         (CAL_PROGRESS_MSG sensor_name
            (uint32 (20 + uint32 (c * 50) / calibration_maxcount)))
     else ret tt) ;;
    ret (mk_acq (acq_res a) c (poll_errcount a)
           (store i mx (acq_x a)) (store i my (acq_y a)) (store i mz (acq_z a)))
  else
    ret (mk_acq (acq_res a) (calibration_counter a) (uint32 (poll_errcount a + 1))
           (acq_x a) (acq_y a) (acq_z a)).

(** The [while] loop (lines 217-249). *)
Fixpoint acquire (fuel : nat) (sub_mag calibration_deadline : Z) (a : acq)
    : M acq :=
  match fuel with
  | O => out_of_fuel
  | S fuel' =>
      now <- hrt_absolute_time ;;
      if (now <? calibration_deadline)
         && (calibration_counter a <? calibration_maxcount) then
        a1 <- acquire_poll sub_mag a ;;
        if 1000 <? poll_errcount a1 then
          mavlink_and_console_log_critical CAL_FAILED_SENSOR_MSG ;;
          ret (mk_acq ERROR (calibration_counter a1) (poll_errcount a1)
                 (acq_x a1) (acq_y a1) (acq_z a1))
        else acquire fuel' sub_mag calibration_deadline a1
      else ret a
  end.

(** Every pass adds one to [calibration_counter] (below 240) or to
    [poll_errcount] (at most 1000 on the next pass), so this many passes
    are never used up. *)
Definition acquire_fuel : nat := 1242.

(** The buffers [x], [y], [z]: 240 cells, of which only the first
    [calibration_counter] are ever read; the others are shown as zero. *)
Definition fresh_buffer : list float :=
  repeat Lit.f0_0 (Z.to_nat calibration_maxcount).

Definition acquisition (s : Z) (res : Z) : M acq :=
  if res =? OK then
    sub_mag <- orb_subscribe_multi s ;;
    if sub_mag <? 0 then
      mavlink_and_console_log_critical msg_no_mag_found ;;
      (* calibration_counter was not set and, res being ERROR, is not read *)
      ret (mk_acq ERROR 0 0 fresh_buffer fresh_buffer fresh_buffer)
    else
      orb_set_interval sub_mag
        (uint64 (calibration_interval / 1000) / calibration_maxcount) ;;
      t0 <- hrt_absolute_time ;;
      let calibration_deadline := uint64 (t0 + calibration_interval) in
      mavlink_and_console_log_info msg_turn_on_all_sides ;;
      a <- acquire acquire_fuel sub_mag calibration_deadline
             (mk_acq res 0 0 fresh_buffer fresh_buffer fresh_buffer) ;;
      close sub_mag ;;
      ret a
  else ret (mk_acq res 0 0 fresh_buffer fresh_buffer fresh_buffer).

(** *** calibrate_instance: sphere fit (lines 260-271) *)

Definition sphere_fit (a : acq) (sp : sphere) : M (Z * sphere) :=
  let res := acq_res a in
  if (res =? OK) && (calibration_maxcount / 2 <? calibration_counter a) then
    mavlink_and_console_log_info (CAL_PROGRESS_MSG sensor_name 70) ;;
    sp' <- sphere_fit_least_squares (acq_x a) (acq_y a) (acq_z a)
             (calibration_counter a) 100 Lit.f0_0 sp ;;
    mavlink_and_console_log_info (CAL_PROGRESS_MSG sensor_name 80) ;;
    let '(sphere_x, sphere_y, sphere_z, _) := sp' in
    if negb (isfinite sphere_x) || negb (isfinite sphere_y)
       || negb (isfinite sphere_z) then
      mavlink_and_console_log_critical msg_nan_in_sphere_fit ;;
      ret (ERROR, sp')
    else ret (res, sp')
  else ret (res, sp).

(** *** calibrate_instance: apply and set parameters (lines 285-377) *)

(** Lines 297-299. *)
Definition set_offsets (m : mag_scale) (sphere_x sphere_y sphere_z : float)
    : mag_scale :=
  mk_mag_scale sphere_x (x_scale m) sphere_y (y_scale m) sphere_z (z_scale m)
    (cal_temp m) (min_temp m) (max_temp m)
    (x1_temp m) (x2_temp m) (x3_temp m).

(** Lines 315-330. *)
Definition load_temperature_terms (m : mag_scale) : mag_scale :=
  mk_mag_scale (x_offset m) (x_scale m) (y_offset m) (y_scale m)
    (z_offset m) (z_scale m)
    Lit.f25_00 Lit.f3_30 Lit.f41_18
    (mk_float3 Lit.x1_0 Lit.x1_1 Lit.x1_2)
    (mk_float3 Lit.x2_0 Lit.x2_1 Lit.x2_2)
    (mk_float3 Lit.x3_0 Lit.x3_1 Lit.x3_2).

(** [sprintf(str, "CAL_MAG%u_<field>", s)]. *)
Definition cal_mag (s : Z) (field : string) : string :=
  ("CAL_MAG" ++ fmt_u s ++ "_" ++ field)%string.

(** [sprintf(str, "CAL_MAG%u_TA%uX<k>", s, j)]. *)
Definition cal_mag_ta (s j : Z) (k : string) : string :=
  ("CAL_MAG" ++ fmt_u s ++ "_TA" ++ fmt_u j ++ "X" ++ k)%string.

(** [failed |= (OK != param_set(param_find(str), &v));] *)
Definition set_field (str : string) (v : param_value) (failed : bool)
    : M bool :=
  r <- param_set_find str v ;;
  ret (failed || negb (OK =? r)).

(** Lines 333-363; gives the final [failed]. *)
Definition set_parameters (s device_id : Z) (mscale : mag_scale) : M bool :=
  let failed := false in
  failed <- set_field (cal_mag s "ID") (PWord device_id) failed ;;
  failed <- set_field (cal_mag s "XOFF") (PFloat (x_offset mscale)) failed ;;
  failed <- set_field (cal_mag s "YOFF") (PFloat (y_offset mscale)) failed ;;
  failed <- set_field (cal_mag s "ZOFF") (PFloat (z_offset mscale)) failed ;;
  failed <- set_field (cal_mag s "XSCALE") (PFloat (x_scale mscale)) failed ;;
  failed <- set_field (cal_mag s "YSCALE") (PFloat (y_scale mscale)) failed ;;
  failed <- set_field (cal_mag s "ZSCALE") (PFloat (z_scale mscale)) failed ;;
  failed <- set_field (cal_mag s "TMPNOM") (PFloat (cal_temp mscale)) failed ;;
  failed <- set_field (cal_mag s "TMPMIN") (PFloat (min_temp mscale)) failed ;;
  failed <- set_field (cal_mag s "TMPMAX") (PFloat (max_temp mscale)) failed ;;
  for_loop 4 0 3
    (fun j failed =>
       failed <- set_field (cal_mag_ta s j "0")
                   (PFloat (sel3 (x1_temp mscale) j)) failed ;;
       failed <- set_field (cal_mag_ta s j "1")
                   (PFloat (sel3 (x2_temp mscale) j)) failed ;;
       set_field (cal_mag_ta s j "2")
         (PFloat (sel3 (x3_temp mscale) j)) failed)
    failed.

Definition apply_calibration (s device_id : Z)
    (sphere_x sphere_y sphere_z : float) : M Z :=
  let str := (MAG_BASE_DEVICE_PATH ++ fmt_u s)%string in
  fd <- open str 0 ;;
  ' (res, mscale) <- ioctl_MAGIOCGSCALE fd ;;
  (if negb (res =? OK) then
     mavlink_and_console_log_critical msg_failed_to_get_calibration
   else ret tt) ;;
  ' (res, mscale) <-
    (if res =? OK then
       let mscale := set_offsets mscale sphere_x sphere_y sphere_z in
       res <- ioctl_MAGIOCSSCALE fd mscale ;;
       (if negb (res =? OK) then
          mavlink_and_console_log_critical CAL_FAILED_APPLY_CAL_MSG
        else ret tt) ;;
       ret (res, mscale)
     else ret (res, mscale)) ;;
  close fd ;;
  ' (res, mscale) <-
    (if res =? OK then
       let mscale :=
         if device_id =? 131594 then load_temperature_terms mscale
         else mscale in
       failed <- set_parameters s device_id mscale ;;
       res <- (if failed : bool then
                 mavlink_and_console_log_critical CAL_FAILED_SET_PARAMS_MSG ;;
                 ret ERROR
               else ret res) ;;
       mavlink_and_console_log_info (CAL_PROGRESS_MSG sensor_name 90) ;;
       ret (res, mscale)
     else ret (res, mscale)) ;;
  mavlink_and_console_log_info
    (msg_mag_off (x_offset mscale) (y_offset mscale) (z_offset mscale)) ;;
  mavlink_and_console_log_info
    (msg_mag_scale (x_scale mscale) (y_scale mscale) (z_scale mscale)) ;;
  ret res.

(** *** calibrate_instance (lines 158-380) *)

Definition calibrate_instance_run (s device_id : Z) : M Z :=
  x <- new_float calibration_maxcount ;;
  y <- new_float calibration_maxcount ;;
  z <- new_float calibration_maxcount ;;
  let res := OK in
  mavlink_and_console_log_info (CAL_PROGRESS_MSG sensor_name 20) ;;
  if negb x || negb y || negb z then
    mavlink_and_console_log_critical msg_out_of_memory ;;
    ret ERROR
  else
    a <- acquisition s res ;;
    sp <- uninitialized ;;
    ' (res, (sphere_x, sphere_y, sphere_z, _)) <- sphere_fit a sp ;;
    if res =? OK then apply_calibration s device_id sphere_x sphere_y sphere_z
    else ret res.

(** The routine between two observation points: its entry with its
    arguments and its return with its status. *)
Definition calibrate_instance (s device_id : Z) : M Z :=
  mark (EvEnter s device_id) ;;
  res <- calibrate_instance_run s device_id ;;
  mark (EvLeave s res) ;;
  ret res.

(** *** do_mag_calibration (lines 68-156) *)

Definition max_mags : Z := 3.

(** [mscale_null[0]]: the six values of the initialiser, the other members
    zero. *)
Definition mscale_null_0 : mag_scale :=
  mk_mag_scale Lit.f0_0 Lit.f1_0 Lit.f0_0 Lit.f1_0 Lit.f0_0 Lit.f1_0
    Lit.f0_0 Lit.f0_0 Lit.f0_0
    (mk_float3 Lit.f0_0 Lit.f0_0 Lit.f0_0)
    (mk_float3 Lit.f0_0 Lit.f0_0 Lit.f0_0)
    (mk_float3 Lit.f0_0 Lit.f0_0 Lit.f0_0).

(** The variables that live across the passes of the [for] loop. *)
Record cal : Type := mk_cal { cal_res : Z; calibrated_ok : Z }.

(** The body of the [for] loop (lines 95-136).  [device_id[s]] and
    [mscale_null[s]] are stored and read within one pass. *)
Definition calibrate_mag (s : Z) (st : cal) : M cal :=
  let str := (MAG_BASE_DEVICE_PATH ++ fmt_u s)%string in
  fd <- open str O_RDONLY ;;
  if fd <? 0 then ret st
  else
    mavlink_and_console_log_info (msg_calibrating_magnetometer s) ;;
    sleep 3 ;;
    device_id_s <- ioctl_DEVIOCGDEVICEID fd ;;
    let mscale_null_s := mscale_null_0 in
    res <- ioctl_MAGIOCSSCALE fd mscale_null_s ;;
    (if negb (res =? OK) then
       mavlink_and_console_log_critical CAL_FAILED_RESET_CAL_MSG
     else ret tt) ;;
    res <- (if res =? OK then
              res <- ioctl_MAGIOCCALIBRATE fd ;;
              if negb (res =? OK) then
                mavlink_and_console_log_info msg_skipped_scale_calibration ;;
                ret OK
              else ret res
            else ret res) ;;
    close fd ;;
    if res =? OK then
      res <- calibrate_instance s (uint32 device_id_s) ;;
      if res =? OK then ret (mk_cal res (uint32 (calibrated_ok st + 1)))
      else ret (mk_cal res (calibrated_ok st))
    else ret (mk_cal res (calibrated_ok st)).

(** Lines 93-137. *)
Definition calibrate_all_mags : M cal :=
  for_loop 4 0 max_mags calibrate_mag (mk_cal ERROR 0).

Definition do_mag_calibration : M Z :=
  mavlink_and_console_log_info (CAL_STARTED_MSG sensor_name) ;;
  sleep 1 ;;
  st <- calibrate_all_mags ;;
  if negb (calibrated_ok st =? 0) then
    mavlink_and_console_log_info (CAL_PROGRESS_MSG sensor_name 100) ;;
    usleep 100000 ;;
    mavlink_and_console_log_info (CAL_DONE_MSG sensor_name) ;;
    res <- param_save_default ;;
    (if negb (res =? OK) then
       mavlink_and_console_log_critical CAL_FAILED_SAVE_PARAMS_MSG
     else ret tt) ;;
    ret res
  else
    mavlink_and_console_log_critical (CAL_FAILED_MSG sensor_name) ;;
    ret (cal_res st).
End Routine.

(** ** A simulated platform

    A scripted test double: the answers of the fallible calls are read off
    lists held in the world, in the order the calls are made; a call whose
    script is used up gets the default answer.  The clock is advanced by
    [sleep] and by [poll]. *)
Module Sim.

Record world : Type := mk_world {
  clock : Z;                       (* microseconds *)
  devices : list string;           (* the paths that can be opened *)
  device_id : Z;                   (* answer of DEVIOCGDEVICEID *)
  device_scale : mag_scale;        (* what MAGIOCGSCALE reads *)
  sscale_script : list Z;          (* MAGIOCSSCALE; default OK *)
  gscale_script : list Z;          (* MAGIOCGSCALE; default OK *)
  rangecal_script : list Z;        (* MAGIOCCALIBRATE; default OK *)
  poll_script : list Z;            (* poll; default 0, a timeout *)
  sample : float * float * float;  (* what orb_copy delivers *)
  param_script : list Z;           (* param_set; default OK *)
  save_status : Z;                 (* param_save_default *)
  garbage : sphere                 (* uninitialised automatic variables *)
}.

Definition next (script : list Z) (default : Z) : Z * list Z :=
  match script with
  | [] => (default, [])
  | r :: rest => (r, rest)
  end.

Definition with_clock (t : Z) (w : world) : world :=
  mk_world t (devices w) (device_id w) (device_scale w) (sscale_script w)
    (gscale_script w) (rangecal_script w) (poll_script w) (sample w)
    (param_script w) (save_status w) (garbage w).

Definition sim_open (path : string) (flags : Z) (w : world) : Z * world :=
  (if existsb (String.eqb path) (devices w) then 3 else -1, w).

Definition sim_sscale (fd : Z) (m : mag_scale) (w : world) : Z * world :=
  let (r, rest) := next (sscale_script w) OK in
  (r, mk_world (clock w) (devices w) (device_id w)
        (if r =? OK then m else device_scale w) rest
        (gscale_script w) (rangecal_script w) (poll_script w) (sample w)
        (param_script w) (save_status w) (garbage w)).

Definition sim_gscale (fd : Z) (w : world) : (Z * mag_scale) * world :=
  let (r, rest) := next (gscale_script w) OK in
  ((r, device_scale w),
   mk_world (clock w) (devices w) (device_id w) (device_scale w)
     (sscale_script w) rest (rangecal_script w) (poll_script w) (sample w)
     (param_script w) (save_status w) (garbage w)).

Definition sim_rangecal (fd : Z) (w : world) : Z * world :=
  let (r, rest) := next (rangecal_script w) OK in
  (r, mk_world (clock w) (devices w) (device_id w) (device_scale w)
        (sscale_script w) (gscale_script w) rest (poll_script w) (sample w)
        (param_script w) (save_status w) (garbage w)).

(** A sample arrives after the interval set on the topic (104 ms), a
    timeout takes the whole second, an error comes back at once. *)
Definition sim_poll (fd timeout : Z) (w : world) : Z * world :=
  let (r, rest) := next (poll_script w) 0 in
  let dt := if 0 <? r then 104000 else if r =? 0 then timeout * 1000 else 0 in
  (r, mk_world (clock w + dt) (devices w) (device_id w) (device_scale w)
        (sscale_script w) (gscale_script w) (rangecal_script w) rest
        (sample w) (param_script w) (save_status w) (garbage w)).

Definition sim_param_set (h : Z) (v : param_value) (w : world) : Z * world :=
  let (r, rest) := next (param_script w) OK in
  (r, mk_world (clock w) (devices w) (device_id w) (device_scale w)
        (sscale_script w) (gscale_script w) (rangecal_script w)
        (poll_script w) (sample w) rest (save_status w) (garbage w)).

(** A stand-in for the fit: each coordinate of the centre is the first cell
    of its array when the first and the last cell are finite, and
    not-a-number otherwise. *)
Definition sim_fit (x y z : list float) (size max_iterations : Z)
    (delta : float) (out : sphere) : sphere :=
  let pick (l : list float) :=
    match l with
    | [] => S754_nan
    | c :: _ => if isfinite c && isfinite (last l c) then c else S754_nan
    end in
  (pick x, pick y, pick z, Lit.f1_0).

#[global] Instance platform : Platform world := {|
  MAG_BASE_DEVICE_PATH := "/dev/mag";
  plat_log := fun _ _ w => w;
  plat_sleep := fun usec w => with_clock (clock w + usec) w;
  plat_open := sim_open;
  plat_close := fun _ w => w;
  plat_DEVIOCGDEVICEID := fun _ w => (device_id w, w);
  plat_MAGIOCSSCALE := sim_sscale;
  plat_MAGIOCGSCALE := sim_gscale;
  plat_MAGIOCCALIBRATE := sim_rangecal;
  plat_new := fun _ w => (true, w);
  plat_orb_subscribe_multi := fun _ w => (4, w);
  plat_orb_set_interval := fun _ _ w => w;
  plat_hrt_absolute_time := fun w => (clock w, w);
  plat_poll := sim_poll;
  plat_orb_copy := fun _ w => (sample w, w);
  plat_sphere_fit := sim_fit;
  plat_param_find := fun _ w => (1, w);
  plat_param_set := sim_param_set;
  plat_param_save_default := fun w => (save_status w, w);
  plat_uninitialized := garbage
|}.

(** The reading every [orb_copy] delivers: (25, -25, 1). *)
Definition a_sample : float * float * float :=
  (S754_finite false 13107200 (-19), S754_finite true 13107200 (-19),
   S754_finite false 8388608 (-23)).

Definition nan_sphere : sphere := (S754_nan, S754_nan, S754_nan, S754_nan).

(** One magnetometer at index 0, everything answering OK, no sample yet. *)
Definition one_mag : world :=
  mk_world 0 ["/dev/mag0"] 131594 mscale_null_0 [] [] [] [] a_sample [] OK
    nan_sphere.

Definition with_polls (script : list Z) (w : world) : world :=
  mk_world (clock w) (devices w) (device_id w) (device_scale w)
    (sscale_script w) (gscale_script w) (rangecal_script w) script
    (sample w) (param_script w) (save_status w) (garbage w).

End Sim.

(** The worlds the examples below are run in. *)
Module Scenario.

(** No sample ever arrives: every poll times out. *)
Definition silent : Sim.world := Sim.one_mag.

(** Exactly half of the buffer is filled before the stream dries up. *)
Definition half : Sim.world := Sim.with_polls (repeat 1 120) Sim.one_mag.

(** A full buffer of good samples, but the parameters cannot be saved. *)
Definition unsaved : Sim.world :=
  Sim.mk_world 0 ["/dev/mag0"] 131594 mscale_null_0 [] [] [] (repeat 1 240)
    Sim.a_sample [] ERROR Sim.nan_sphere.

(** A thousand failed polls, one sample, one more failed poll. *)
Definition flaky : Sim.world :=
  Sim.with_polls (repeat (-1) 1000 ++ [1; -1]) Sim.one_mag.

(** The device refuses the reset of its scale. *)
Definition no_reset : Sim.world :=
  Sim.mk_world 0 ["/dev/mag0"] 131594 mscale_null_0 [ERROR] [] [] (repeat 1 240)
    Sim.a_sample [] OK Sim.nan_sphere.

(** The device refuses its range calibration; the samples are good. *)
Definition no_range : Sim.world :=
  Sim.mk_world 0 ["/dev/mag0"] 131594 mscale_null_0 [] [] [ERROR] (repeat 1 240)
    Sim.a_sample [] OK Sim.nan_sphere.

(** Two magnetometers: the polls of the first all fail at once, the second
    delivers a full buffer. *)
Definition second_only : Sim.world :=
  Sim.mk_world 0 ["/dev/mag0"; "/dev/mag1"] 131594 mscale_null_0 [] [] []
    (repeat (-1) 1001 ++ repeat 1 240) Sim.a_sample [] OK Sim.nan_sphere.

End Scenario.

(** ** What a run shows *)

(** The calls and the value of a result ([[]] and [None] for a run that did
    not come to an end). *)
Definition trace {W A} (r : option (A * W * list event)) : list event :=
  match r with Some (_, _, evs) => evs | None => [] end.

Definition value {W A} (r : option (A * W * list event)) : option A :=
  match r with Some (a, _, _) => Some a | None => None end.

(** What a run shows of the events of one kind. *)
Definition fit_sizes (evs : list event) : list Z :=
  flat_map (fun e => match e with EvFit _ _ _ n _ _ _ => [n] | _ => [] end) evs.

Definition param_writes (evs : list event) : list (string * param_value) :=
  flat_map (fun e => match e with EvParamSet n _ v _ => [(n, v)] | _ => [] end) evs.

Definition param_status (evs : list event) : list Z :=
  flat_map (fun e => match e with EvParamSet _ _ _ r => [r] | _ => [] end) evs.

(** The structs handed to the device, each with the status that came back. *)
Definition device_writes (evs : list event) : list (mag_scale * Z) :=
  flat_map (fun e => match e with EvSetScale _ m r => [(m, r)] | _ => [] end) evs.

Definition poll_results (evs : list event) : list Z :=
  flat_map (fun e => match e with EvPoll _ _ r => [r] | _ => [] end) evs.

(** The instances whose calibration returned OK, in the order they did. *)
Definition succeeded_instances (evs : list event) : list Z :=
  flat_map (fun e => match e with
                     | EvLeave s r => if r =? OK then [s] else []
                     | _ => []
                     end) evs.

Definition save_results (evs : list event) : list Z :=
  flat_map (fun e => match e with EvParamSave r => [r] | _ => [] end) evs.

(** The polls of a run that brought no sample, and those that did. *)
Fixpoint failed_polls (evs : list event) : Z :=
  match evs with
  | [] => 0
  | EvPoll _ _ r :: t => (if 0 <? r then 0 else 1) + failed_polls t
  | _ :: t => failed_polls t
  end.

Fixpoint samples_received (evs : list event) : Z :=
  match evs with
  | [] => 0
  | EvPoll _ _ r :: t => (if 0 <? r then 1 else 0) + samples_received t
  | _ :: t => samples_received t
  end.

(** The failure counter as the specification words it: a received sample
    sets it back to zero.  [consecutive_failures c polls] is its value after
    the polls, from [c]; [ever_exceeds limit c polls] says whether it was ever
    above [limit] on the way. *)
Fixpoint consecutive_failures (c : Z) (polls : list Z) : Z :=
  match polls with
  | [] => c
  | r :: t => consecutive_failures (if 0 <? r then 0 else c + 1) t
  end.

Fixpoint ever_exceeds (limit c : Z) (polls : list Z) : bool :=
  match polls with
  | [] => false
  | r :: t =>
      let c' := if 0 <? r then 0 else c + 1 in
      (limit <? c') || ever_exceeds limit c' t
  end.

(** ** Classes of calls *)

(** The calls the loop makes. *)
Definition acquire_event (e : event) : Prop :=
  match e with
  | EvTime _ | EvPoll _ _ _ | EvCopy _ _ _ _ | EvLog _ _ => True
  | _ => False
  end.

(** The calls of the allocation and of the acquisition for [s]: none to the
    device, to the fit or to the parameter store. *)
Definition sampling_event (s : Z) (e : event) : Prop :=
  match e with
  | EvSubscribe s' _ => s' = s
  | EvLog _ _ | EvNew _ _ | EvSetInterval _ _ | EvTime _
  | EvPoll _ _ _ | EvCopy _ _ _ _ | EvClose _ => True
  | _ => False
  end.

(** The calls of the apply step. *)
Definition apply_event (e : event) : Prop :=
  match e with
  | EvOpen _ _ _ | EvGetScale _ _ _ | EvSetScale _ _ _ | EvClose _
  | EvLog _ _ | EvParamSet _ _ _ _ => True
  | _ => False
  end.

(** The calls of the parameter-write sequence. *)
Definition is_param_set (e : event) : Prop :=
  match e with EvParamSet _ _ _ _ => True | _ => False end.

(** The calls that [calibrate_instance] makes for instance [s] on a platform
    whose devices are at [base]: it opens no other device, subscribes to no
    other topic instance and writes no other instance's parameters. *)
Definition inner (base : string) (s : Z) (e : event) : Prop :=
  match e with
  | EvOpen p _ _ => p = (base ++ fmt_u s)%string
  | EvSubscribe s' _ => s' = s
  | EvParamSet n _ _ _ => exists field, n = ("CAL_MAG" ++ fmt_u s ++ "_" ++ field)%string
  | EvLog _ _ | EvClose _ | EvSetScale _ _ _ | EvGetScale _ _ _ | EvNew _ _
  | EvSetInterval _ _ | EvTime _ | EvPoll _ _ _ | EvCopy _ _ _ _
  | EvFit _ _ _ _ _ _ _ => True
  | EvSleep _ | EvDeviceId _ _ | EvRangeCal _ _ | EvParamSave _
  | EvEnter _ _ | EvLeave _ _ => False
  end.

(** The calls of one pass of the loop of [do_mag_calibration], for [s]. *)
Definition about (base : string) (s : Z) (e : event) : Prop :=
  match e with
  | EvOpen p _ _ => p = (base ++ fmt_u s)%string
  | EvSubscribe s' _ => s' = s
  | EvParamSet n _ _ _ => exists field, n = ("CAL_MAG" ++ fmt_u s ++ "_" ++ field)%string
  | EvEnter s' _ => s' = s
  | EvLeave s' _ => s' = s
  | EvParamSave _ => False
  | _ => True
  end.

(** The calls a pass of the loop of [do_mag_calibration] can make: anything
    but the save of the parameters and the message of its failure. *)
Definition pass_event (e : event) : Prop :=
  match e with
  | EvParamSave _ => False
  | EvLog _ CAL_FAILED_SAVE_PARAMS_MSG => False
  | _ => True
  end.

(** The calls after the loop. *)
Definition closing_event (e : event) : Prop :=
  match e with
  | EvLog _ _ | EvSleep _ | EvParamSave _ => True
  | _ => False
  end.

(** [touches base s e]: the call [e] addresses instance [s]: it opens its
    device, subscribes to its topic, writes one of its parameters, or is the
    entry or the return of its calibration. *)
Definition touches (base : string) (s : Z) (e : event) : Prop :=
  match e with
  | EvOpen p _ _ => p = (base ++ fmt_u s)%string
  | EvSubscribe s' _ => s' = s
  | EvParamSet n _ _ _ => exists field, n = ("CAL_MAG" ++ fmt_u s ++ "_" ++ field)%string
  | EvEnter s' _ => s' = s
  | EvLeave s' _ => s' = s
  | _ => False
  end.

(** The decimal digits a string starts with. *)
Definition is_digit (c : ascii) : bool :=
  existsb (Ascii.eqb c) ["0"; "1"; "2"; "3"; "4"; "5"; "6"; "7"; "8"; "9"]%char.

Fixpoint leading_digits (str : string) : string :=
  match str with
  | String c r => if is_digit c then String c (leading_digits r) else EmptyString
  | EmptyString => EmptyString
  end.

(** ** Statements about runs *)

(** [wp m w Q]: from [w] the computation [m] comes to an end, and its value,
    final world and calls satisfy [Q]. *)
Definition wp {W A} (m : M W A) (w : W) (Q : A -> W -> list event -> Prop) : Prop :=
  match m w with
  | Some (a, w', evs) => Q a w' evs
  | None => False
  end.

(** [emits P m]: [m] always comes to an end, and makes only calls in [P]. *)
Definition emits {W} (P : event -> Prop) {A} (m : M W A) : Prop :=
  forall w, wp m w (fun _ _ evs => Forall P evs).

(** What a run of the acquisition loop comes to: where the counters end,
    and how. *)
Definition acquired (a a' : acq) (evs : list event) : Prop :=
  Forall acquire_event evs /\
  poll_errcount a' = poll_errcount a + failed_polls evs /\
  calibration_counter a' = calibration_counter a + samples_received evs /\
  calibration_counter a' <= calibration_maxcount /\
  ((acq_res a' = ERROR /\ poll_errcount a' = 1001 /\
    In (EvLog critical CAL_FAILED_SENSOR_MSG) evs)
   \/ (acq_res a' = acq_res a /\ poll_errcount a' <= 1000 /\
       ~ In (EvLog critical CAL_FAILED_SENSOR_MSG) evs)).

(** The nineteen parameters of instance [s], with the values they are given
    from the device identity and a scale struct, in the order of the
    source. *)
Definition parameter_fields (s device_id : Z) (m : mag_scale)
    : list (string * param_value) :=
  [("CAL_MAG" ++ fmt_u s ++ "_ID", PWord device_id);
   ("CAL_MAG" ++ fmt_u s ++ "_XOFF", PFloat (x_offset m));
   ("CAL_MAG" ++ fmt_u s ++ "_YOFF", PFloat (y_offset m));
   ("CAL_MAG" ++ fmt_u s ++ "_ZOFF", PFloat (z_offset m));
   ("CAL_MAG" ++ fmt_u s ++ "_XSCALE", PFloat (x_scale m));
   ("CAL_MAG" ++ fmt_u s ++ "_YSCALE", PFloat (y_scale m));
   ("CAL_MAG" ++ fmt_u s ++ "_ZSCALE", PFloat (z_scale m));
   ("CAL_MAG" ++ fmt_u s ++ "_TMPNOM", PFloat (cal_temp m));
   ("CAL_MAG" ++ fmt_u s ++ "_TMPMIN", PFloat (min_temp m));
   ("CAL_MAG" ++ fmt_u s ++ "_TMPMAX", PFloat (max_temp m));
   ("CAL_MAG" ++ fmt_u s ++ "_TA0X0", PFloat (at0 (x1_temp m)));
   ("CAL_MAG" ++ fmt_u s ++ "_TA0X1", PFloat (at0 (x2_temp m)));
   ("CAL_MAG" ++ fmt_u s ++ "_TA0X2", PFloat (at0 (x3_temp m)));
   ("CAL_MAG" ++ fmt_u s ++ "_TA1X0", PFloat (at1 (x1_temp m)));
   ("CAL_MAG" ++ fmt_u s ++ "_TA1X1", PFloat (at1 (x2_temp m)));
   ("CAL_MAG" ++ fmt_u s ++ "_TA1X2", PFloat (at1 (x3_temp m)));
   ("CAL_MAG" ++ fmt_u s ++ "_TA2X0", PFloat (at2 (x1_temp m)));
   ("CAL_MAG" ++ fmt_u s ++ "_TA2X1", PFloat (at2 (x2_temp m)));
   ("CAL_MAG" ++ fmt_u s ++ "_TA2X2", PFloat (at2 (x3_temp m)))]%string.

(** The scale struct after lines 297-299 and 314-331, member by member: the
    offsets are the centre, the scale factors are as read, the temperature
    members are the table for the identity 131594 and as read otherwise. *)
Definition scale_for_parameters (device_id : Z) (m : mag_scale)
    (cx cy cz : float) : mag_scale :=
  let known := device_id =? 131594 in
  mk_mag_scale cx (x_scale m) cy (y_scale m) cz (z_scale m)
    (if known then Lit.f25_00 else cal_temp m)
    (if known then Lit.f3_30 else min_temp m)
    (if known then Lit.f41_18 else max_temp m)
    (if known then mk_float3 Lit.x1_0 Lit.x1_1 Lit.x1_2 else x1_temp m)
    (if known then mk_float3 Lit.x2_0 Lit.x2_1 Lit.x2_2 else x2_temp m)
    (if known then mk_float3 Lit.x3_0 Lit.x3_1 Lit.x3_2 else x3_temp m).

(** The struct handed back to the device: only the offsets differ from the
    one read. *)
Definition scale_for_device (m : mag_scale) (cx cy cz : float) : mag_scale :=
  mk_mag_scale cx (x_scale m) cy (y_scale m) cz (z_scale m)
    (cal_temp m) (min_temp m) (max_temp m)
    (x1_temp m) (x2_temp m) (x3_temp m).

Definition write_failed (r : Z) : bool := negb (OK =? r).

(** What a run of the apply step comes to. *)
Definition applied (path : string) (s device_id : Z) (cx cy cz : float)
    (res : Z) (evs : list event) : Prop :=
  exists fd gr m rest,
    evs = EvOpen path 0 fd :: EvGetScale fd gr m :: rest /\
    ((gr <> OK /\ res = gr /\ device_writes rest = [] /\ param_writes rest = []
      /\ param_status rest = [])
     \/ (gr = OK /\ exists sr,
           device_writes rest = [(scale_for_device m cx cy cz, sr)] /\
           ((sr <> OK /\ res = sr /\ param_writes rest = []
             /\ param_status rest = [])
            \/ (sr = OK /\
                param_writes rest
                  = parameter_fields s device_id
                      (scale_for_parameters device_id m cx cy cz) /\
                List.length (param_status rest) = 19%nat /\
                res = (if existsb write_failed (param_status rest)
                       then ERROR else OK))))).

Definition finite_centre (cx cy cz : float) : bool :=
  isfinite cx && isfinite cy && isfinite cz.

(** The calls of the fit phase when the fit is invoked on [n] samples and
    gives the centre [cx], [cy], [cz]. *)
Definition fit_events (xs ys zs : list float) (n : Z) (cx cy cz r : float)
    : list event :=
  EvLog info (CAL_PROGRESS_MSG sensor_name 70)
    :: EvFit xs ys zs n 100 Lit.f0_0 (cx, cy, cz, r)
    :: EvLog info (CAL_PROGRESS_MSG sensor_name 80)
    :: (if finite_centre cx cy cz then []
        else [EvLog critical msg_nan_in_sphere_fit]).

(** What a run of [calibrate_instance] comes to: the sampling, then the fit
    if more than half of the buffer was filled, then the apply step if the
    status is still OK. *)
Definition instance_run (path : string) (s device_id : Z) (res : Z)
    (evs : list event) : Prop :=
  exists pre fit app,
    evs = pre ++ fit ++ app /\
    Forall (sampling_event s) pre /\
    Forall apply_event app /\
    ((fit = [] /\
      ((app = [] /\ res = ERROR)
       \/ (samples_received pre <= 120 /\
           exists cx cy cz, applied path s device_id cx cy cz res app)))
     \/ (exists xs ys zs n cx cy cz r,
           120 < n <= 240 /\ n = samples_received pre /\
           fit = fit_events xs ys zs n cx cy cz r /\
           if finite_centre cx cy cz
           then applied path s device_id cx cy cz res app
           else app = [] /\ res = ERROR)).

(** How a pass leaves the variables of the loop: untouched when the device
    did not open ([None]), otherwise with the status the pass ended on, and
    one more calibrated instance when that status is OK. *)
Definition next_cal (o : option Z) (st : cal) : cal :=
  match o with
  | None => st
  | Some res =>
      mk_cal res (if res =? OK then uint32 (calibrated_ok st + 1)
                  else calibrated_ok st)
  end.

Definition outcome_ok (o : option Z) : bool :=
  match o with
  | Some res => res =? OK
  | None => false
  end.

(** The path of the device of instance [s]. *)
Definition device_path {W} {P : Platform W} (s : Z) : string :=
  (MAG_BASE_DEVICE_PATH ++ fmt_u s)%string.

(** The events of a pass up to the call of [calibrate_instance]. *)
Definition pass_prefix {W} {P : Platform W} (s fd id r : Z) : list event :=
  [EvOpen (MAG_BASE_DEVICE_PATH ++ fmt_u s)%string O_RDONLY fd;
   EvLog info (msg_calibrating_magnetometer s);
   EvSleep 3000000;
   EvDeviceId fd id;
   EvSetScale fd mscale_null_0 r].

(** ** Further observations of a run *)

(** The samples [orb_copy] delivered, coordinate by coordinate. *)
Definition copied_x (evs : list event) : list float :=
  flat_map (fun e => match e with EvCopy _ x _ _ => [x] | _ => [] end) evs.

Definition copied_y (evs : list event) : list float :=
  flat_map (fun e => match e with EvCopy _ _ y _ => [y] | _ => [] end) evs.

Definition copied_z (evs : list event) : list float :=
  flat_map (fun e => match e with EvCopy _ _ _ z => [z] | _ => [] end) evs.

(** The percentages of the progress messages, in the order they were sent. *)
Definition progress_values (evs : list event) : list Z :=
  flat_map (fun e => match e with
                     | EvLog _ (CAL_PROGRESS_MSG _ p) => [p]
                     | _ => []
                     end) evs.

(** The number of descriptors held: [open] and [orb_subscribe_multi] give
    one when they answer a non-negative descriptor, [close] of such a
    descriptor gives it back. *)
Definition handle_step (c : Z) (e : event) : Z :=
  match e with
  | EvOpen _ _ fd => if fd <? 0 then c else c + 1
  | EvSubscribe _ sub => if sub <? 0 then c else c + 1
  | EvClose fd => if fd <? 0 then c else c - 1
  | _ => c
  end.

(** Held after the calls, from [c] held before. *)
Fixpoint held (c : Z) (evs : list event) : Z :=
  match evs with
  | [] => c
  | e :: t => held (handle_step c e) t
  end.

(** The most that were held at any point of the calls. *)
Fixpoint peak (c : Z) (evs : list event) : Z :=
  match evs with
  | [] => c
  | e :: t => Z.max c (peak (handle_step c e) t)
  end.

(** The calls that neither take nor give back a descriptor. *)
Definition handle_free (e : event) : Prop :=
  match e with
  | EvOpen _ _ _ | EvSubscribe _ _ | EvClose _ => False
  | _ => True
  end.

(** The scales read from the device, each with the status of the read. *)
Definition scale_reads (evs : list event) : list (Z * mag_scale) :=
  flat_map (fun e => match e with EvGetScale _ r m => [(r, m)] | _ => [] end) evs.



(** The names of the parameters a run wrote. *)
Definition param_names (evs : list event) : list string :=
  map fst (param_writes evs).

(** The percentage reported once [c] samples are in the buffers. *)
Definition pct (c : Z) : Z := 20 + c * 50 / 240.

(** What the loop keeps of its buffers and of the progress it reports: the
    buffers keep their length, the cells below [calibration_counter] are
    the cells that were there followed by the samples copied, in the order
    they came, and the percentages never go down. *)
Definition kept (a a' : acq) (evs : list event) : Prop :=
  List.length (acq_x a') = List.length (acq_x a) /\
  List.length (acq_y a') = List.length (acq_y a) /\
  List.length (acq_z a') = List.length (acq_z a) /\
  firstn (Z.to_nat (calibration_counter a')) (acq_x a')
    = firstn (Z.to_nat (calibration_counter a)) (acq_x a) ++ copied_x evs /\
  firstn (Z.to_nat (calibration_counter a')) (acq_y a')
    = firstn (Z.to_nat (calibration_counter a)) (acq_y a) ++ copied_y evs /\
  firstn (Z.to_nat (calibration_counter a')) (acq_z a')
    = firstn (Z.to_nat (calibration_counter a)) (acq_z a) ++ copied_z evs /\
  StronglySorted Z.le (progress_values evs) /\
  Forall (fun p => pct (calibration_counter a + 1) <= p <= 70) (progress_values evs).

(** The readings of the clock, in the order they were made. *)
Definition clock_readings (evs : list event) : list Z :=
  flat_map (fun e => match e with EvTime t => [t] | _ => [] end) evs.

(** The readings of the clock that a poll directly follows. *)
Fixpoint poll_times (evs : list event) : list Z :=
  match evs with
  | [] => []
  | EvTime t :: rest =>
      match rest with
      | EvPoll _ _ _ :: _ => t :: poll_times rest
      | _ => poll_times rest
      end
  | _ :: rest => poll_times rest
  end.

(** The calls that use the subscription [sub] as the routine does: polls
    of [sub] with a timeout of 1000 ms, copies from [sub], and the update
    interval of 104 ms set on [sub]. *)
Definition reads_from (sub : Z) (e : event) : Prop :=
  match e with
  | EvPoll fd timeout _ => fd = sub /\ timeout = 1000
  | EvCopy sub' _ _ _ => sub' = sub
  | EvSetInterval sub' ms => sub' = sub /\ ms = 104
  | _ => True
  end.

(** What follows the poll within a pass of the loop. *)
Definition sample_event (sub : Z) (e : event) : Prop :=
  match e with
  | EvCopy sub' _ _ _ => sub' = sub
  | EvLog _ _ => True
  | _ => False
  end.

(** A list that does not start with a poll. *)
Definition not_a_poll (l : list event) : Prop :=
  match l with EvPoll _ _ _ :: _ => False | _ => True end.

(** How the loop is paced: every poll directly follows a reading of the
    clock that was below the deadline, everything is read from [sub], and a
    loop that was not aborted ends on a reading of the clock that is not
    below the deadline, or with a full buffer. *)
Definition paced (sub deadline : Z) (a' : acq) (evs : list event) : Prop :=
  List.length (poll_times evs) = List.length (poll_results evs) /\
  Forall (fun t => t < deadline) (poll_times evs) /\
  Forall (reads_from sub) evs /\
  clock_readings evs <> [] /\
  (poll_errcount a' <= 1000 ->
   calibration_counter a' < calibration_maxcount ->
   deadline <= last (clock_readings evs) 0).

(** ** The anatomy of a run of calibrate_instance *)

(** The calls of the allocation (lines 167-175). *)
Definition allocations (x y z : bool) : list event :=
  [EvNew calibration_maxcount x; EvNew calibration_maxcount y;
   EvNew calibration_maxcount z;
   EvLog info (CAL_PROGRESS_MSG sensor_name 20)].

(** The variables of the loop as line 215 leaves them. *)
Definition start_acq : acq :=
  mk_acq OK 0 0 fresh_buffer fresh_buffer fresh_buffer.

(** What a run of the apply step comes to, descriptor and progress
    included. *)
Definition apply_run (path : string) (s device_id : Z) (cx cy cz : float)
    (res : Z) (evs : list event) : Prop :=
  applied path s device_id cx cy cz res evs /\
  Forall apply_event evs /\
  (forall c, held c evs = c /\ peak c evs <= c + 1) /\
  Forall (fun p => p = 90) (progress_values evs) /\
  ~ In (EvLog critical CAL_FAILED_SENSOR_MSG) evs /\
  List.length (scale_reads evs) = 1%nat.

(** What follows the acquisition that left the loop variables [a]: nothing
    after an abort; the apply step alone when at most half of the buffer
    was filled; otherwise the fit on the cells filled, and the apply step
    if the centre is finite. *)
Definition after_acquisition (path : string) (s device_id : Z) (a : acq)
    (res : Z) (rest : list event) : Prop :=
  (acq_res a = ERROR /\ res = ERROR /\ rest = [])
  \/ (acq_res a = OK /\ calibration_counter a <= 120 /\
      exists cx cy cz, apply_run path s device_id cx cy cz res rest)
  \/ (acq_res a = OK /\ 120 < calibration_counter a /\
      exists cx cy cz r post,
        rest = fit_events
                 (firstn (Z.to_nat (calibration_counter a)) (acq_x a))
                 (firstn (Z.to_nat (calibration_counter a)) (acq_y a))
                 (firstn (Z.to_nat (calibration_counter a)) (acq_z a))
                 (calibration_counter a) cx cy cz r ++ post /\
        if finite_centre cx cy cz
        then apply_run path s device_id cx cy cz res post
        else post = [] /\ res = ERROR).

(** The three ways a run of [calibrate_instance] goes: out of memory, no
    topic, or the acquisition and what follows it. *)
Definition anatomy (path : string) (s device_id : Z) (res : Z)
    (evs : list event) : Prop :=
  (exists x y z,
      x && y && z = false /\ res = ERROR /\
      evs = allocations x y z ++ [EvLog critical msg_out_of_memory])
  \/ (exists sub,
        sub < 0 /\ res = ERROR /\
        evs = allocations true true true
                ++ [EvSubscribe s sub; EvLog critical msg_no_mag_found])
  \/ (exists sub t0 a loop rest,
        0 <= sub /\
        evs = allocations true true true
                ++ EvSubscribe s sub :: EvSetInterval sub 104 :: EvTime t0
                :: EvLog info msg_turn_on_all_sides :: loop
                ++ EvClose sub :: rest /\
        acquired start_acq a loop /\ kept start_acq a loop /\
        paced sub (uint64 (t0 + calibration_interval)) a loop /\
        after_acquisition path s device_id a res rest).

(** The names of the nineteen parameters of instance [s]. *)
Definition field_names (s : Z) : list string :=
  map fst (parameter_fields s 0 mscale_null_0).

(** No string occurs twice. *)
Fixpoint distinct (l : list string) : bool :=
  match l with
  | [] => true
  | h :: t => negb (existsb (String.eqb h) t) && distinct t
  end.

(** The calls between the reset of the scale and the entry of
    [calibrate_instance]: the range calibration, and the message when it
    failed. *)
Definition range_calibration (fd rr : Z) : list event :=
  EvRangeCal fd rr
    :: (if rr =? OK then [] else [EvLog info msg_skipped_scale_calibration]).

(** The status the loop of [do_mag_calibration] is left with after passes
    of the given outcomes: the one of the last pass whose device opened,
    and the initial ERROR when none did (lines 87, 111, 119-125, 131). *)
Definition last_status (outcomes : list (option Z)) : Z :=
  fold_left (fun r o => match o with Some r' => r' | None => r end)
    outcomes ERROR.

(** Variants of the simulated platform with one collaborator failing. *)
Module SimFaults.

(** No memory: every [new] gives a null pointer. *)
Definition starved : Platform Sim.world := {|
  MAG_BASE_DEVICE_PATH := "/dev/mag";
  plat_log := fun _ _ w => w;
  plat_sleep := fun usec w => Sim.with_clock (Sim.clock w + usec) w;
  plat_open := Sim.sim_open;
  plat_close := fun _ w => w;
  plat_DEVIOCGDEVICEID := fun _ w => (Sim.device_id w, w);
  plat_MAGIOCSSCALE := Sim.sim_sscale;
  plat_MAGIOCGSCALE := Sim.sim_gscale;
  plat_MAGIOCCALIBRATE := Sim.sim_rangecal;
  plat_new := fun _ w => (false, w);
  plat_orb_subscribe_multi := fun _ w => (4, w);
  plat_orb_set_interval := fun _ _ w => w;
  plat_hrt_absolute_time := fun w => (Sim.clock w, w);
  plat_poll := Sim.sim_poll;
  plat_orb_copy := fun _ w => (Sim.sample w, w);
  plat_sphere_fit := Sim.sim_fit;
  plat_param_find := fun _ w => (1, w);
  plat_param_set := Sim.sim_param_set;
  plat_param_save_default := fun w => (Sim.save_status w, w);
  plat_uninitialized := Sim.garbage
|}.

(** No topic: every subscription is refused. *)
Definition deaf : Platform Sim.world := {|
  MAG_BASE_DEVICE_PATH := "/dev/mag";
  plat_log := fun _ _ w => w;
  plat_sleep := fun usec w => Sim.with_clock (Sim.clock w + usec) w;
  plat_open := Sim.sim_open;
  plat_close := fun _ w => w;
  plat_DEVIOCGDEVICEID := fun _ w => (Sim.device_id w, w);
  plat_MAGIOCSSCALE := Sim.sim_sscale;
  plat_MAGIOCGSCALE := Sim.sim_gscale;
  plat_MAGIOCCALIBRATE := Sim.sim_rangecal;
  plat_new := fun _ w => (true, w);
  plat_orb_subscribe_multi := fun _ w => (-1, w);
  plat_orb_set_interval := fun _ _ w => w;
  plat_hrt_absolute_time := fun w => (Sim.clock w, w);
  plat_poll := Sim.sim_poll;
  plat_orb_copy := fun _ w => (Sim.sample w, w);
  plat_sphere_fit := Sim.sim_fit;
  plat_param_find := fun _ w => (1, w);
  plat_param_set := Sim.sim_param_set;
  plat_param_save_default := fun w => (Sim.save_status w, w);
  plat_uninitialized := Sim.garbage
|}.

(** No magnetometer at all. *)
Definition no_device : Sim.world :=
  Sim.mk_world 0 [] 131594 mscale_null_0 [] [] [] [] Sim.a_sample [] OK
    Sim.nan_sphere.

End SimFaults.

(** * Proofs *)

Arguments uint32 : simpl never.
Arguments uint64 : simpl never.

Lemma uint32_small (z : Z) : 0 <= z < 2 ^ 32 -> uint32 z = z.
Proof. intros H. unfold uint32. now apply Z.mod_small. Qed.

(** ** Rules for runs *)

Section Logic.
Context {W : Type}.

Lemma wp_run {A} (m : M W A) w Q :
  wp m w Q <-> exists a w' evs, m w = Some (a, w', evs) /\ Q a w' evs.
Proof.
  unfold wp. split.
  - destruct (m w) as [[[a w'] evs]|]; [|tauto]. intros H. now exists a, w', evs.
  - intros (a & w' & evs & -> & H). exact H.
Qed.

Lemma wp_ret {A} (a : A) w (Q : A -> W -> list event -> Prop) :
  Q a w [] -> wp (ret a) w Q.
Proof. intros H. exact H. Qed.

Lemma wp_bind {A B} (m : M W A) (f : A -> M W B) w Q :
  wp m w (fun a w1 e1 => wp (f a) w1 (fun b w2 e2 => Q b w2 (e1 ++ e2))) ->
  wp (bind m f) w Q.
Proof.
  unfold wp, bind. destruct (m w) as [[[a w1] e1]|]; [|tauto].
  destruct (f a w1) as [[[b w2] e2]|]; tauto.
Qed.

Lemma wp_mono {A} (m : M W A) w (Q Q' : A -> W -> list event -> Prop) :
  wp m w Q -> (forall a w' evs, Q a w' evs -> Q' a w' evs) -> wp m w Q'.
Proof.
  unfold wp. destruct (m w) as [[[a w'] evs]|]; [|tauto]. intros H HQ. now apply HQ.
Qed.

Lemma wp_call {A} (op : W -> A * W) (ev : A -> event) w Q :
  (forall a w', op w = (a, w') -> Q a w' [ev a]) -> wp (call op ev) w Q.
Proof.
  unfold wp, call. destruct (op w) as [a w']. intros H. now apply H.
Qed.

Lemma wp_exec (op : W -> W) (ev : event) w (Q : unit -> W -> list event -> Prop) :
  Q tt (op w) [ev] -> wp (exec op ev) w Q.
Proof. intros H. exact H. Qed.

Lemma wp_mark (ev : event) w (Q : unit -> W -> list event -> Prop) :
  Q tt w [ev] -> wp (mark ev) w Q.
Proof. intros H. exact H. Qed.

Lemma wp_conj {A} (m : M W A) (w : W) (Q1 Q2 : A -> W -> list event -> Prop) :
  wp m w Q1 -> wp m w Q2 -> wp m w (fun a w' evs => Q1 a w' evs /\ Q2 a w' evs).
Proof.
  intros H1 H2. apply wp_run in H1 as (a & w1 & e1 & Hrun & HQ1).
  apply wp_run in H2 as (a' & w2 & e2 & Hrun' & HQ2).
  rewrite Hrun in Hrun'. injection Hrun' as <- <- <-.
  apply wp_run. now exists a, w1, e1.
Qed.

Lemma emits_ret P {A} (a : A) : emits (W := W) P (ret a).
Proof. intros w. apply wp_ret. constructor. Qed.

Lemma emits_bind P {A B} (m : M W A) (f : A -> M W B) :
  emits P m -> (forall a, emits P (f a)) -> emits P (bind m f).
Proof.
  intros Hm Hf w. apply wp_bind. eapply wp_mono; [apply Hm|].
  intros a w1 e1 H1. eapply wp_mono; [apply Hf|].
  intros b w2 e2 H2. apply Forall_app. now split.
Qed.

Lemma emits_call P {A} (op : W -> A * W) (ev : A -> event) :
  (forall a, P (ev a)) -> emits P (call op ev).
Proof. intros H w. apply wp_call. intros a w' _. constructor; [apply H|constructor]. Qed.

Lemma emits_exec (P : event -> Prop) (op : W -> W) (ev : event) :
  P ev -> emits P (exec op ev).
Proof. intros H w. apply wp_exec. constructor; [exact H|constructor]. Qed.

Lemma emits_mark (P : event -> Prop) (ev : event) :
  P ev -> emits (W := W) P (mark ev).
Proof. intros H w. apply wp_mark. constructor; [exact H|constructor]. Qed.

Lemma emits_weaken (P Q : event -> Prop) {A} (m : M W A) :
  (forall e, P e -> Q e) -> emits P m -> emits Q m.
Proof.
  intros HPQ Hm w. eapply wp_mono; [apply Hm|].
  intros a w' evs H. eapply Forall_impl; [exact HPQ|exact H].
Qed.

#[global] Opaque wp.

(** A [for] loop of three passes. *)
Lemma for_loop_3 {S} (body : Z -> S -> M W S) (st : S) :
  for_loop 4 0 3 body st =
  (st1 <- body 0 st ;; st2 <- body 1 st1 ;; st3 <- body 2 st2 ;; ret st3).
Proof. reflexivity. Qed.

Lemma bind_some {A B} (m : M W A) (f : A -> M W B) w a w1 e1 b w2 e2 :
  m w = Some (a, w1, e1) -> f a w1 = Some (b, w2, e2) ->
  bind m f w = Some (b, w2, e1 ++ e2).
Proof. intros Hm Hf. unfold bind. now rewrite Hm, Hf. Qed.
End Logic.

(** ** What the classes of calls exclude *)

Lemma failed_polls_nonneg evs : 0 <= failed_polls evs.
Proof.
  induction evs as [|e t IH]; simpl; [lia|].
  destruct e; try exact IH. destruct (0 <? ret0); lia.
Qed.

Lemma samples_received_nonneg evs : 0 <= samples_received evs.
Proof.
  induction evs as [|e t IH]; simpl; [lia|].
  destruct e; try exact IH. destruct (0 <? ret0); lia.
Qed.

Lemma failed_polls_app l1 l2 :
  failed_polls (l1 ++ l2) = failed_polls l1 + failed_polls l2.
Proof.
  induction l1 as [|e t IH]; simpl; [reflexivity|].
  destruct e; try exact IH. rewrite IH. lia.
Qed.

Lemma samples_received_app l1 l2 :
  samples_received (l1 ++ l2) = samples_received l1 + samples_received l2.
Proof.
  induction l1 as [|e t IH]; simpl; [reflexivity|].
  destruct e; try exact IH. rewrite IH. lia.
Qed.

Lemma succeeded_instances_app l1 l2 :
  succeeded_instances (l1 ++ l2) = succeeded_instances l1 ++ succeeded_instances l2.
Proof. apply flat_map_app. Qed.

Lemma save_results_app l1 l2 :
  save_results (l1 ++ l2) = save_results l1 ++ save_results l2.
Proof. apply flat_map_app. Qed.

Lemma param_writes_app l1 l2 :
  param_writes (l1 ++ l2) = param_writes l1 ++ param_writes l2.
Proof. apply flat_map_app. Qed.

Lemma param_status_app l1 l2 :
  param_status (l1 ++ l2) = param_status l1 ++ param_status l2.
Proof. apply flat_map_app. Qed.

Lemma device_writes_app l1 l2 :
  device_writes (l1 ++ l2) = device_writes l1 ++ device_writes l2.
Proof. apply flat_map_app. Qed.

Lemma fit_sizes_app l1 l2 :
  fit_sizes (l1 ++ l2) = fit_sizes l1 ++ fit_sizes l2.
Proof. apply flat_map_app. Qed.

Lemma inner_about base s e : inner base s e -> about base s e.
Proof. destruct e; simpl; tauto. Qed.

Lemma sampling_event_inner base s e : sampling_event s e -> inner base s e.
Proof. destruct e; simpl; tauto. Qed.

Lemma acquire_event_sampling s e : acquire_event e -> sampling_event s e.
Proof. destruct e; simpl; tauto. Qed.

Lemma inner_no_success base s evs :
  Forall (inner base s) evs -> succeeded_instances evs = [].
Proof.
  induction 1 as [|e t He _ IH]; [reflexivity|].
  destruct e; simpl in *; try exact IH; contradiction.
Qed.

Lemma about_no_save base s evs :
  Forall (about base s) evs -> save_results evs = [].
Proof.
  induction 1 as [|e t He _ IH]; [reflexivity|].
  destruct e; simpl in *; try exact IH; contradiction.
Qed.

Lemma param_sets_no_device_write evs :
  Forall is_param_set evs -> device_writes evs = [].
Proof.
  induction 1 as [|e t He _ IH]; [reflexivity|].
  destruct e; simpl in *; try contradiction. exact IH.
Qed.

Lemma param_status_length evs :
  List.length (param_status evs) = List.length (param_writes evs).
Proof.
  induction evs as [|e t IH]; [reflexivity|].
  destruct e; simpl; auto.
Qed.

Lemma sampling_no_writes s evs :
  Forall (sampling_event s) evs ->
  param_writes evs = [] /\ param_status evs = [] /\ device_writes evs = []
  /\ fit_sizes evs = [].
Proof.
  induction 1 as [|e t He _ IH]; [now repeat split|].
  destruct e; simpl in *; try contradiction; exact IH.
Qed.

Lemma fit_events_no_writes xs ys zs n cx cy cz r :
  param_writes (fit_events xs ys zs n cx cy cz r) = [] /\
  param_status (fit_events xs ys zs n cx cy cz r) = [] /\
  device_writes (fit_events xs ys zs n cx cy cz r) = [] /\
  fit_sizes (fit_events xs ys zs n cx cy cz r) = [n].
Proof. unfold fit_events. destruct (finite_centre cx cy cz); now repeat split. Qed.

Lemma apply_events_no_sampling evs :
  Forall apply_event evs -> fit_sizes evs = [] /\ samples_received evs = 0.
Proof.
  induction 1 as [|e t He _ IH]; [now split|].
  destruct e; simpl in *; try contradiction; exact IH.
Qed.

Lemma applied_writes path s device_id cx cy cz res evs :
  applied path s device_id cx cy cz res evs ->
  (param_writes evs = [] /\ param_status evs = [] /\ res <> OK)
  \/ (param_writes evs
        = parameter_fields s device_id
            (scale_for_parameters device_id
               (match evs with
                | _ :: EvGetScale _ _ m :: _ => m
                | _ => mscale_null_0
                end) cx cy cz) /\
      List.length (param_status evs) = 19%nat /\
      res = (if existsb write_failed (param_status evs) then ERROR else OK)).
Proof.
  intros (fd & gr & m & rest & -> & H).
  change (param_writes (EvOpen path 0 fd :: EvGetScale fd gr m :: rest))
    with (param_writes rest).
  change (param_status (EvOpen path 0 fd :: EvGetScale fd gr m :: rest))
    with (param_status rest).
  destruct H as [(Hgr & -> & _ & -> & ->)|(-> & sr & _ & [(Hsr & -> & -> & ->)|(-> & Hw & Hl & ->)])].
  - left. now repeat split.
  - left. now repeat split.
  - right. now repeat split.
Qed.

Lemma nonfinite_centre cx cy cz :
  negb (isfinite cx) || negb (isfinite cy) || negb (isfinite cz)
  = negb (finite_centre cx cy cz).
Proof.
  unfold finite_centre. now destruct (isfinite cx), (isfinite cy), (isfinite cz).
Qed.

(** The count the loop ends on, and the status when it is zero. *)
Lemma next_cal_count o0 o1 o2 :
  let st := next_cal o2 (next_cal o1 (next_cal o0 (mk_cal ERROR 0))) in
  (calibrated_ok st =? 0) = negb (outcome_ok o0 || outcome_ok o1 || outcome_ok o2) /\
  (outcome_ok o0 || outcome_ok o1 || outcome_ok o2 = false -> cal_res st <> OK).
Proof.
  destruct o0 as [r0|], o1 as [r1|], o2 as [r2|]; simpl;
    try destruct (r0 =? OK) eqn:E0; try destruct (r1 =? OK) eqn:E1;
    try destruct (r2 =? OK) eqn:E2; simpl; split;
    try reflexivity; try discriminate; intros _;
    try (apply Z.eqb_neq; assumption); discriminate.
Qed.

(** ** Formatted indices tell instances apart *)

Lemma leading_digits_uint d rest :
  leading_digits (NilEmpty.string_of_uint d ++ rest)
  = (NilEmpty.string_of_uint d ++ leading_digits rest)%string.
Proof. induction d; simpl; congruence. Qed.

Lemma fmt_u_digits n : fmt_u n = NilEmpty.string_of_uint (N.to_uint (Z.to_N n)).
Proof.
  unfold fmt_u, NilZero.string_of_uint.
  destruct (N.to_uint (Z.to_N n)) eqn:E; try reflexivity.
  destruct (Z.to_N n); [discriminate|].
  now apply DecimalPos.Unsigned.to_uint_nonnil in E.
Qed.

Lemma string_app_nil_r (a : string) : (a ++ "")%string = a.
Proof. induction a; simpl; congruence. Qed.

Lemma string_app_inv_head (a x y : string) :
  (a ++ x)%string = (a ++ y)%string -> x = y.
Proof. induction a; simpl; intros H; [exact H|]. injection H. auto. Qed.

Lemma fmt_u_inj i s : 0 <= i -> 0 <= s -> fmt_u i = fmt_u s -> i = s.
Proof.
  intros Hi Hs H. rewrite !fmt_u_digits in H.
  apply (f_equal NilEmpty.uint_of_string) in H. rewrite !NilEmpty.usu in H.
  injection H as H. apply DecimalN.Unsigned.to_uint_inj in H.
  now apply Z2N.inj.
Qed.

Lemma fmt_u_field_inj i s f f' :
  0 <= i -> 0 <= s ->
  (fmt_u i ++ "_" ++ f)%string = (fmt_u s ++ "_" ++ f')%string -> i = s.
Proof.
  intros Hi Hs H. apply (f_equal leading_digits) in H.
  rewrite !fmt_u_digits, !leading_digits_uint in H. simpl in H.
  rewrite !string_app_nil_r, <- !fmt_u_digits in H. now apply fmt_u_inj.
Qed.

(** A call of the pass for [i] addresses no other instance. *)
Lemma about_touches_same base i s e :
  0 <= i -> 0 <= s -> about base i e -> touches base s e -> i = s.
Proof.
  intros Hi Hs. destruct e; simpl; try contradiction; try congruence.
  - intros -> H. apply string_app_inv_head in H. now apply fmt_u_inj.
  - intros [f ->] [f' H]. apply (string_app_inv_head "CAL_MAG") in H.
    now apply fmt_u_field_inj in H.
Qed.

Lemma closing_touches_none base s e : closing_event e -> ~ touches base s e.
Proof. destruct e; simpl; tauto. Qed.

(** ** Stepping through the routine *)

Ltac run_unfold :=
  cbv beta iota zeta delta
    [bind ret call exec mark open close sleep usleep
     mavlink_and_console_log_info mavlink_and_console_log_critical
     ioctl_DEVIOCGDEVICEID ioctl_MAGIOCSSCALE ioctl_MAGIOCGSCALE
     ioctl_MAGIOCCALIBRATE new_float orb_subscribe_multi orb_set_interval
     hrt_absolute_time poll orb_copy param_save_default param_set_find
     sphere_fit_least_squares uninitialized set_field fst snd].

Section Primitives.
Context {W : Type} {P : Platform W}.

Lemma emits_param_set_find (Q : event -> Prop) str v :
  (forall h r, Q (EvParamSet str h v r)) -> emits Q (param_set_find str v).
Proof.
  intros H w. apply wp_run. unfold param_set_find.
  destruct (plat_param_find str w) as [h w1].
  destruct (plat_param_set h v w1) as [r w2].
  do 3 eexists. split; [reflexivity|]. constructor; [apply H|constructor].
Qed.

Lemma emits_sphere_fit_least_squares (Q : event -> Prop) x y z size it delta out :
  (forall xs ys zs r, Q (EvFit xs ys zs size it delta r)) ->
  emits Q (sphere_fit_least_squares x y z size it delta out).
Proof.
  intros H w. apply wp_run. unfold sphere_fit_least_squares.
  do 3 eexists. split; [reflexivity|]. constructor; [apply H|constructor].
Qed.

Lemma emits_uninitialized (Q : event -> Prop) : emits Q uninitialized.
Proof.
  intros w. apply wp_run. unfold uninitialized.
  do 3 eexists. split; [reflexivity|]. constructor.
Qed.

Lemma wp_set_field str v failed (w : W) (Q : bool -> W -> list event -> Prop) :
  (forall h r w', Q (failed || negb (OK =? r)) w' [EvParamSet str h v r]) ->
  wp (set_field str v failed) w Q.
Proof.
  intros H. apply wp_run. unfold set_field. run_unfold.
  destruct (plat_param_find str w) as [h w1].
  destruct (plat_param_set h v w1) as [r w2].
  do 3 eexists. split; [reflexivity|]. apply H.
Qed.

Lemma wp_uninitialized (w : W) (Q : sphere -> W -> list event -> Prop) :
  Q (plat_uninitialized w) w [] -> wp uninitialized w Q.
Proof.
  intros H. apply wp_run. unfold uninitialized. do 3 eexists. split; [reflexivity|exact H].
Qed.

Lemma wp_sphere_fit_least_squares x y z size it delta out (w : W)
    (Q : sphere -> W -> list event -> Prop) :
  (forall xs ys zs r, Q r w [EvFit xs ys zs size it delta r]) ->
  wp (sphere_fit_least_squares x y z size it delta out) w Q.
Proof.
  intros H. apply wp_run. unfold sphere_fit_least_squares.
  do 3 eexists. split; [reflexivity|apply H].
Qed.
End Primitives.

Ltac emits_step :=
  lazymatch goal with
  | |- emits _ (bind _ _) => apply emits_bind; [|intros]
  | |- emits _ (ret _) => apply emits_ret
  | |- emits _ (if ?b then _ else _) => destruct b
  | |- emits _ (match ?x with _ => _ end) => destruct x
  | |- emits _ (mavlink_and_console_log_info _) => apply emits_exec
  | |- emits _ (mavlink_and_console_log_critical _) => apply emits_exec
  | |- emits _ (usleep _) => apply emits_exec
  | |- emits _ (sleep _) => apply emits_exec
  | |- emits _ (close _) => apply emits_exec
  | |- emits _ (orb_set_interval _ _) => apply emits_exec
  | |- emits _ (mark _) => apply emits_mark
  | |- emits _ (open _ _) => apply emits_call; intros
  | |- emits _ (ioctl_DEVIOCGDEVICEID _) => apply emits_call; intros
  | |- emits _ (ioctl_MAGIOCSSCALE _ _) => apply emits_call; intros
  | |- emits _ (ioctl_MAGIOCGSCALE _) => apply emits_call; intros
  | |- emits _ (ioctl_MAGIOCCALIBRATE _) => apply emits_call; intros
  | |- emits _ (new_float _) => apply emits_call; intros
  | |- emits _ (orb_subscribe_multi _) => apply emits_call; intros
  | |- emits _ hrt_absolute_time => apply emits_call; intros
  | |- emits _ (poll _ _) => apply emits_call; intros
  | |- emits _ (orb_copy _) => apply emits_call; intros
  | |- emits _ param_save_default => apply emits_call; intros
  | |- emits _ (param_set_find _ _) => apply emits_param_set_find; intros
  | |- emits _ (sphere_fit_least_squares _ _ _ _ _ _ _) =>
      apply emits_sphere_fit_least_squares; intros
  | |- emits _ uninitialized => apply emits_uninitialized
  | |- emits _ (set_field _ _ _) => unfold set_field
  | |- emits _ (for_loop 4 0 3 _ _) => rewrite for_loop_3
  end.

Ltac emits_auto := repeat emits_step.

Ltac wp_step :=
  lazymatch goal with
  | |- wp (bind _ _) _ _ => apply wp_bind
  | |- wp (ret _) _ _ => apply wp_ret
  | H : ?b = true |- wp (if negb ?b then _ else _) _ _ => rewrite H; cbn [negb]
  | H : ?b = false |- wp (if negb ?b then _ else _) _ _ => rewrite H; cbn [negb]
  | H : ?b = true |- wp (if ?b then _ else _) _ _ => rewrite H
  | H : ?b = false |- wp (if ?b then _ else _) _ _ => rewrite H
  | |- wp (if negb ?b then _ else _) _ _ => destruct b eqn:?; cbn [negb]
  | |- wp (if ?b then _ else _) _ _ => destruct b eqn:?
  | |- wp (match ?x with _ => _ end) _ _ => destruct x
  | |- wp (mavlink_and_console_log_info _) _ _ => apply wp_exec
  | |- wp (mavlink_and_console_log_critical _) _ _ => apply wp_exec
  | |- wp (usleep _) _ _ => apply wp_exec
  | |- wp (sleep _) _ _ => apply wp_exec
  | |- wp (close _) _ _ => apply wp_exec
  | |- wp (orb_set_interval _ _) _ _ => apply wp_exec
  | |- wp (mark _) _ _ => apply wp_mark
  | |- wp (open _ _) _ _ => apply wp_call; intros ? ? _
  | |- wp (ioctl_DEVIOCGDEVICEID _) _ _ => apply wp_call; intros ? ? _
  | |- wp (ioctl_MAGIOCSSCALE _ _) _ _ => apply wp_call; intros ? ? _
  | |- wp (ioctl_MAGIOCGSCALE _) _ _ => apply wp_call; intros [? ?] ? _
  | |- wp (ioctl_MAGIOCCALIBRATE _) _ _ => apply wp_call; intros ? ? _
  | |- wp (new_float _) _ _ => apply wp_call; intros ? ? _
  | |- wp (orb_subscribe_multi _) _ _ => apply wp_call; intros ? ? _
  | |- wp hrt_absolute_time _ _ => apply wp_call; intros ? ? _
  | |- wp (poll _ _) _ _ => apply wp_call; intros ? ? _
  | |- wp (orb_copy _) _ _ => apply wp_call; intros ? ? _
  | |- wp param_save_default _ _ => apply wp_call; intros ? ? _
  | |- wp (for_loop 4 0 3 _ _) _ _ => rewrite for_loop_3
  end.

(** ** The acquisition loop *)

Section Acquire.
Context {W : Type} {P : Platform W}.

(** One pass: a sample, or a failure. *)
Lemma acquire_poll_spec sub_mag (a : acq) (w : W) :
  0 <= calibration_counter a < calibration_maxcount ->
  0 <= poll_errcount a <= 1000 ->
  wp (acquire_poll sub_mag a) w (fun a1 _ evs =>
    Forall acquire_event evs /\
    ~ In (EvLog critical CAL_FAILED_SENSOR_MSG) evs /\
    acq_res a1 = acq_res a /\
    poll_errcount a1 = poll_errcount a + failed_polls evs /\
    calibration_counter a1 = calibration_counter a + samples_received evs /\
    failed_polls evs + samples_received evs = 1).
Proof.
  unfold calibration_maxcount. intros Hc He.
  unfold acquire_poll, calibration_maxcount.
  apply wp_bind, wp_call. intros r w2 _.
  destruct (0 <? r) eqn:Hr; cbv iota.
  - apply wp_bind, wp_call. intros [[mx my] mz] w3 _.
    rewrite (uint32_small (calibration_counter a + 1)) by lia.
    apply wp_bind.
    destruct ((calibration_counter a + 1) mod (240 / 20) =? 0); cbv iota.
    + apply wp_exec, wp_ret. simpl. rewrite Hr.
      repeat split; try lia; [repeat constructor | intuition discriminate].
    + apply wp_ret, wp_ret. simpl. rewrite Hr.
      repeat split; try lia; [repeat constructor | intuition discriminate].
  - apply wp_ret. rewrite (uint32_small (poll_errcount a + 1)) by lia.
    simpl. rewrite Hr.
    repeat split; try lia; [repeat constructor | intuition discriminate].
Qed.

Lemma acquire_spec (fuel : nat) :
  forall sub_mag deadline (a : acq) (w : W),
    0 <= calibration_counter a <= calibration_maxcount ->
    0 <= poll_errcount a <= 1000 ->
    (Z.to_nat (calibration_maxcount - calibration_counter a)
     + Z.to_nat (1001 - poll_errcount a) < fuel)%nat ->
    wp (acquire fuel sub_mag deadline a) w (fun a' _ evs => acquired a a' evs).
Proof.
  induction fuel as [|fuel IH]; intros sub_mag deadline a w Hc He Hfuel; [lia|].
  cbn [acquire]. apply wp_bind, wp_call. intros now w1 _.
  destruct ((now <? deadline) && (calibration_counter a <? calibration_maxcount))
    eqn:Hcond; cbv iota.
  2: { apply wp_ret. unfold acquired. simpl.
       split; [repeat constructor|]. repeat (split; [lia|]).
       right. repeat split; try lia. intuition discriminate. }
  apply andb_prop in Hcond as [_ Hlt]. apply Z.ltb_lt in Hlt.
  apply wp_bind. eapply wp_mono; [apply acquire_poll_spec; lia|].
  intros a1 w2 e1 (HF1 & HN1 & HR1 & HE1 & HC1 & H1).
  pose proof (failed_polls_nonneg e1). pose proof (samples_received_nonneg e1).
  unfold calibration_maxcount in *.
  destruct (1000 <? poll_errcount a1) eqn:Hover.
  - apply Z.ltb_lt in Hover.
    apply wp_bind, wp_exec, wp_ret.
    unfold acquired, calibration_maxcount.
    cbn [calibration_counter poll_errcount acq_res].
    change ([EvTime now] ++ e1 ++ [EvLog critical CAL_FAILED_SENSOR_MSG] ++ [])
      with (EvTime now :: e1 ++ [EvLog critical CAL_FAILED_SENSOR_MSG]).
    cbn [failed_polls samples_received].
    rewrite failed_polls_app, samples_received_app. simpl.
    split; [constructor; [exact I|]; apply Forall_app; split; [exact HF1|repeat constructor]|].
    repeat (split; [lia|]).
    left. repeat split; try lia. right. apply in_or_app. right. now left.
  - apply Z.ltb_ge in Hover.
    eapply wp_mono; [apply IH; unfold calibration_maxcount; lia|].
    intros a' _ e2 (HF & HE & HC & HB & HR). unfold calibration_maxcount in HB.
    unfold acquired, calibration_maxcount.
    change ([EvTime now] ++ e1 ++ e2) with (EvTime now :: e1 ++ e2).
    cbn [failed_polls samples_received].
    rewrite failed_polls_app, samples_received_app.
    split; [constructor; [exact I|]; apply Forall_app; now split|].
    repeat (split; [lia|]).
    destruct HR as [(R1 & R2 & R3)|(R1 & R2 & R3)].
    + left. repeat split; auto. right. apply in_or_app. now right.
    + right. repeat split; try congruence.
      intros [Hin|Hin]; [discriminate|]. apply in_app_or in Hin. tauto.
Qed.

(** The loop as [calibrate_instance] starts it. *)
Lemma acquire_from_start sub_mag deadline res bx by_ bz (w : W) :
  wp (acquire acquire_fuel sub_mag deadline (mk_acq res 0 0 bx by_ bz)) w
     (fun a' _ evs => acquired (mk_acq res 0 0 bx by_ bz) a' evs).
Proof.
  apply acquire_spec; unfold calibration_maxcount, acquire_fuel; simpl; lia.
Qed.

Lemma emits_acquire sub_mag deadline res bx by_ bz :
  emits acquire_event
    (acquire acquire_fuel sub_mag deadline (mk_acq res 0 0 bx by_ bz)).
Proof.
  intros w. eapply wp_mono; [apply acquire_from_start|].
  intros a' w' evs H. apply H.
Qed.

(** The acquisition ends OK or ERROR, on sampling calls only; when it ends
    OK, [calibration_counter] is the number of samples received. *)
Lemma acquisition_spec s (w : W) :
  wp (acquisition s OK) w (fun a _ evs =>
    Forall (sampling_event s) evs /\
    (acq_res a = ERROR
     \/ (acq_res a = OK /\ calibration_counter a = samples_received evs /\
         0 <= calibration_counter a <= 240))).
Proof.
  unfold acquisition. change (OK =? OK) with true. cbv iota.
  repeat wp_step.
  - split; [repeat constructor|]. now left.
  - eapply wp_mono; [apply acquire_from_start|].
    intros a' w1 e1 (HF & HE & HC & HB & HR).
    cbn [calibration_counter poll_errcount acq_res] in *.
    repeat wp_step. cbn [app]. split.
    + repeat (constructor; [simpl; auto|]).
      apply Forall_app. split; [|repeat constructor].
      eapply Forall_impl; [apply acquire_event_sampling|exact HF].
    + destruct HR as [(R & _)|(R & _)]; [now left|right].
      split; [exact R|].
      cbn [samples_received]. rewrite samples_received_app. simpl.
      pose proof (samples_received_nonneg e1).
      unfold calibration_maxcount in HB. lia.
Qed.

Lemma emits_acquisition s res :
  emits (sampling_event s) (acquisition s res).
Proof.
  unfold acquisition. emits_auto; try exact I; try reflexivity.
  eapply emits_weaken; [|apply emits_acquire].
  intros e; destruct e; simpl; tauto.
Qed.
End Acquire.

(** ** Fit, apply, and the instance as a whole *)

Section Instance.
Context {W : Type} {P : Platform W}.

Lemma emits_sphere_fit (Q : event -> Prop) a sp :
  (forall sev m, Q (EvLog sev m)) ->
  (forall xs ys zs n it d r, Q (EvFit xs ys zs n it d r)) ->
  emits Q (sphere_fit a sp).
Proof.
  intros HL HF. unfold sphere_fit. emits_auto; auto.
Qed.

(** The fit phase: the fit is invoked exactly when the acquisition ended OK
    with more than 120 samples, and a centre that is not finite turns the
    status to ERROR. *)
Lemma sphere_fit_spec (a : acq) (sp : sphere) (w : W) :
  wp (sphere_fit a sp) w (fun r _ evs =>
    ((acq_res a =? OK) && (120 <? calibration_counter a) = false /\
     evs = [] /\ r = (acq_res a, sp))
    \/ ((acq_res a =? OK) && (120 <? calibration_counter a) = true /\
        exists xs ys zs cx cy cz rad,
          evs = fit_events xs ys zs (calibration_counter a) cx cy cz rad /\
          r = (if finite_centre cx cy cz then OK else ERROR, (cx, cy, cz, rad)))).
Proof.
  unfold sphere_fit. change (calibration_maxcount / 2) with 120.
  destruct ((acq_res a =? OK) && (120 <? calibration_counter a)) eqn:Hcond.
  2: { apply wp_ret. now left. }
  apply andb_prop in Hcond as [Hres _]. apply Z.eqb_eq in Hres.
  wp_step. wp_step. wp_step. apply wp_sphere_fit_least_squares.
  intros xs ys zs [[[cx cy] cz] rad]. wp_step. wp_step.
  rewrite nonfinite_centre.
  destruct (finite_centre cx cy cz) eqn:Hfin; cbn [negb]; repeat wp_step.
  - right. split; [reflexivity|]. exists xs, ys, zs, cx, cy, cz, rad.
    unfold fit_events. rewrite Hfin, Hres. now split.
  - right. split; [reflexivity|]. exists xs, ys, zs, cx, cy, cz, rad.
    unfold fit_events. rewrite Hfin. now split.
Qed.

Lemma emits_set_parameters s device_id m :
  emits (fun e => match e with
                  | EvParamSet n _ _ _ =>
                      exists field, n = ("CAL_MAG" ++ fmt_u s ++ "_" ++ field)%string
                  | _ => False
                  end)
    (set_parameters s device_id m).
Proof.
  unfold set_parameters.
  emits_auto; unfold cal_mag, cal_mag_ta; eexists; reflexivity.
Qed.

(** The nineteen writes are made one after the other, whatever each of them
    answers; [failed] ends up true exactly when one of them did not answer
    OK. *)
Lemma set_parameters_spec s device_id m (w : W) :
  wp (set_parameters s device_id m) w (fun failed _ evs =>
    param_writes evs = parameter_fields s device_id m /\
    Forall is_param_set evs /\
    failed = existsb (fun r => negb (OK =? r)) (param_status evs)).
Proof.
  unfold set_parameters.
  repeat first [ apply wp_set_field; intros
               | wp_step ].
  cbn [app]. split; [reflexivity|]. split; [repeat constructor|].
  cbn [param_status flat_map app existsb orb].
  rewrite <- !orb_assoc. now rewrite orb_false_r.
Qed.

Lemma emits_apply_calibration s device_id cx cy cz :
  emits (inner MAG_BASE_DEVICE_PATH s) (apply_calibration s device_id cx cy cz).
Proof.
  unfold apply_calibration. emits_auto; try exact I; try reflexivity.
  all: eapply emits_weaken; [|apply emits_set_parameters].
  all: intros e; destruct e; simpl; tauto.
Qed.

Lemma emits_apply_events s device_id cx cy cz :
  emits apply_event (apply_calibration s device_id cx cy cz).
Proof.
  unfold apply_calibration. emits_auto; try exact I.
  all: eapply emits_weaken; [|apply emits_set_parameters].
  all: intros e; destruct e; simpl; tauto.
Qed.

Lemma apply_calibration_spec s device_id cx cy cz (w : W) :
  wp (apply_calibration s device_id cx cy cz) w
     (fun res _ evs => applied (device_path s) s device_id cx cy cz res evs).
Proof.
  unfold apply_calibration, device_path.
  repeat wp_step.
  - (* the struct was read and handed back *)
    rename a into fd, z into gr, a0 into sr.
    apply Z.eqb_eq in Heqb, Heqb0. subst gr sr.
    eapply wp_mono; [apply set_parameters_spec|].
    intros failed w1 pe (Hwrites & Hsets & Hfailed).
    assert (Hlen : List.length (param_status pe) = 19%nat).
    { rewrite param_status_length, Hwrites. reflexivity. }
    assert (Hscale :
              (if device_id =? 131594
               then load_temperature_terms (set_offsets m cx cy cz)
               else set_offsets m cx cy cz)
              = scale_for_parameters device_id m cx cy cz).
    { unfold scale_for_parameters, load_temperature_terms, set_offsets.
      destruct (device_id =? 131594); reflexivity. }
    rewrite Hscale in Hwrites. fold (write_failed) in Hfailed.
    destruct failed; repeat wp_step.
    all: exists fd, OK, m; eexists; (split; [reflexivity|]).
    all: right; (split; [reflexivity|]); exists OK.
    all: cbn [device_writes param_writes param_status flat_map app].
    all: rewrite ?device_writes_app, ?param_writes_app, ?param_status_app.
    all: rewrite (param_sets_no_device_write _ Hsets).
    all: cbn [device_writes param_writes param_status flat_map app].
    all: rewrite !app_nil_r.
    all: (split; [reflexivity|]); right; repeat split; auto.
    all: unfold write_failed in *; now rewrite <- Hfailed.
  - (* the struct was read, but the device refused it back *)
    rename a into fd, z into gr, a0 into sr.
    apply Z.eqb_eq in Heqb. apply Z.eqb_neq in Heqb0. subst gr.
    exists fd, OK, m. eexists. split; [reflexivity|].
    right. split; [reflexivity|]. exists sr. split; [reflexivity|].
    left. repeat split; auto.
  - (* the struct could not be read *)
    rename a into fd, z into gr.
    apply Z.eqb_neq in Heqb.
    exists fd, gr, m. eexists. split; [reflexivity|].
    left. repeat split; auto.
Qed.

Lemma emits_calibrate_instance_run s device_id :
  emits (inner MAG_BASE_DEVICE_PATH s) (calibrate_instance_run s device_id).
Proof.
  unfold calibrate_instance_run. emits_auto; try exact I.
  - eapply emits_weaken; [|apply emits_acquisition].
    apply sampling_event_inner.
  - apply emits_sphere_fit; intros; exact I.
  - apply emits_apply_calibration.
Qed.

Lemma calibrate_instance_run_spec s device_id (w : W) :
  wp (calibrate_instance_run s device_id) w (fun res _ evs =>
    instance_run (device_path s) s device_id res evs).
Proof.
  unfold calibrate_instance_run.
  do 9 wp_step.
  - (* out of memory *)
    repeat wp_step. eexists _, [], [].
    split; [cbn [app]; rewrite ?app_nil_r; reflexivity|].
    split; [repeat constructor|]. split; [constructor|].
    left. split; [reflexivity|]. now left.
  - wp_step. eapply wp_mono; [apply acquisition_spec|].
    intros acq_end w1 e1 (HF1 & Hacq).
    wp_step. apply wp_uninitialized. wp_step.
    eapply wp_mono; [apply sphere_fit_spec|].
    intros [res [[[cx cy] cz] rad]] w2 e2 Hfit.
    set (pre := [EvNew calibration_maxcount a; EvNew calibration_maxcount a0;
                 EvNew calibration_maxcount a1;
                 EvLog info (CAL_PROGRESS_MSG sensor_name 20)] ++ e1).
    assert (Hpre : Forall (sampling_event s) pre).
    { unfold pre. repeat (constructor; [exact I|]). exact HF1. }
    assert (Hn : samples_received pre = samples_received e1) by reflexivity.
    destruct Hfit as [(Hcond & -> & [= -> Hsp])|(Hcond & xs & ys & zs & fx & fy & fz & fr & -> & [= -> -> -> -> ->])].
    + (* no fit *)
      destruct (acq_res acq_end =? OK) eqn:Hres.
      * apply Z.eqb_eq in Hres.
        destruct Hacq as [Herr|(_ & Hcount & Hrange)]; [rewrite Hres in Herr; discriminate|].
        simpl in Hcond. apply Z.ltb_ge in Hcond.
        eapply wp_mono;
          [apply wp_conj; [apply apply_calibration_spec|apply emits_apply_events]|].
        intros r w3 e3 [Happ Hevents].
        exists pre, [], e3. split; [unfold pre; cbn [app]; reflexivity|].
        split; [exact Hpre|]. split; [assumption || constructor|]. left. split; [reflexivity|]. right.
        split; [rewrite Hn; lia|]. now exists cx, cy, cz.
      * wp_step. apply Z.eqb_neq in Hres.
        destruct Hacq as [Herr|(Hok & _)]; [|contradiction].
        exists pre, [], []. split; [unfold pre; cbn [app]; rewrite ?app_nil_r; reflexivity|].
        split; [exact Hpre|]. split; [assumption || constructor|]. left. split; [reflexivity|]. left. now split.
    + (* the fit *)
      apply andb_prop in Hcond as [Hres Hmany].
      apply Z.eqb_eq in Hres. apply Z.ltb_lt in Hmany.
      destruct Hacq as [Herr|(_ & Hcount & Hrange)]; [rewrite Hres in Herr; discriminate|].
      destruct (finite_centre fx fy fz) eqn:Hfin.
      * change (OK =? OK) with true. cbv iota.
        eapply wp_mono;
          [apply wp_conj; [apply apply_calibration_spec|apply emits_apply_events]|].
        intros r w3 e3 [Happ Hevents].
        exists pre, (fit_events xs ys zs (calibration_counter acq_end) fx fy fz fr), e3.
        split; [unfold pre; cbn [app]; rewrite <- ?app_assoc; reflexivity|].
        split; [exact Hpre|]. split; [assumption || constructor|]. right.
        exists xs, ys, zs, (calibration_counter acq_end), fx, fy, fz, fr.
        split; [lia|]. split; [now rewrite Hn|]. split; [reflexivity|].
        now rewrite Hfin.
      * change (ERROR =? OK) with false. cbv iota. wp_step.
        exists pre, (fit_events xs ys zs (calibration_counter acq_end) fx fy fz fr), [].
        split; [unfold pre; cbn [app]; rewrite <- ?app_assoc, ?app_nil_r; reflexivity|].
        split; [exact Hpre|]. split; [assumption || constructor|]. right.
        exists xs, ys, zs, (calibration_counter acq_end), fx, fy, fz, fr.
        split; [lia|]. split; [now rewrite Hn|]. split; [reflexivity|].
        now rewrite Hfin.
Qed.

Lemma emits_calibrate_instance s device_id :
  emits (about MAG_BASE_DEVICE_PATH s) (calibrate_instance s device_id).
Proof.
  unfold calibrate_instance. emits_auto; try reflexivity.
  eapply emits_weaken; [|apply emits_calibrate_instance_run].
  apply inner_about.
Qed.

(** [calibrate_instance] always returns; its calls are those of the run
    between its two observation points. *)
Lemma calibrate_instance_spec s device_id (w : W) :
  exists res w' body,
    calibrate_instance s device_id w
      = Some (res, w', EvEnter s device_id :: body ++ [EvLeave s res]) /\
    calibrate_instance_run s device_id w = Some (res, w', body) /\
    Forall (inner MAG_BASE_DEVICE_PATH s) body.
Proof.
  destruct (proj1 (wp_run _ _ _) (emits_calibrate_instance_run s device_id w))
    as (res & w' & body & Hrun & Hbody).
  exists res, w', body. split; [|now split].
  unfold calibrate_instance. run_unfold. rewrite Hrun. reflexivity.
Qed.

Lemma calibrate_instance_events s device_id (w : W) res w' evs :
  calibrate_instance s device_id w = Some (res, w', evs) ->
  Forall (about MAG_BASE_DEVICE_PATH s) evs /\
  succeeded_instances evs = (if res =? OK then [s] else []).
Proof.
  destruct (calibrate_instance_spec s device_id w) as (r & w1 & body & -> & _ & Hb).
  intros [= <- <- <-]. split.
  - constructor; [reflexivity|]. apply Forall_app. split.
    + eapply Forall_impl; [apply inner_about|exact Hb].
    + constructor; [reflexivity|constructor].
  - change (succeeded_instances (EvEnter s device_id :: body ++ [EvLeave s r]))
      with (succeeded_instances (body ++ [EvLeave s r])).
    rewrite succeeded_instances_app, (inner_no_success _ _ _ Hb). simpl.
    now rewrite app_nil_r.
Qed.
End Instance.

(** ** The passes of the loop of do_mag_calibration *)

Section Passes.
Context {W : Type} {P : Platform W}.

Lemma emits_calibrate_mag s st :
  emits (about MAG_BASE_DEVICE_PATH s) (calibrate_mag s st).
Proof.
  unfold calibrate_mag. emits_auto; try exact I; try reflexivity.
  all: apply emits_calibrate_instance.
Qed.

(** One pass of the loop of [do_mag_calibration], call by call. *)
Lemma calibrate_mag_run s st (w : W) :
  calibrate_mag s st w =
  let (fd, w1) := plat_open (MAG_BASE_DEVICE_PATH ++ fmt_u s)%string O_RDONLY w in
  if fd <? 0 then
    Some (st, w1, [EvOpen (MAG_BASE_DEVICE_PATH ++ fmt_u s)%string O_RDONLY fd])
  else
    let (id, w2) :=
      plat_DEVIOCGDEVICEID fd
        (plat_sleep 3000000 (plat_log info (msg_calibrating_magnetometer s) w1)) in
    let (r, w3) := plat_MAGIOCSSCALE fd mscale_null_0 w2 in
    if r =? OK then
      let (r', w4) := plat_MAGIOCCALIBRATE fd w3 in
      let w5 := if r' =? OK then w4
                else plat_log info msg_skipped_scale_calibration w4 in
      match calibrate_instance s (uint32 id) (plat_close fd w5) with
      | Some (res, w6, evs) =>
          Some (mk_cal res (if res =? OK then uint32 (calibrated_ok st + 1)
                            else calibrated_ok st),
                w6,
                pass_prefix s fd id r ++ EvRangeCal fd r'
                  :: (if r' =? OK then []
                      else [EvLog info msg_skipped_scale_calibration])
                  ++ EvClose fd :: evs)
      | None => None
      end
    else
      Some (mk_cal r (calibrated_ok st),
            plat_close fd (plat_log critical CAL_FAILED_RESET_CAL_MSG w3),
            pass_prefix s fd id r
              ++ [EvLog critical CAL_FAILED_RESET_CAL_MSG; EvClose fd]).
Proof.
  unfold calibrate_mag, pass_prefix. run_unfold.
  destruct (plat_open _ _ w) as [fd w1].
  destruct (fd <? 0); [reflexivity|].
  destruct (plat_DEVIOCGDEVICEID _ _) as [id w2].
  destruct (plat_MAGIOCSSCALE _ _ w2) as [r w3].
  destruct (r =? OK) eqn:Hr; cbn [negb]; run_unfold.
  2: { rewrite Hr. reflexivity. }
  destruct (plat_MAGIOCCALIBRATE _ w3) as [r' w4].
  destruct (r' =? OK) eqn:Hr'; cbn [negb]; run_unfold.
  - rewrite Hr'.
    destruct (calibrate_instance _ _ _) as [[[res w6] evs]|]; [|reflexivity].
    destruct (res =? OK); cbn [app]; rewrite ?app_nil_r; reflexivity.
  - change (OK =? OK) with true. run_unfold.
    destruct (calibrate_instance _ _ _) as [[[res w6] evs]|]; [|reflexivity].
    destruct (res =? OK); cbn [app]; rewrite ?app_nil_r; reflexivity.
Qed.

(** What a pass does, and what it leaves, does not depend on the variables
    the earlier passes left. *)
Lemma calibrate_mag_outcome s (w : W) :
  exists o w' fd rest,
    (forall st,
       calibrate_mag s st w
       = Some (next_cal o st, w',
               EvOpen (MAG_BASE_DEVICE_PATH ++ fmt_u s)%string O_RDONLY fd :: rest)) /\
    Forall (about MAG_BASE_DEVICE_PATH s) rest /\
    succeeded_instances rest
      = match o with
        | Some res => if res =? OK then [s] else []
        | None => []
        end.
Proof.
  destruct (plat_open (MAG_BASE_DEVICE_PATH ++ fmt_u s)%string O_RDONLY w)
    as [fd w1] eqn:Hopen.
  destruct (fd <? 0) eqn:Hfd.
  { exists None, w1, fd, []. split; [|split; [constructor|reflexivity]].
    intros st. now rewrite calibrate_mag_run, Hopen, Hfd. }
  destruct (plat_DEVIOCGDEVICEID fd
              (plat_sleep 3000000 (plat_log info (msg_calibrating_magnetometer s) w1)))
    as [id w2] eqn:Hid.
  destruct (plat_MAGIOCSSCALE fd mscale_null_0 w2) as [r w3] eqn:Hreset.
  destruct (r =? OK) eqn:Hr.
  2: { eexists (Some r), _, fd, _. split; [|split].
       - intros st. rewrite calibrate_mag_run, Hopen, Hfd, Hid, Hreset, Hr.
         unfold next_cal. rewrite Hr. reflexivity.
       - repeat constructor.
       - simpl. now rewrite Hr. }
  destruct (plat_MAGIOCCALIBRATE fd w3) as [r' w4] eqn:Hrange.
  set (w5 := plat_close fd (if r' =? OK then w4
                            else plat_log info msg_skipped_scale_calibration w4)).
  destruct (calibrate_instance s (uint32 id) w5) as [[[res w6] evs]|] eqn:Hci.
  2: { destruct (calibrate_instance_spec s (uint32 id) w5) as (? & ? & ? & H & _).
       congruence. }
  destruct (calibrate_instance_events _ _ _ _ _ _ Hci) as [Habout Hsucc].
  eexists (Some res), w6, fd, _. split; [|split].
  - intros st. rewrite calibrate_mag_run, Hopen, Hfd, Hid, Hreset, Hr, Hrange.
    cbv zeta. unfold w5 in Hci. rewrite Hci.
    unfold next_cal, pass_prefix. cbn [app]. reflexivity.
  - repeat (constructor; [exact I|]).
    destruct (r' =? OK); cbn [app]; repeat (constructor; [exact I|]); exact Habout.
  - destruct (r' =? OK); cbn [app]; exact Hsucc.
Qed.

(** The loop is its three passes, one after the other. *)
Lemma calibrate_all_mags_run (w : W) :
  exists o0 o1 o2 w1 w2 w3 fd0 fd1 fd2 e0 e1 e2,
    (forall st, calibrate_mag 0 st w
                = Some (next_cal o0 st, w1, EvOpen (device_path 0) O_RDONLY fd0 :: e0)) /\
    (forall st, calibrate_mag 1 st w1
                = Some (next_cal o1 st, w2, EvOpen (device_path 1) O_RDONLY fd1 :: e1)) /\
    (forall st, calibrate_mag 2 st w2
                = Some (next_cal o2 st, w3, EvOpen (device_path 2) O_RDONLY fd2 :: e2)) /\
    calibrate_all_mags w
      = Some (next_cal o2 (next_cal o1 (next_cal o0 (mk_cal ERROR 0))), w3,
              (EvOpen (device_path 0) O_RDONLY fd0 :: e0)
                ++ (EvOpen (device_path 1) O_RDONLY fd1 :: e1)
                ++ (EvOpen (device_path 2) O_RDONLY fd2 :: e2)) /\
    (Forall (about MAG_BASE_DEVICE_PATH 0) e0 /\
     Forall (about MAG_BASE_DEVICE_PATH 1) e1 /\
     Forall (about MAG_BASE_DEVICE_PATH 2) e2) /\
    (succeeded_instances e0 = (if outcome_ok o0 then [0] else []) /\
     succeeded_instances e1 = (if outcome_ok o1 then [1] else []) /\
     succeeded_instances e2 = (if outcome_ok o2 then [2] else [])).
Proof.
  destruct (calibrate_mag_outcome 0 w) as (o0 & w1 & fd0 & e0 & H0 & A0 & S0).
  destruct (calibrate_mag_outcome 1 w1) as (o1 & w2 & fd1 & e1 & H1 & A1 & S1).
  destruct (calibrate_mag_outcome 2 w2) as (o2 & w3 & fd2 & e2 & H2 & A2 & S2).
  exists o0, o1, o2, w1, w2, w3, fd0, fd1, fd2, e0, e1, e2.
  split; [exact H0|]. split; [exact H1|]. split; [exact H2|].
  split; [|split; [now repeat split|]].
  - unfold calibrate_all_mags, max_mags. rewrite for_loop_3.
    erewrite bind_some; [reflexivity|apply H0|].
    erewrite bind_some; [reflexivity|apply H1|].
    erewrite bind_some; [|apply H2|reflexivity].
    now rewrite app_nil_r.
  - repeat split.
    + rewrite S0. now destruct o0.
    + rewrite S1. now destruct o1.
    + rewrite S2. now destruct o2.
Qed.

(** [do_mag_calibration], call by call around the loop. *)
Lemma do_mag_calibration_run (w : W) :
  do_mag_calibration w =
  match calibrate_all_mags
          (plat_sleep 1000000 (plat_log info (CAL_STARTED_MSG sensor_name) w)) with
  | None => None
  | Some (st, w1, evs) =>
      if negb (calibrated_ok st =? 0) then
        let (res, w2) :=
          plat_param_save_default
            (plat_log info (CAL_DONE_MSG sensor_name)
               (plat_sleep 100000
                  (plat_log info (CAL_PROGRESS_MSG sensor_name 100) w1))) in
        Some (res,
              if res =? OK then w2
              else plat_log critical CAL_FAILED_SAVE_PARAMS_MSG w2,
              EvLog info (CAL_STARTED_MSG sensor_name) :: EvSleep 1000000 :: evs
                ++ [EvLog info (CAL_PROGRESS_MSG sensor_name 100); EvSleep 100000;
                    EvLog info (CAL_DONE_MSG sensor_name); EvParamSave res]
                ++ (if res =? OK then []
                    else [EvLog critical CAL_FAILED_SAVE_PARAMS_MSG]))
      else
        Some (cal_res st, plat_log critical (CAL_FAILED_MSG sensor_name) w1,
              EvLog info (CAL_STARTED_MSG sensor_name) :: EvSleep 1000000 :: evs
                ++ [EvLog critical (CAL_FAILED_MSG sensor_name)])
  end.
Proof.
  unfold do_mag_calibration. run_unfold.
  change (1 * 1000000) with 1000000.
  destruct (calibrate_all_mags _) as [[[st w1] evs]|]; [|reflexivity].
  destruct (calibrated_ok st =? 0); cbn [negb]; run_unfold.
  - reflexivity.
  - destruct (plat_param_save_default _) as [res w2].
    destruct (res =? OK); cbn [negb app]; reflexivity.
Qed.
End Passes.

(** ** What a pass never says *)

Section PassEvents.
Context {W : Type} {P : Platform W}.

Lemma emits_acquire_poll_pass sub_mag (a : acq) :
  emits pass_event (acquire_poll sub_mag a).
Proof. unfold acquire_poll. emits_auto; exact I. Qed.

Lemma acquire_pass_events (fuel : nat) :
  forall sub_mag deadline (a : acq) (w : W),
    0 <= calibration_counter a <= calibration_maxcount ->
    0 <= poll_errcount a <= 1000 ->
    (Z.to_nat (calibration_maxcount - calibration_counter a)
     + Z.to_nat (1001 - poll_errcount a) < fuel)%nat ->
    wp (acquire fuel sub_mag deadline a) w
       (fun _ _ evs => Forall pass_event evs).
Proof.
  induction fuel as [|fuel IH]; intros sub_mag deadline a w Hc He Hfuel; [lia|].
  cbn [acquire]. apply wp_bind, wp_call. intros now w1 _.
  destruct ((now <? deadline) && (calibration_counter a <? calibration_maxcount))
    eqn:Hcond; cbv iota.
  2: { apply wp_ret. repeat constructor. }
  apply andb_prop in Hcond as [_ Hlt]. apply Z.ltb_lt in Hlt.
  apply wp_bind. eapply wp_mono.
  { apply wp_conj; [apply acquire_poll_spec; lia|apply emits_acquire_poll_pass]. }
  intros a1 w2 e1 [(_ & _ & _ & HE1 & HC1 & H1) Hpass].
  pose proof (failed_polls_nonneg e1). pose proof (samples_received_nonneg e1).
  unfold calibration_maxcount in *.
  destruct (1000 <? poll_errcount a1) eqn:Hover.
  - apply wp_bind, wp_exec, wp_ret.
    constructor; [exact I|]. apply Forall_app. split; [exact Hpass|].
    repeat constructor.
  - apply Z.ltb_ge in Hover.
    eapply wp_mono; [apply IH; unfold calibration_maxcount; lia|].
    intros a' w3 e2 H2. constructor; [exact I|]. apply Forall_app. now split.
Qed.

Lemma emits_acquisition_pass s res : emits pass_event (acquisition s res).
Proof.
  unfold acquisition. emits_auto; try exact I.
  intros w. apply acquire_pass_events;
    unfold calibration_maxcount, acquire_fuel; simpl; lia.
Qed.

Lemma emits_set_parameters_pass s device_id m :
  emits pass_event (set_parameters s device_id m).
Proof. unfold set_parameters. emits_auto; exact I. Qed.

Lemma emits_calibrate_instance_pass s device_id :
  emits pass_event (calibrate_instance s device_id).
Proof.
  unfold calibrate_instance, calibrate_instance_run, apply_calibration.
  emits_auto; try exact I.
  - apply emits_acquisition_pass.
  - unfold sphere_fit. emits_auto; exact I.
  - apply emits_set_parameters_pass.
Qed.

Lemma emits_calibrate_mag_pass s st : emits pass_event (calibrate_mag s st).
Proof.
  unfold calibrate_mag. emits_auto; try exact I.
  all: apply emits_calibrate_instance_pass.
Qed.

(** A pass does not report a failed save. *)
Lemma calibrate_mag_pass_events s st (w : W) st' w' evs :
  calibrate_mag s st w = Some (st', w', evs) ->
  save_results evs = [] /\
  ~ In (EvLog critical CAL_FAILED_SAVE_PARAMS_MSG) evs.
Proof.
  intros Hrun.
  destruct (proj1 (wp_run _ _ _) (emits_calibrate_mag_pass s st w))
    as (st1 & w1 & e1 & Hrun' & Hpass).
  rewrite Hrun in Hrun'. injection Hrun' as <- <- <-. split.
  - clear Hrun. induction Hpass as [|e t He _ IH]; [reflexivity|].
    destruct e; simpl in *; try contradiction; exact IH.
  - intros Hin. rewrite Forall_forall in Hpass. exact (Hpass _ Hin).
Qed.
End PassEvents.

(** * The claims *)

(** C1, at the failing input: with no sample at all the fit is not invoked,
    yet [calibrate_instance] returns OK and the apply phase has written the
    uninitialised centre (here not-a-number) as the offsets. *)
Example zero_samples_are_applied :
  value (calibrate_instance 0 131594 Scenario.silent) = Some OK /\
  samples_received (trace (calibrate_instance 0 131594 Scenario.silent)) = 0 /\
  fit_sizes (trace (calibrate_instance 0 131594 Scenario.silent)) = [] /\
  firstn 4 (param_writes (trace (calibrate_instance 0 131594 Scenario.silent))) =
    [("CAL_MAG0_ID", PWord 131594); ("CAL_MAG0_XOFF", PFloat S754_nan);
     ("CAL_MAG0_YOFF", PFloat S754_nan); ("CAL_MAG0_ZOFF", PFloat S754_nan)].
Proof. vm_compute. repeat split. Qed.

(** C5, at the failing input: with 120 samples, half the capacity, no fit is
    attempted and the offset parameters are written all the same. *)
Example offsets_written_without_fit :
  samples_received (trace (calibrate_instance 0 131594 Scenario.half)) = 120 /\
  fit_sizes (trace (calibrate_instance 0 131594 Scenario.half)) = [] /\
  map fst (firstn 4 (param_writes (trace (calibrate_instance 0 131594 Scenario.half)))) =
    ["CAL_MAG0_ID"; "CAL_MAG0_XOFF"; "CAL_MAG0_YOFF"; "CAL_MAG0_ZOFF"] /\
  value (calibrate_instance 0 131594 Scenario.half) = Some OK.
Proof. vm_compute. repeat split. Qed.

(** C2 as stated fails: instance 0 calibrates, [param_save_default] fails,
    and the run returns that failure; so "success if and only if an instance
    calibrated" does not hold of this run. *)
Example save_failure_is_returned :
  succeeded_instances (trace (do_mag_calibration Scenario.unsaved)) = [0] /\
  save_results (trace (do_mag_calibration Scenario.unsaved)) = [ERROR] /\
  value (do_mag_calibration Scenario.unsaved) = Some ERROR /\
  ~ (value (do_mag_calibration Scenario.unsaved) = Some OK
     <-> succeeded_instances (trace (do_mag_calibration Scenario.unsaved)) <> []).
Proof.
  vm_compute. repeat split.
  intros [_ H]. assert (Hne : [0] <> @nil Z) by discriminate.
  specialize (H Hne). discriminate H.
Qed.

(** C3 as stated fails: the acquisition is aborted although no more than 1000
    polls failed in a row; the sample in between did not reset the counter,
    which ends at 1001 where a counter of consecutive failures ends at 1. *)
Example poll_errcount_is_not_reset :
  option_map acq_res (value (acquisition 0 OK Scenario.flaky)) = Some ERROR /\
  option_map poll_errcount (value (acquisition 0 OK Scenario.flaky)) = Some 1001 /\
  samples_received (trace (acquisition 0 OK Scenario.flaky)) = 1 /\
  consecutive_failures 0 (poll_results (trace (acquisition 0 OK Scenario.flaky))) = 1 /\
  ever_exceeds 1000 0 (poll_results (trace (acquisition 0 OK Scenario.flaky))) = false /\
  ~ (option_map acq_res (value (acquisition 0 OK Scenario.flaky)) = Some ERROR
     <-> ever_exceeds 1000 0
           (poll_results (trace (acquisition 0 OK Scenario.flaky))) = true).
Proof.
  vm_compute. repeat split.
  intros [H _]. specialize (H eq_refl). discriminate H.
Qed.

(** C4 as stated fails: after a failed reset the instance is left at once;
    [calibrate_instance] is not entered, so nothing is acquired, fitted or
    applied. *)
Example failed_reset_skips_instance :
  value (calibrate_mag 0 (mk_cal ERROR 0) Scenario.no_reset) = Some (mk_cal ERROR 0) /\
  trace (calibrate_mag 0 (mk_cal ERROR 0) Scenario.no_reset) =
    [EvOpen "/dev/mag0" 0 3; EvLog info (msg_calibrating_magnetometer 0);
     EvSleep 3000000; EvDeviceId 3 131594; EvSetScale 3 mscale_null_0 ERROR;
     EvLog critical CAL_FAILED_RESET_CAL_MSG; EvClose 3] /\
  ~ (exists id, In (EvEnter 0 id)
                  (trace (calibrate_mag 0 (mk_cal ERROR 0) Scenario.no_reset))).
Proof.
  vm_compute. repeat split.
  intros [id H]. repeat (destruct H as [H|H]; [discriminate H|]). exact H.
Qed.

Section OrchestratorClaims.
Context {W : Type} {P : Platform W}.

(** C2, amended.  [do_mag_calibration] always returns, and it returns OK
    exactly when at least one instance calibrated successfully and
    [param_save_default] then answered OK.  When an instance succeeded the
    status returned is the one of [param_save_default]; when none did,
    nothing is saved and the status is not OK.  A save that fails is
    reported with the critical message CAL_FAILED_SAVE_PARAMS_MSG, sent
    right after the save as the last call of the run, and that message is
    in the run in no other case. *)
Theorem overall_status_needs_the_save (w : W) :
  exists res w' evs,
    do_mag_calibration w = Some (res, w', evs) /\
    (res = OK <-> succeeded_instances evs <> [] /\ save_results evs = [OK]) /\
    (succeeded_instances evs <> [] -> save_results evs = [res]) /\
    (succeeded_instances evs = [] -> save_results evs = [] /\ res <> OK) /\
    (In (EvLog critical CAL_FAILED_SAVE_PARAMS_MSG) evs
     <-> exists r, save_results evs = [r] /\ r <> OK) /\
    (succeeded_instances evs <> [] -> res <> OK ->
     exists front,
       evs = front ++ [EvParamSave res;
                       EvLog critical CAL_FAILED_SAVE_PARAMS_MSG]).
Proof.
  rewrite do_mag_calibration_run.
  destruct (calibrate_all_mags_run
              (plat_sleep 1000000 (plat_log info (CAL_STARTED_MSG sensor_name) w)))
    as (o0 & o1 & o2 & w1 & w2 & w3 & fd0 & fd1 & fd2 & e0 & e1 & e2
        & H0 & H1 & H2 & -> & (A0 & A1 & A2) & (S0 & S1 & S2)).
  destruct (next_cal_count o0 o1 o2) as [Hcount Hres].
  set (st := next_cal o2 (next_cal o1 (next_cal o0 (mk_cal ERROR 0)))) in *.
  set (loop := (EvOpen (device_path 0) O_RDONLY fd0 :: e0)
                 ++ (EvOpen (device_path 1) O_RDONLY fd1 :: e1)
                 ++ EvOpen (device_path 2) O_RDONLY fd2 :: e2).
  assert (Hsucc : succeeded_instances loop
                  = (if outcome_ok o0 then [0] else [])
                      ++ (if outcome_ok o1 then [1] else [])
                      ++ (if outcome_ok o2 then [2] else [])).
  { unfold loop. rewrite !succeeded_instances_app. simpl. now rewrite S0, S1, S2. }
  assert (Hsave : save_results loop = []).
  { unfold loop. rewrite !save_results_app. simpl.
    now rewrite (about_no_save _ _ _ A0), (about_no_save _ _ _ A1),
      (about_no_save _ _ _ A2). }
  assert (Hquiet : ~ In (EvLog critical CAL_FAILED_SAVE_PARAMS_MSG) loop).
  { destruct (calibrate_mag_pass_events _ _ _ _ _ _ (H0 (mk_cal ERROR 0))) as [_ Q0].
    destruct (calibrate_mag_pass_events _ _ _ _ _ _ (H1 (mk_cal ERROR 0))) as [_ Q1].
    destruct (calibrate_mag_pass_events _ _ _ _ _ _ (H2 (mk_cal ERROR 0))) as [_ Q2].
    unfold loop. intros Hin.
    apply in_app_or in Hin as [Hin|Hin]; [exact (Q0 Hin)|].
    apply in_app_or in Hin as [Hin|Hin]; [exact (Q1 Hin)|exact (Q2 Hin)]. }
  rewrite Hcount, negb_involutive.
  destruct (outcome_ok o0 || outcome_ok o1 || outcome_ok o2) eqn:Hany.
  - destruct (plat_param_save_default _) as [res w4].
    eexists _, _, _. split; [reflexivity|].
    assert (Hne : succeeded_instances loop <> []).
    { rewrite Hsucc. destruct (outcome_ok o0), (outcome_ok o1), (outcome_ok o2);
        simpl in *; congruence. }
    match goal with
    | |- ?A /\ ?B /\ ?C /\ ?D =>
        assert (Hold : A /\ B /\ C);
          [|destruct Hold as (O1 & O2 & O3);
            split; [exact O1|]; split; [exact O2|]; split; [exact O3|]]
    end.
    { cbn [succeeded_instances save_results flat_map app].
      rewrite !succeeded_instances_app, !save_results_app, Hsave.
      destruct (res =? OK) eqn:Hsaved;
        [apply Z.eqb_eq in Hsaved|apply Z.eqb_neq in Hsaved];
        cbn [succeeded_instances save_results flat_map app];
        rewrite ?app_nil_r; repeat split; try tauto; try congruence.
      intros [_ [= ->]]. congruence. }
    assert (Hsaved' :
              save_results
                (EvLog info (CAL_STARTED_MSG sensor_name) :: EvSleep 1000000
                   :: loop
                   ++ [EvLog info (CAL_PROGRESS_MSG sensor_name 100);
                       EvSleep 100000; EvLog info (CAL_DONE_MSG sensor_name);
                       EvParamSave res]
                   ++ (if res =? OK then []
                       else [EvLog critical CAL_FAILED_SAVE_PARAMS_MSG]))
              = [res]).
    { cbn [save_results flat_map app].
      rewrite !save_results_app, Hsave.
      destruct (res =? OK); reflexivity. }
    rewrite Hsaved'.
    destruct (res =? OK) eqn:Hsaved;
      [apply Z.eqb_eq in Hsaved|apply Z.eqb_neq in Hsaved].
    + subst res. split; [|intros _ Hbad; now elim Hbad].
      split.
      * intros Hin. exfalso. cbn [In] in Hin.
        destruct Hin as [Hin|[Hin|Hin]]; try discriminate.
        apply in_app_or in Hin as [Hin|Hin]; [exact (Hquiet Hin)|].
        cbn [app In] in Hin.
        repeat (destruct Hin as [Hin|Hin]; [discriminate|]). destruct Hin.
      * intros (r & [= <-] & Hr). now elim Hr.
    + split.
      * split; [intros _; now exists res|].
        intros _. right. right. apply in_or_app. right.
        cbn [app In]. do 4 right. now left.
      * intros _ _.
        exists (EvLog info (CAL_STARTED_MSG sensor_name) :: EvSleep 1000000
                  :: loop
                  ++ [EvLog info (CAL_PROGRESS_MSG sensor_name 100);
                      EvSleep 100000; EvLog info (CAL_DONE_MSG sensor_name)]).
        cbn [app]. rewrite <- app_assoc. reflexivity.
  - eexists _, _, _. split; [reflexivity|].
    assert (He : succeeded_instances loop = []).
    { rewrite Hsucc. destruct (outcome_ok o0), (outcome_ok o1), (outcome_ok o2);
        simpl in *; congruence. }
    match goal with
    | |- ?A /\ ?B /\ ?C /\ ?D =>
        assert (Hold : A /\ B /\ C);
          [|destruct Hold as (O1 & O2 & O3);
            split; [exact O1|]; split; [exact O2|]; split; [exact O3|]]
    end.
    { cbn [succeeded_instances save_results flat_map app].
      rewrite !succeeded_instances_app, !save_results_app, Hsave, He. simpl.
      specialize (Hres eq_refl).
      repeat split; try tauto; try congruence; intros; try discriminate. }
    split.
    + split.
      * intros Hin. exfalso. cbn [In] in Hin.
        destruct Hin as [Hin|[Hin|Hin]]; try discriminate.
        apply in_app_or in Hin as [Hin|Hin]; [exact (Hquiet Hin)|].
        cbn [In] in Hin. destruct Hin as [Hin|[]]. discriminate.
      * intros (r & Hr & _). exfalso. revert Hr.
        cbn [save_results flat_map app].
        rewrite !save_results_app, Hsave. discriminate.
    + intros Hsome. exfalso. apply Hsome.
      cbn [succeeded_instances flat_map app].
      rewrite !succeeded_instances_app, He. reflexivity.
Qed.

(** C4, amended.  When the device opens and the reset of its scale fails, the
    critical message is reported and the pass ends there with the failed
    status: the device is closed, and neither the range calibration nor
    [calibrate_instance] (acquisition, fit, apply) is called for it. *)
Theorem failed_reset_ends_the_pass s st (w w1 w2 w3 : W) fd id r :
  plat_open (device_path s) O_RDONLY w = (fd, w1) ->
  (fd <? 0) = false ->
  plat_DEVIOCGDEVICEID fd
    (plat_sleep 3000000 (plat_log info (msg_calibrating_magnetometer s) w1))
    = (id, w2) ->
  plat_MAGIOCSSCALE fd mscale_null_0 w2 = (r, w3) ->
  r <> OK ->
  calibrate_mag s st w
  = Some (mk_cal r (calibrated_ok st),
          plat_close fd (plat_log critical CAL_FAILED_RESET_CAL_MSG w3),
          [EvOpen (device_path s) O_RDONLY fd;
           EvLog info (msg_calibrating_magnetometer s);
           EvSleep 3000000;
           EvDeviceId fd id;
           EvSetScale fd mscale_null_0 r;
           EvLog critical CAL_FAILED_RESET_CAL_MSG;
           EvClose fd]).
Proof.
  unfold device_path. intros Hopen Hfd Hid Hreset Hr.
  rewrite calibrate_mag_run, Hopen, Hfd, Hid, Hreset.
  apply Z.eqb_neq in Hr. rewrite Hr. reflexivity.
Qed.

(** C8.  When the device opens, the reset succeeds and the range calibration
    fails, the failure is reported with an informational message and the
    pass goes on as after a success: [calibrate_instance] is called, and its
    status alone decides how the pass ends. *)
Theorem skipped_range_calibration_proceeds s st (w w1 w2 w3 w4 : W) fd id r :
  plat_open (device_path s) O_RDONLY w = (fd, w1) ->
  (fd <? 0) = false ->
  plat_DEVIOCGDEVICEID fd
    (plat_sleep 3000000 (plat_log info (msg_calibrating_magnetometer s) w1))
    = (id, w2) ->
  plat_MAGIOCSSCALE fd mscale_null_0 w2 = (OK, w3) ->
  plat_MAGIOCCALIBRATE fd w3 = (r, w4) ->
  r <> OK ->
  exists res w' evs,
    calibrate_instance s (uint32 id)
      (plat_close fd (plat_log info msg_skipped_scale_calibration w4))
      = Some (res, w', evs) /\
    calibrate_mag s st w
    = Some (mk_cal res (if res =? OK then uint32 (calibrated_ok st + 1)
                        else calibrated_ok st),
            w',
            [EvOpen (device_path s) O_RDONLY fd;
             EvLog info (msg_calibrating_magnetometer s);
             EvSleep 3000000;
             EvDeviceId fd id;
             EvSetScale fd mscale_null_0 OK;
             EvRangeCal fd r;
             EvLog info msg_skipped_scale_calibration;
             EvClose fd] ++ evs).
Proof.
  unfold device_path. intros Hopen Hfd Hid Hreset Hrange Hr.
  destruct (calibrate_instance_spec s (uint32 id)
              (plat_close fd (plat_log info msg_skipped_scale_calibration w4)))
    as (res & w' & body & Hci & _).
  eexists res, w', _. split; [exact Hci|].
  rewrite calibrate_mag_run, Hopen, Hfd, Hid, Hreset.
  change (OK =? OK) with true. cbv iota. rewrite Hrange.
  apply Z.eqb_neq in Hr. rewrite Hr. cbv zeta. rewrite Hci. reflexivity.
Qed.

(** C9.  The loop runs its three passes, for the indices 0, 1 and 2 in this
    order, whatever the earlier passes came to: each pass starts by opening
    its device, what it does and how it leaves the loop variables do not
    depend on the variables the earlier passes left, and a pass that ends OK
    is counted. *)
Theorem every_index_is_processed (w : W) :
  exists o0 o1 o2 w1 w2 w3 fd0 fd1 fd2 e0 e1 e2,
    (forall st, calibrate_mag 0 st w
                = Some (next_cal o0 st, w1, EvOpen (device_path 0) O_RDONLY fd0 :: e0)) /\
    (forall st, calibrate_mag 1 st w1
                = Some (next_cal o1 st, w2, EvOpen (device_path 1) O_RDONLY fd1 :: e1)) /\
    (forall st, calibrate_mag 2 st w2
                = Some (next_cal o2 st, w3, EvOpen (device_path 2) O_RDONLY fd2 :: e2)) /\
    calibrate_all_mags w
      = Some (next_cal o2 (next_cal o1 (next_cal o0 (mk_cal ERROR 0))), w3,
              (EvOpen (device_path 0) O_RDONLY fd0 :: e0)
                ++ (EvOpen (device_path 1) O_RDONLY fd1 :: e1)
                ++ (EvOpen (device_path 2) O_RDONLY fd2 :: e2)) /\
    (calibrated_ok (next_cal o2 (next_cal o1 (next_cal o0 (mk_cal ERROR 0)))) =? 0)
      = negb (outcome_ok o0 || outcome_ok o1 || outcome_ok o2).
Proof.
  destruct (calibrate_all_mags_run w)
    as (o0 & o1 & o2 & w1 & w2 & w3 & fd0 & fd1 & fd2 & e0 & e1 & e2
        & H0 & H1 & H2 & Hall & _ & _).
  exists o0, o1, o2, w1, w2, w3, fd0, fd1, fd2, e0, e1, e2.
  repeat (split; [assumption|]). apply next_cal_count.
Qed.

(** C10.  A run of [do_mag_calibration] is: the start message and a pause;
    the pass for index 0, the pass for index 1, the pass for index 2, each
    starting with the opening of its own device and touching no other
    instance's device, topic or parameters; and the closing messages and
    the save.  There is no fourth pass: no call of the run opens the device,
    subscribes to the topic, writes a parameter or enters the calibration of
    an instance of index 3 or more. *)
Theorem only_indices_0_1_2 (w : W) :
  exists res w' fd0 fd1 fd2 e0 e1 e2 closing,
    do_mag_calibration w
      = Some (res, w',
              EvLog info (CAL_STARTED_MSG sensor_name) :: EvSleep 1000000
                :: ((EvOpen (device_path 0) O_RDONLY fd0 :: e0)
                      ++ (EvOpen (device_path 1) O_RDONLY fd1 :: e1)
                      ++ (EvOpen (device_path 2) O_RDONLY fd2 :: e2))
                ++ closing) /\
    Forall (about MAG_BASE_DEVICE_PATH 0) e0 /\
    Forall (about MAG_BASE_DEVICE_PATH 1) e1 /\
    Forall (about MAG_BASE_DEVICE_PATH 2) e2 /\
    Forall closing_event closing /\
    forall s, 3 <= s ->
      Forall (fun e => ~ touches MAG_BASE_DEVICE_PATH s e)
        (EvLog info (CAL_STARTED_MSG sensor_name) :: EvSleep 1000000
           :: ((EvOpen (device_path 0) O_RDONLY fd0 :: e0)
                 ++ (EvOpen (device_path 1) O_RDONLY fd1 :: e1)
                 ++ (EvOpen (device_path 2) O_RDONLY fd2 :: e2))
           ++ closing).
Proof.
  rewrite do_mag_calibration_run.
  destruct (calibrate_all_mags_run
              (plat_sleep 1000000 (plat_log info (CAL_STARTED_MSG sensor_name) w)))
    as (o0 & o1 & o2 & w1 & w2 & w3 & fd0 & fd1 & fd2 & e0 & e1 & e2
        & _ & _ & _ & -> & (A0 & A1 & A2) & _).
  assert (Hpass : forall i fd e s,
             0 <= i < 3 -> 3 <= s -> Forall (about MAG_BASE_DEVICE_PATH i) e ->
             Forall (fun e => ~ touches MAG_BASE_DEVICE_PATH s e)
               (EvOpen (device_path i) O_RDONLY fd :: e)).
  { intros i fd e s Hi Hs He. constructor.
    - intros H. assert (i = s); [|lia].
      apply (about_touches_same MAG_BASE_DEVICE_PATH i s
               (EvOpen (device_path i) O_RDONLY fd)); try lia; [reflexivity|exact H].
    - eapply Forall_impl; [|exact He]. intros e' Ha Ht.
      assert (i = s); [|lia].
      apply (about_touches_same MAG_BASE_DEVICE_PATH i s e'); tauto || lia. }
  assert (Hrun : forall closing s,
             3 <= s -> Forall closing_event closing ->
             Forall (fun e => ~ touches MAG_BASE_DEVICE_PATH s e)
               (EvLog info (CAL_STARTED_MSG sensor_name) :: EvSleep 1000000
                  :: ((EvOpen (device_path 0) O_RDONLY fd0 :: e0)
                        ++ (EvOpen (device_path 1) O_RDONLY fd1 :: e1)
                        ++ (EvOpen (device_path 2) O_RDONLY fd2 :: e2))
                  ++ closing)).
  { intros closing s Hs Hc. constructor; [simpl; tauto|]. constructor; [simpl; tauto|].
    rewrite !Forall_app. repeat split; try (apply Hpass; assumption || lia).
    eapply Forall_impl; [|exact Hc]. intros e. apply closing_touches_none. }
  destruct (negb _).
  - destruct (plat_param_save_default _) as [res w4].
    eexists _, _, fd0, fd1, fd2, e0, e1, e2, _.
    split; [reflexivity|]. repeat (split; [assumption|]).
    assert (Hc : Forall closing_event
                   ([EvLog info (CAL_PROGRESS_MSG sensor_name 100); EvSleep 100000;
                     EvLog info (CAL_DONE_MSG sensor_name); EvParamSave res]
                      ++ (if res =? OK then []
                          else [EvLog critical CAL_FAILED_SAVE_PARAMS_MSG]))).
    { destruct (res =? OK); repeat constructor. }
    split; [exact Hc|]. intros s Hs. now apply Hrun.
  - eexists _, _, fd0, fd1, fd2, e0, e1, e2, _.
    split; [reflexivity|]. repeat (split; [assumption|]).
    assert (Hc : Forall closing_event [EvLog critical (CAL_FAILED_MSG sensor_name)])
      by repeat constructor.
    split; [exact Hc|]. intros s Hs. now apply Hrun.
Qed.
End OrchestratorClaims.

Section InstanceClaims.
Context {W : Type} {P : Platform W}.

(** [calibrate_instance] always returns, and its run has the shape of
    [instance_run] between the two observation points. *)
Lemma calibrate_instance_structure s device_id (w : W) :
  exists res w' body,
    calibrate_instance s device_id w
      = Some (res, w', EvEnter s device_id :: body ++ [EvLeave s res]) /\
    instance_run (device_path s) s device_id res body.
Proof.
  destruct (calibrate_instance_spec s device_id w) as (res & w' & body & Hci & Hrun & _).
  destruct (proj1 (wp_run _ _ _) (calibrate_instance_run_spec s device_id w))
    as (res' & w'' & body' & Hrun' & Hshape).
  rewrite Hrun in Hrun'. injection Hrun' as <- <- <-.
  now exists res, w', body.
Qed.

(** C3, amended.  The loop always ends.  [poll_errcount] ends as the number
    of all the polls of the run that brought no sample, whether or not
    samples arrived in between, and [calibration_counter] as the number of
    those that did; the run is aborted with the sensor-failure message and
    status exactly when that number of failures exceeds 1000. *)
Theorem poll_errcount_counts_every_failure sub_mag deadline bx by_ bz (w : W) :
  exists a w' evs,
    acquire acquire_fuel sub_mag deadline (mk_acq OK 0 0 bx by_ bz) w
      = Some (a, w', evs) /\
    poll_errcount a = failed_polls evs /\
    calibration_counter a = samples_received evs /\
    (acq_res a = ERROR <-> 1000 < failed_polls evs) /\
    (acq_res a = ERROR <-> In (EvLog critical CAL_FAILED_SENSOR_MSG) evs) /\
    (acq_res a = OK \/ acq_res a = ERROR) /\
    failed_polls evs <= 1001.
Proof.
  destruct (proj1 (wp_run _ _ _) (acquire_from_start sub_mag deadline OK bx by_ bz w))
    as (a & w' & evs & Hrun & (_ & HE & HC & _ & HR)).
  cbn [poll_errcount calibration_counter acq_res] in *.
  exists a, w', evs. split; [exact Hrun|].
  split; [lia|]. split; [lia|].
  destruct HR as [(R1 & R2 & R3)|(R1 & R2 & R3)].
  - repeat split; try tauto; try lia.
  - assert (acq_res a <> ERROR) by (rewrite R1; discriminate).
    repeat split; try tauto; try lia.
Qed.

(** C6.  In the apply step the struct read from the device goes back to the
    device with its three offsets replaced by the centre and every other
    member as read; and when the device has accepted it, the nineteen
    parameters are written from a struct whose offsets are the centre, whose
    scale factors are as read, and whose temperature members are the
    hardcoded table when the device identity is 131594 and as read when it
    is not. *)
Theorem apply_replaces_only_the_offsets s device_id cx cy cz (w : W) :
  exists res w' fd gr m rest,
    apply_calibration s device_id cx cy cz w
      = Some (res, w', EvOpen (device_path s) 0 fd :: EvGetScale fd gr m :: rest) /\
    (gr <> OK -> device_writes rest = [] /\ param_writes rest = []) /\
    (gr = OK ->
     exists sr,
       device_writes rest
         = [(mk_mag_scale cx (x_scale m) cy (y_scale m) cz (z_scale m)
               (cal_temp m) (min_temp m) (max_temp m)
               (x1_temp m) (x2_temp m) (x3_temp m), sr)] /\
       (sr <> OK -> param_writes rest = []) /\
       (sr = OK ->
        param_writes rest
          = parameter_fields s device_id
              (scale_for_parameters device_id m cx cy cz))).
Proof.
  destruct (proj1 (wp_run _ _ _) (apply_calibration_spec s device_id cx cy cz w))
    as (res & w' & evs & Hrun & (fd & gr & m & rest & -> & Hcases)).
  exists res, w', fd, gr, m, rest. split; [exact Hrun|].
  destruct Hcases as [(Hgr & _ & Hd & Hp & _)|(-> & sr & Hd & Hcases)].
  - split; [now intros _|]. intros Hok. contradiction.
  - split; [intros Hne; contradiction|]. intros _. exists sr.
    split; [exact Hd|].
    destruct Hcases as [(Hsr & _ & Hp & _)|(-> & Hp & _)].
    + split; [now intros _|]. intros Hok. contradiction.
    + split; [intros Hne; contradiction|]. now intros _.
Qed.

(** C7.  In a run of [calibrate_instance] either no parameter is written, or
    all nineteen fields of the instance are written, once each and in the
    order of the source, whatever the individual writes answer; nothing is
    written again or undone; and the status returned is ERROR exactly when
    one of the nineteen writes did not answer OK. *)
Theorem every_field_write_is_attempted s device_id (w : W) :
  exists res w' evs,
    calibrate_instance s device_id w = Some (res, w', evs) /\
    ((param_writes evs = [] /\ param_status evs = [])
     \/ ((exists m, param_writes evs = parameter_fields s device_id m) /\
         List.length (param_status evs) = 19%nat /\
         res = (if existsb write_failed (param_status evs) then ERROR else OK))).
Proof.
  destruct (calibrate_instance_structure s device_id w)
    as (res & w' & body & Hci & (pre & fit & post & -> & Hpre & _ & Hshape)).
  exists res, w'. eexists. split; [exact Hci|].
  destruct (sampling_no_writes _ _ Hpre) as (Hpw & Hps & _ & _).
  change (param_writes (EvEnter s device_id :: (pre ++ fit ++ post) ++ [EvLeave s res]))
    with (param_writes ((pre ++ fit ++ post) ++ [EvLeave s res])).
  change (param_status (EvEnter s device_id :: (pre ++ fit ++ post) ++ [EvLeave s res]))
    with (param_status ((pre ++ fit ++ post) ++ [EvLeave s res])).
  rewrite !param_writes_app, !param_status_app, Hpw, Hps.
  cbn [param_writes param_status flat_map app]. rewrite !app_nil_r.
  assert (Happ : forall cx cy cz,
             applied (device_path s) s device_id cx cy cz res post ->
             (param_writes post = [] /\ param_status post = [])
             \/ ((exists m, param_writes post = parameter_fields s device_id m) /\
                 List.length (param_status post) = 19%nat /\
                 res = (if existsb write_failed (param_status post) then ERROR else OK))).
  { intros cx cy cz H. destruct (applied_writes _ _ _ _ _ _ _ _ H) as [(H1 & H2 & _)|(H1 & H2 & H3)].
    - now left.
    - right. split; [eexists; exact H1|now split]. }
  destruct Hshape as [(-> & [(-> & _)|(_ & cx & cy & cz & H)])
                     |(xs & ys & zs & n & cx & cy & cz & r & _ & _ & -> & H)].
  - now left.
  - cbn [app param_writes param_status flat_map]. eapply Happ, H.
  - destruct (fit_events_no_writes xs ys zs n cx cy cz r) as (-> & -> & _ & _).
    cbn [app]. destruct (finite_centre cx cy cz).
    + eapply Happ, H.
    + destruct H as [-> _]. now left.
Qed.

(** X1.  The part of C1 that holds: the fit is invoked at most once, on
    the samples received, and only when more than 120 and at most 240 of
    them were (lines 260-264). *)
Lemma fit_needs_more_than_half s device_id (w : W) :
  exists res w' evs,
    calibrate_instance s device_id w = Some (res, w', evs) /\
    (fit_sizes evs = []
     \/ (fit_sizes evs = [samples_received evs] /\ 120 < samples_received evs <= 240)) /\
    (samples_received evs <= 120 -> fit_sizes evs = []).
Proof.
  destruct (calibrate_instance_structure s device_id w)
    as (res & w' & body & Hci & (pre & fit & post & -> & Hpre & Happ & Hshape)).
  exists res, w'. eexists. split; [exact Hci|].
  destruct (sampling_no_writes _ _ Hpre) as (_ & _ & _ & Hpf).
  destruct (apply_events_no_sampling _ Happ) as (Haf & Has).
  change (fit_sizes (EvEnter s device_id :: (pre ++ fit ++ post) ++ [EvLeave s res]))
    with (fit_sizes ((pre ++ fit ++ post) ++ [EvLeave s res])).
  change (samples_received (EvEnter s device_id :: (pre ++ fit ++ post) ++ [EvLeave s res]))
    with (samples_received ((pre ++ fit ++ post) ++ [EvLeave s res])).
  rewrite !fit_sizes_app, !samples_received_app, Hpf, Haf, Has.
  cbn [fit_sizes samples_received flat_map app]. rewrite !app_nil_r.
  destruct Hshape as [(-> & _)|(xs & ys & zs & n & cx & cy & cz & r & Hn & -> & -> & _)].
  - simpl. split; [now left|reflexivity].
  - destruct (fit_events_no_writes xs ys zs (samples_received pre) cx cy cz r)
      as (_ & _ & _ & ->).
    assert (Hs : samples_received (fit_events xs ys zs (samples_received pre) cx cy cz r) = 0).
    { unfold fit_events. now destruct (finite_centre cx cy cz). }
    rewrite Hs, !Z.add_0_r. split; [right; now split|]. lia.
Qed.

(** X2.  The part of C5 that holds: when the fit is invoked and one
    coordinate of the centre it gives is not finite, the status is ERROR
    and nothing goes to the device or to the parameter store (lines
    267-270 and 285). *)
Lemma nonfinite_centre_writes_nothing s device_id (w : W) :
  exists res w' evs,
    calibrate_instance s device_id w = Some (res, w', evs) /\
    forall xs ys zs n it d cx cy cz r,
      In (EvFit xs ys zs n it d (cx, cy, cz, r)) evs ->
      finite_centre cx cy cz = false ->
      res = ERROR /\ param_writes evs = [] /\ device_writes evs = [].
Proof.
  destruct (calibrate_instance_structure s device_id w)
    as (res & w' & body & Hci & (pre & fit & post & -> & Hpre & Happ & Hshape)).
  exists res, w'. eexists. split; [exact Hci|].
  intros xs ys zs n it d cx cy cz r Hin Hfin.
  destruct (sampling_no_writes _ _ Hpre) as (Hpw & _ & Hpd & _).
  assert (Hpre' : ~ In (EvFit xs ys zs n it d (cx, cy, cz, r)) pre).
  { intros H. rewrite Forall_forall in Hpre. exact (Hpre _ H). }
  assert (Happ' : ~ In (EvFit xs ys zs n it d (cx, cy, cz, r)) post).
  { intros H. rewrite Forall_forall in Happ. exact (Happ _ H). }
  destruct Hin as [Hin|Hin]; [discriminate|].
  apply in_app_or in Hin as [Hin|[Hin|[]]]; [|discriminate].
  apply in_app_or in Hin as [Hin|Hin]; [contradiction|].
  apply in_app_or in Hin as [Hin|Hin]; [|contradiction].
  destruct Hshape as [(-> & _)|(xs' & ys' & zs' & n' & cx' & cy' & cz' & r' & _ & _ & -> & H)];
    [destruct Hin|].
  assert (Hsame : finite_centre cx' cy' cz' = false).
  { unfold fit_events in Hin. destruct Hin as [Hin|[Hin|[Hin|Hin]]]; try discriminate.
    - injection Hin as <- <- <- <- <- <- <- <- <- <-. exact Hfin.
    - destruct (finite_centre cx' cy' cz'); [destruct Hin|reflexivity]. }
  rewrite Hsame in H. destruct H as [-> ->]. split; [reflexivity|].
  destruct (fit_events_no_writes xs' ys' zs' n' cx' cy' cz' r') as (Hfw & _ & Hfd & _).
  change (param_writes (EvEnter s device_id :: (pre ++ fit_events xs' ys' zs' n' cx' cy' cz' r' ++ []) ++ [EvLeave s ERROR]))
    with (param_writes ((pre ++ fit_events xs' ys' zs' n' cx' cy' cz' r' ++ []) ++ [EvLeave s ERROR])).
  change (device_writes (EvEnter s device_id :: (pre ++ fit_events xs' ys' zs' n' cx' cy' cz' r' ++ []) ++ [EvLeave s ERROR]))
    with (device_writes ((pre ++ fit_events xs' ys' zs' n' cx' cy' cz' r' ++ []) ++ [EvLeave s ERROR])).
  rewrite !param_writes_app, !device_writes_app, Hpw, Hpd, Hfw, Hfd. now split.
Qed.

End InstanceClaims.

(** The reset fails on the simulated device: the pass is over after the
    critical message. *)
Lemma failed_reset_ends_the_pass_witness :
  exists w',
    calibrate_mag 0 (mk_cal ERROR 0) Scenario.no_reset
    = Some (mk_cal ERROR 0, w',
            [EvOpen "/dev/mag0" O_RDONLY 3;
             EvLog info (msg_calibrating_magnetometer 0);
             EvSleep 3000000;
             EvDeviceId 3 131594;
             EvSetScale 3 mscale_null_0 ERROR;
             EvLog critical CAL_FAILED_RESET_CAL_MSG;
             EvClose 3]).
Proof.
  eexists.
  apply (failed_reset_ends_the_pass (P := Sim.platform) 0 (mk_cal ERROR 0)
           Scenario.no_reset Scenario.no_reset
           (Sim.with_clock 3000000 Scenario.no_reset)
           (snd (Sim.sim_sscale 3 mscale_null_0
                   (Sim.with_clock 3000000 Scenario.no_reset)))
           3 131594 ERROR).
  - reflexivity.
  - reflexivity.
  - reflexivity.
  - reflexivity.
  - discriminate.
Defined.

(** The range calibration fails on the simulated device: the message is
    informational and [calibrate_instance] is called all the same. *)
Lemma skipped_range_calibration_witness :
  exists res w' evs,
    calibrate_instance 0 (uint32 131594)
      (snd (Sim.sim_rangecal 3
              (snd (Sim.sim_sscale 3 mscale_null_0
                      (Sim.with_clock 3000000 Scenario.no_range)))))
      = Some (res, w', evs) /\
    calibrate_mag 0 (mk_cal ERROR 0) Scenario.no_range
    = Some (mk_cal res (if res =? OK then uint32 (0 + 1) else 0), w',
            [EvOpen "/dev/mag0" O_RDONLY 3;
             EvLog info (msg_calibrating_magnetometer 0);
             EvSleep 3000000;
             EvDeviceId 3 131594;
             EvSetScale 3 mscale_null_0 OK;
             EvRangeCal 3 ERROR;
             EvLog info msg_skipped_scale_calibration;
             EvClose 3] ++ evs).
Proof.
  apply (skipped_range_calibration_proceeds (P := Sim.platform) 0 (mk_cal ERROR 0)
           Scenario.no_range Scenario.no_range
           (Sim.with_clock 3000000 Scenario.no_range)
           (snd (Sim.sim_sscale 3 mscale_null_0
                   (Sim.with_clock 3000000 Scenario.no_range)))
           (snd (Sim.sim_rangecal 3
                   (snd (Sim.sim_sscale 3 mscale_null_0
                           (Sim.with_clock 3000000 Scenario.no_range)))))
           3 131594 ERROR).
  - reflexivity.
  - reflexivity.
  - reflexivity.
  - reflexivity.
  - reflexivity.
  - discriminate.
Defined.

(** The partial failure of the specification, run on the simulated platform:
    instance 0 is aborted by its failed polls, instance 1 calibrates, the
    run succeeds and only the parameters of instance 1 are written. *)
Example later_instance_succeeds_after_a_failure :
  value (do_mag_calibration Scenario.second_only) = Some OK /\
  succeeded_instances (trace (do_mag_calibration Scenario.second_only)) = [1] /\
  map fst (param_writes (trace (do_mag_calibration Scenario.second_only)))
  = map fst (parameter_fields 1 0 mscale_null_0).
Proof. vm_compute. repeat split. Qed.

(** * Further properties of the routine *)

(** ** The routine, block by block *)

Section Anatomy.
Context {W : Type} {P : Platform W}.

Lemma wp_elim {A} (m : M W A) (w : W) Q a w' evs :
  wp m w Q -> m w = Some (a, w', evs) -> Q a w' evs.
Proof.
  intros H Hrun. apply wp_run in H as (a' & w'' & evs' & Hrun' & HQ).
  rewrite Hrun in Hrun'. now injection Hrun' as <- <- <-.
Qed.

Lemma wp_total {A} (m : M W A) (w : W) Q : wp m w Q -> m w <> None.
Proof. intros H. apply wp_run in H as (a & w' & evs & -> & _). discriminate. Qed.

(** [calibrate_instance_run] as the sequence of its blocks. *)
Lemma calibrate_instance_run_unfold s device_id (w : W) :
  calibrate_instance_run s device_id w =
  let (x, w1) := plat_new calibration_maxcount w in
  let (y, w2) := plat_new calibration_maxcount w1 in
  let (z, w3) := plat_new calibration_maxcount w2 in
  let w4 := plat_log info (CAL_PROGRESS_MSG sensor_name 20) w3 in
  let pre := [EvNew calibration_maxcount x; EvNew calibration_maxcount y;
              EvNew calibration_maxcount z;
              EvLog info (CAL_PROGRESS_MSG sensor_name 20)] in
  if negb x || negb y || negb z then
    Some (ERROR, plat_log critical msg_out_of_memory w4,
          pre ++ [EvLog critical msg_out_of_memory])
  else
    match acquisition s OK w4 with
    | None => None
    | Some (a, w5, e1) =>
        match sphere_fit a (plat_uninitialized w5) w5 with
        | None => None
        | Some ((res, (cx, cy, cz, _)), w6, e2) =>
            if res =? OK then
              match apply_calibration s device_id cx cy cz w6 with
              | None => None
              | Some (r, w7, e3) => Some (r, w7, pre ++ e1 ++ e2 ++ e3)
              end
            else Some (res, w6, pre ++ e1 ++ e2)
        end
    end.
Proof.
  unfold calibrate_instance_run. run_unfold.
  destruct (plat_new calibration_maxcount w) as [x w1].
  destruct (plat_new calibration_maxcount w1) as [y w2].
  destruct (plat_new calibration_maxcount w2) as [z w3].
  destruct (negb x || negb y || negb z); [reflexivity|].
  destruct (acquisition s OK _) as [[[a w5] e1]|]; [|reflexivity].
  destruct (sphere_fit a _ w5) as [[[[res [[[cx cy] cz] rad]] w6] e2]|];
    [|reflexivity].
  destruct (res =? OK).
  - destruct (apply_calibration s device_id cx cy cz w6) as [[[r w7] e3]|];
      reflexivity.
  - cbn [app]. now rewrite !app_nil_r.
Qed.

(** [acquisition] around its loop. *)
Lemma acquisition_unfold s (w : W) :
  acquisition s OK w =
  let (sub, w1) := plat_orb_subscribe_multi s w in
  if sub <? 0 then
    Some (mk_acq ERROR 0 0 fresh_buffer fresh_buffer fresh_buffer,
          plat_log critical msg_no_mag_found w1,
          [EvSubscribe s sub; EvLog critical msg_no_mag_found])
  else
    let (t0, w2) := plat_hrt_absolute_time (plat_orb_set_interval sub 104 w1) in
    match acquire acquire_fuel sub (uint64 (t0 + calibration_interval))
            (mk_acq OK 0 0 fresh_buffer fresh_buffer fresh_buffer)
            (plat_log info msg_turn_on_all_sides w2) with
    | None => None
    | Some (a, w3, e) =>
        Some (a, plat_close sub w3,
              EvSubscribe s sub :: EvSetInterval sub 104 :: EvTime t0
                :: EvLog info msg_turn_on_all_sides :: e ++ [EvClose sub])
    end.
Proof.
  unfold acquisition. change (OK =? OK) with true. run_unfold.
  destruct (plat_orb_subscribe_multi s w) as [sub w1].
  destruct (sub <? 0); [reflexivity|].
  change (uint64 (calibration_interval / 1000) / calibration_maxcount) with 104.
  destruct (plat_hrt_absolute_time _) as [t0 w2].
  destruct (acquire _ _ _ _ _) as [[[a w3] e]|]; reflexivity.
Qed.

(** [sphere_fit], call by call. *)
Lemma sphere_fit_unfold (a : acq) (sp : sphere) (w : W) :
  sphere_fit a sp w =
  if (acq_res a =? OK) && (120 <? calibration_counter a) then
    let n := calibration_counter a in
    let xs := firstn (Z.to_nat n) (acq_x a) in
    let ys := firstn (Z.to_nat n) (acq_y a) in
    let zs := firstn (Z.to_nat n) (acq_z a) in
    let out := plat_sphere_fit xs ys zs n 100 Lit.f0_0 sp in
    let ok := finite_centre (fst (fst (fst out))) (snd (fst (fst out))) (snd (fst out)) in
    let w2 := plat_log info (CAL_PROGRESS_MSG sensor_name 80)
                (plat_log info (CAL_PROGRESS_MSG sensor_name 70) w) in
    Some ((if ok then acq_res a else ERROR, out),
          (if ok then w2 else plat_log critical msg_nan_in_sphere_fit w2),
          EvLog info (CAL_PROGRESS_MSG sensor_name 70)
            :: EvFit xs ys zs n 100 Lit.f0_0 out
            :: EvLog info (CAL_PROGRESS_MSG sensor_name 80)
            :: (if ok then [] else [EvLog critical msg_nan_in_sphere_fit]))
  else Some ((acq_res a, sp), w, []).
Proof.
  unfold sphere_fit. change (calibration_maxcount / 2) with 120.
  destruct ((acq_res a =? OK) && (120 <? calibration_counter a)); [|reflexivity].
  run_unfold.
  destruct (plat_sphere_fit _ _ _ _ _ _ _) as [[[cx cy] cz] rad]. cbn [fst snd].
  rewrite nonfinite_centre.
  destruct (finite_centre cx cy cz); reflexivity.
Qed.
End Anatomy.

(** ** The buffers and the progress of the acquisition loop *)

Lemma store_length {A} (i : nat) (v : A) (l : list A) :
  List.length (store i v l) = List.length l.
Proof.
  revert i. induction l as [|h t IH]; intros [|i]; simpl; auto.
Qed.

Lemma firstn_store_succ {A} (i : nat) (v : A) (l : list A) :
  (i < List.length l)%nat -> firstn (S i) (store i v l) = firstn i l ++ [v].
Proof.
  revert i. induction l as [|h t IH]; intros [|i] Hi; simpl in *; try lia.
  - reflexivity.
  - f_equal. apply IH. lia.
Qed.

Lemma copied_x_app l1 l2 : copied_x (l1 ++ l2) = copied_x l1 ++ copied_x l2.
Proof. apply flat_map_app. Qed.

Lemma copied_y_app l1 l2 : copied_y (l1 ++ l2) = copied_y l1 ++ copied_y l2.
Proof. apply flat_map_app. Qed.

Lemma copied_z_app l1 l2 : copied_z (l1 ++ l2) = copied_z l1 ++ copied_z l2.
Proof. apply flat_map_app. Qed.

Lemma progress_values_app l1 l2 :
  progress_values (l1 ++ l2) = progress_values l1 ++ progress_values l2.
Proof. apply flat_map_app. Qed.

Lemma pct_mono c c' : c <= c' -> pct c <= pct c'.
Proof. unfold pct. intros H. Z.to_euclidean_division_equations. lia. Qed.

Lemma pct_range c : 0 <= c <= 240 -> 20 <= pct c <= 70.
Proof. unfold pct. intros H. Z.to_euclidean_division_equations. lia. Qed.

Section AcquireBuffers.
Context {W : Type} {P : Platform W}.

(** One pass stores the sample it copies in the cell [calibration_counter]
    of each buffer, or touches no buffer at all. *)
Lemma acquire_poll_buffers sub_mag (a : acq) (w : W) :
  0 <= calibration_counter a < calibration_maxcount ->
  wp (acquire_poll sub_mag a) w (fun a1 _ evs =>
    (exists mx my mz,
       calibration_counter a1 = calibration_counter a + 1 /\
       acq_x a1 = store (Z.to_nat (calibration_counter a)) mx (acq_x a) /\
       acq_y a1 = store (Z.to_nat (calibration_counter a)) my (acq_y a) /\
       acq_z a1 = store (Z.to_nat (calibration_counter a)) mz (acq_z a) /\
       copied_x evs = [mx] /\ copied_y evs = [my] /\ copied_z evs = [mz] /\
       (progress_values evs = [] \/
        progress_values evs = [pct (calibration_counter a + 1)]))
    \/ (calibration_counter a1 = calibration_counter a /\
        acq_x a1 = acq_x a /\ acq_y a1 = acq_y a /\ acq_z a1 = acq_z a /\
        copied_x evs = [] /\ copied_y evs = [] /\ copied_z evs = [] /\
        progress_values evs = [])).
Proof.
  unfold calibration_maxcount. intros Hc.
  unfold acquire_poll, calibration_maxcount.
  apply wp_bind, wp_call. intros r w2 _.
  destruct (0 <? r) eqn:Hr; cbv iota.
  - apply wp_bind, wp_call. intros [[mx my] mz] w3 _.
    rewrite (uint32_small (calibration_counter a + 1)) by lia.
    assert (Hpct : uint32 (20 + uint32 ((calibration_counter a + 1) * 50) / 240)
                   = pct (calibration_counter a + 1)).
    { pose proof (pct_range (calibration_counter a + 1)) as Hp. unfold pct in *.
      rewrite (uint32_small ((calibration_counter a + 1) * 50)) by lia.
      apply uint32_small. lia. }
    rewrite Hpct. apply wp_bind.
    destruct ((calibration_counter a + 1) mod (240 / 20) =? 0); cbv iota.
    + apply wp_exec, wp_ret. left. exists mx, my, mz.
      cbn [calibration_counter acq_x acq_y acq_z]. repeat split. now right.
    + apply wp_ret, wp_ret. left. exists mx, my, mz.
      cbn [calibration_counter acq_x acq_y acq_z]. repeat split. now left.
  - apply wp_ret. right. cbn [calibration_counter acq_x acq_y acq_z].
    now repeat split.
Qed.

Lemma acquire_keeps (fuel : nat) :
  forall sub_mag deadline (a : acq) (w : W),
    0 <= calibration_counter a <= calibration_maxcount ->
    0 <= poll_errcount a <= 1000 ->
    (Z.to_nat (calibration_maxcount - calibration_counter a)
     + Z.to_nat (1001 - poll_errcount a) < fuel)%nat ->
    List.length (acq_x a) = 240%nat ->
    List.length (acq_y a) = 240%nat ->
    List.length (acq_z a) = 240%nat ->
    wp (acquire fuel sub_mag deadline a) w (fun a' _ evs => kept a a' evs).
Proof.
  induction fuel as [|fuel IH];
    intros sub_mag deadline a w Hc He Hfuel Hx Hy Hz; [lia|].
  cbn [acquire]. apply wp_bind, wp_call. intros now w1 _.
  destruct ((now <? deadline) && (calibration_counter a <? calibration_maxcount))
    eqn:Hcond; cbv iota.
  2: { apply wp_ret. unfold kept. cbn [app copied_x copied_y copied_z
         progress_values flat_map]. rewrite !app_nil_r.
       repeat split; constructor. }
  apply andb_prop in Hcond as [_ Hlt]. apply Z.ltb_lt in Hlt.
  apply wp_bind. eapply wp_mono.
  { apply wp_conj; [apply acquire_poll_spec; lia|apply acquire_poll_buffers; lia]. }
  intros a1 w2 e1 [(_ & _ & _ & HE1 & HC1 & H1) Hbuf].
  pose proof (failed_polls_nonneg e1). pose proof (samples_received_nonneg e1).
  unfold calibration_maxcount in *.
  assert (Hstep :
            List.length (acq_x a1) = 240%nat /\ List.length (acq_y a1) = 240%nat /\
            List.length (acq_z a1) = 240%nat /\
            firstn (Z.to_nat (calibration_counter a1)) (acq_x a1)
              = firstn (Z.to_nat (calibration_counter a)) (acq_x a) ++ copied_x e1 /\
            firstn (Z.to_nat (calibration_counter a1)) (acq_y a1)
              = firstn (Z.to_nat (calibration_counter a)) (acq_y a) ++ copied_y e1 /\
            firstn (Z.to_nat (calibration_counter a1)) (acq_z a1)
              = firstn (Z.to_nat (calibration_counter a)) (acq_z a) ++ copied_z e1 /\
            (progress_values e1 = [] \/
             progress_values e1 = [pct (calibration_counter a + 1)]) /\
            calibration_counter a <= calibration_counter a1 <= 240).
  { destruct Hbuf as [(mx & my & mz & Hn & -> & -> & -> & -> & -> & -> & Hp)
                     |(Hn & -> & -> & -> & -> & -> & -> & Hp)].
    - rewrite !store_length, Hn, Z2Nat.inj_add, Nat.add_1_r by lia.
      rewrite !firstn_store_succ by lia. repeat split; auto; lia.
    - rewrite Hn, !app_nil_r. repeat split; auto; lia. }
  destruct Hstep as (Hx1 & Hy1 & Hz1 & Fx & Fy & Fz & Hp1 & Hc1).
  assert (Hsorted1 : forall rest,
            StronglySorted Z.le rest ->
            Forall (fun p => pct (calibration_counter a1 + 1) <= p <= 70) rest ->
            StronglySorted Z.le (progress_values e1 ++ rest) /\
            Forall (fun p => pct (calibration_counter a + 1) <= p <= 70)
              (progress_values e1 ++ rest)).
  { intros rest Hs Hf.
    assert (Hf' : Forall (fun p => pct (calibration_counter a + 1) <= p <= 70) rest).
    { eapply Forall_impl; [|exact Hf]. intros p Hp. cbv beta in Hp.
      pose proof (pct_mono (calibration_counter a + 1) (calibration_counter a1 + 1)).
      lia. }
    destruct Hp1 as [-> | ->]; cbn [app]; [now split|].
    pose proof (pct_range (calibration_counter a + 1)).
    split.
    - constructor; [exact Hs|]. eapply Forall_impl; [|exact Hf'].
      intros p Hp. cbv beta in Hp. lia.
    - constructor; [lia|exact Hf']. }
  destruct (1000 <? poll_errcount a1) eqn:Hover.
  - apply wp_bind, wp_exec, wp_ret.
    unfold kept. cbn [calibration_counter acq_x acq_y acq_z].
    change ([EvTime now] ++ e1 ++ [EvLog critical CAL_FAILED_SENSOR_MSG] ++ [])
      with (EvTime now :: e1 ++ [EvLog critical CAL_FAILED_SENSOR_MSG]).
    change (copied_x (EvTime now :: e1 ++ [EvLog critical CAL_FAILED_SENSOR_MSG]))
      with (copied_x (e1 ++ [EvLog critical CAL_FAILED_SENSOR_MSG])).
    change (copied_y (EvTime now :: e1 ++ [EvLog critical CAL_FAILED_SENSOR_MSG]))
      with (copied_y (e1 ++ [EvLog critical CAL_FAILED_SENSOR_MSG])).
    change (copied_z (EvTime now :: e1 ++ [EvLog critical CAL_FAILED_SENSOR_MSG]))
      with (copied_z (e1 ++ [EvLog critical CAL_FAILED_SENSOR_MSG])).
    change (progress_values (EvTime now :: e1 ++ [EvLog critical CAL_FAILED_SENSOR_MSG]))
      with (progress_values (e1 ++ [EvLog critical CAL_FAILED_SENSOR_MSG])).
    rewrite copied_x_app, copied_y_app, copied_z_app, progress_values_app.
    cbn [copied_x copied_y copied_z progress_values flat_map app].
    rewrite !app_nil_r in *.
    destruct (Hsorted1 []) as [S1 S2]; [constructor|constructor|].
    rewrite !app_nil_r in *.
    repeat split; try congruence; assumption.
  - apply Z.ltb_ge in Hover.
    eapply wp_mono; [apply IH; unfold calibration_maxcount; try lia; assumption|].
    intros a' _ e2 (Lx & Ly & Lz & Gx & Gy & Gz & S2 & F2).
    unfold kept.
    change ([EvTime now] ++ e1 ++ e2) with (EvTime now :: e1 ++ e2).
    change (copied_x (EvTime now :: e1 ++ e2)) with (copied_x (e1 ++ e2)).
    change (copied_y (EvTime now :: e1 ++ e2)) with (copied_y (e1 ++ e2)).
    change (copied_z (EvTime now :: e1 ++ e2)) with (copied_z (e1 ++ e2)).
    change (progress_values (EvTime now :: e1 ++ e2))
      with (progress_values (e1 ++ e2)).
    rewrite copied_x_app, copied_y_app, copied_z_app, progress_values_app.
    rewrite Gx, Gy, Gz, Fx, Fy, Fz, <- !app_assoc.
    destruct (Hsorted1 _ S2 F2) as [S1 F1].
    repeat split; try congruence; assumption.
Qed.
End AcquireBuffers.

(** ** The pace of the acquisition loop *)

Lemma clock_readings_app l1 l2 :
  clock_readings (l1 ++ l2) = clock_readings l1 ++ clock_readings l2.
Proof. apply flat_map_app. Qed.

Lemma sample_events_quiet sub tl :
  Forall (sample_event sub) tl ->
  poll_results tl = [] /\ clock_readings tl = [] /\
  Forall (reads_from sub) tl /\
  forall l, poll_times (tl ++ l) = poll_times l.
Proof.
  induction 1 as [|e t He _ (IH1 & IH2 & IH3 & IH4)];
    [repeat split; constructor|].
  destruct e; simpl in He; try contradiction.
  - repeat split; try assumption. constructor; [exact I|exact IH3].
  - repeat split; try assumption. constructor; [exact He|exact IH3].
Qed.

Lemma poll_times_app l1 l2 :
  not_a_poll l2 -> poll_times (l1 ++ l2) = poll_times l1 ++ poll_times l2.
Proof.
  intros H2. induction l1 as [|e t IH]; [reflexivity|].
  destruct e; try exact IH.
  cbn [app poll_times]. destruct t as [|e' t'].
  - cbn [app poll_times]. destruct l2 as [|e2 t2]; [reflexivity|].
    destruct e2; try reflexivity. destruct H2.
  - cbn [app] in *. destruct e'; try exact IH.
    cbn [app]. now rewrite IH.
Qed.

Lemma last_app_nonempty (l1 l2 : list Z) d :
  l2 <> [] -> last (l1 ++ l2) d = last l2 d.
Proof.
  intros H. induction l1 as [|h t IH]; [reflexivity|].
  cbn [app]. destruct (t ++ l2) eqn:E.
  - apply app_eq_nil in E as [_ ->]. contradiction.
  - change (last (h :: z :: l) d) with (last (z :: l) d). exact IH.
Qed.

Section AcquirePace.
Context {W : Type} {P : Platform W}.

(** A pass of the loop is a poll of [sub_mag], then what the sample
    brings. *)
Lemma acquire_poll_shape sub_mag (a : acq) (w : W) :
  wp (acquire_poll sub_mag a) w (fun _ _ evs =>
    exists r tl,
      evs = EvPoll sub_mag 1000 r :: tl /\ Forall (sample_event sub_mag) tl).
Proof.
  unfold acquire_poll.
  apply wp_bind, wp_call. intros r w2 _.
  destruct (0 <? r); cbv iota.
  - apply wp_bind, wp_call. intros [[mx my] mz] w3 _.
    apply wp_bind.
    destruct (_ =? 0); cbv iota.
    + apply wp_exec, wp_ret. exists r. eexists. split; [reflexivity|].
      cbn [fst snd]. repeat constructor.
    + apply wp_ret, wp_ret. exists r. eexists. split; [reflexivity|].
      cbn [fst snd]. repeat constructor.
  - apply wp_ret. exists r, []. split; [reflexivity|constructor].
Qed.

Lemma acquire_paced (fuel : nat) :
  forall sub_mag deadline (a : acq) (w : W),
    0 <= calibration_counter a <= calibration_maxcount ->
    0 <= poll_errcount a <= 1000 ->
    (Z.to_nat (calibration_maxcount - calibration_counter a)
     + Z.to_nat (1001 - poll_errcount a) < fuel)%nat ->
    wp (acquire fuel sub_mag deadline a) w
       (fun a' _ evs => paced sub_mag deadline a' evs).
Proof.
  induction fuel as [|fuel IH]; intros sub_mag deadline a w Hc He Hfuel; [lia|].
  cbn [acquire]. apply wp_bind, wp_call. intros now w1 _.
  destruct ((now <? deadline) && (calibration_counter a <? calibration_maxcount))
    eqn:Hcond; cbv iota.
  2: { apply wp_ret. unfold paced. cbn [app poll_times poll_results flat_map
         clock_readings last List.length].
       split; [reflexivity|]. split; [constructor|].
       split; [repeat constructor|]. split; [discriminate|].
       intros _ Hlt. apply andb_false_iff in Hcond as [H|H].
       - now apply Z.ltb_ge in H.
       - apply Z.ltb_ge in H. lia. }
  apply andb_prop in Hcond as [Hnow Hlt].
  apply Z.ltb_lt in Hnow, Hlt.
  apply wp_bind. eapply wp_mono.
  { apply wp_conj; [apply acquire_poll_spec; lia|apply acquire_poll_shape]. }
  intros a1 w2 e1 [(_ & _ & _ & HE1 & HC1 & H1) (r & tl & -> & Htl)].
  destruct (sample_events_quiet _ _ Htl) as (Q1 & Q2 & Q3 & Q4).
  pose proof (failed_polls_nonneg (EvPoll sub_mag 1000 r :: tl)).
  pose proof (samples_received_nonneg (EvPoll sub_mag 1000 r :: tl)).
  unfold calibration_maxcount in *.
  destruct (1000 <? poll_errcount a1) eqn:Hover.
  - apply Z.ltb_lt in Hover.
    apply wp_bind, wp_exec, wp_ret.
    unfold paced. cbn [poll_errcount calibration_counter].
    change ([EvTime now] ++ (EvPoll sub_mag 1000 r :: tl)
              ++ [EvLog critical CAL_FAILED_SENSOR_MSG] ++ [])
      with (EvTime now :: EvPoll sub_mag 1000 r
              :: tl ++ [EvLog critical CAL_FAILED_SENSOR_MSG]).
    cbn [poll_times]. rewrite Q4. cbn [poll_times].
    unfold poll_results, clock_readings. cbn [flat_map app].
    rewrite !flat_map_app. fold (poll_results tl). fold (clock_readings tl).
    rewrite Q1, Q2. cbn [flat_map app List.length].
    split; [reflexivity|]. split; [repeat constructor; exact Hnow|].
    split.
    { constructor; [exact I|]. constructor; [now split|].
      apply Forall_app. split; [exact Q3|repeat constructor]. }
    split; [discriminate|]. intros Hle. lia.
  - apply Z.ltb_ge in Hover.
    eapply wp_mono; [apply IH; unfold calibration_maxcount; lia|].
    intros a' _ e2 (L2 & B2 & R2 & N2 & D2).
    unfold paced.
    change ([EvTime now] ++ (EvPoll sub_mag 1000 r :: tl) ++ e2)
      with (EvTime now :: EvPoll sub_mag 1000 r :: tl ++ e2).
    cbn [poll_times]. rewrite Q4.
    unfold poll_results, clock_readings. cbn [flat_map app].
    rewrite !flat_map_app. fold (poll_results tl). fold (clock_readings tl).
    fold (poll_results e2). fold (clock_readings e2).
    rewrite Q1, Q2. cbn [app List.length].
    split; [now rewrite L2|]. split; [constructor; [exact Hnow|exact B2]|].
    split.
    { constructor; [exact I|]. constructor; [now split|].
      apply Forall_app. now split. }
    split; [discriminate|].
    intros H3 H4.
    change (now :: clock_readings e2) with ([now] ++ clock_readings e2).
    rewrite (last_app_nonempty [now] (clock_readings e2) 0 N2).
    now apply D2.
Qed.
End AcquirePace.

(** ** Descriptors *)

Lemma held_app l1 l2 : forall c, held c (l1 ++ l2) = held (held c l1) l2.
Proof. induction l1 as [|e t IH]; intros c; simpl; auto. Qed.

Lemma peak_app l1 l2 :
  forall c, peak c (l1 ++ l2) = Z.max (peak c l1) (peak (held c l1) l2).
Proof.
  induction l1 as [|e t IH]; intros c; simpl.
  - destruct l2; simpl; lia.
  - rewrite IH. lia.
Qed.

Lemma peak_ge l : forall c, c <= peak c l.
Proof. induction l as [|e t IH]; intros c; simpl; lia. Qed.

Lemma handle_free_held l :
  Forall handle_free l -> forall c, held c l = c /\ peak c l = c.
Proof.
  induction 1 as [|e t He _ IH]; intros c; [now split|].
  assert (Hs : handle_step c e = c) by (destruct e; simpl in *; tauto).
  simpl. rewrite Hs. destruct (IH c) as [-> ->]. split; lia.
Qed.

Lemma acquire_event_handle_free e : acquire_event e -> handle_free e.
Proof. destruct e; simpl; tauto. Qed.

Lemma is_param_set_handle_free e : is_param_set e -> handle_free e.
Proof. destruct e; simpl; tauto. Qed.

Lemma progress_values_all (Q : Z -> Prop) evs :
  Forall (fun e => match e with
                   | EvLog _ (CAL_PROGRESS_MSG _ p) => Q p
                   | _ => True
                   end) evs ->
  Forall Q (progress_values evs).
Proof.
  induction 1 as [|e t He _ IH]; [constructor|].
  destruct e as [sev m| | | | | | | | | | | | | | | | | |]; simpl; try exact IH.
  destruct m; simpl; try exact IH. constructor; assumption.
Qed.

Section ApplyRun.
Context {W : Type} {P : Platform W}.

Lemma emits_set_parameters_sets s device_id m :
  emits is_param_set (set_parameters s device_id m).
Proof. unfold set_parameters. emits_auto; exact I. Qed.

(** The apply step gives back the descriptor it opened, and holds no
    other. *)
Lemma apply_calibration_handles s device_id cx cy cz (w : W) :
  wp (apply_calibration s device_id cx cy cz) w
     (fun _ _ evs => forall c, held c evs = c /\ peak c evs <= c + 1).
Proof.
  unfold apply_calibration.
  repeat wp_step.
  1: { eapply wp_mono; [apply emits_set_parameters_sets|].
       intros failed w1 pe Hsets.
       assert (Hfree : Forall handle_free pe).
       { eapply Forall_impl; [apply is_param_set_handle_free|exact Hsets]. }
       destruct failed; repeat wp_step.
       all: intros c; cbn [app held peak handle_step].
       all: rewrite <- ?app_assoc, !held_app, !peak_app.
       all: destruct (handle_free_held _ Hfree
                        (if a <? 0 then (if a <? 0 then c else c + 1)
                         else (if a <? 0 then c else c + 1) - 1)) as [-> ->].
       all: cbn [app held peak handle_step].
       all: destruct (a <? 0); split; lia. }
  all: intros c; cbn [app held peak handle_step].
  all: destruct (a <? 0); split; lia.
Qed.

Lemma apply_calibration_progress s device_id cx cy cz (w : W) :
  wp (apply_calibration s device_id cx cy cz) w
     (fun _ _ evs => Forall (fun p => p = 90) (progress_values evs)).
Proof.
  eapply wp_mono; [|intros a w' evs H; apply progress_values_all; exact H].
  revert w. change (emits (fun e => match e with
                                    | EvLog _ (CAL_PROGRESS_MSG _ p) => p = 90
                                    | _ => True
                                    end)
                      (apply_calibration s device_id cx cy cz)).
  unfold apply_calibration. emits_auto; try exact I; try reflexivity.
  all: eapply emits_weaken; [|apply emits_set_parameters_sets].
  all: intros e; destruct e; simpl; tauto.
Qed.

Lemma apply_calibration_no_sensor_failure s device_id cx cy cz (w : W) :
  wp (apply_calibration s device_id cx cy cz) w
     (fun _ _ evs => ~ In (EvLog critical CAL_FAILED_SENSOR_MSG) evs).
Proof.
  assert (H : emits (fun e => e <> EvLog critical CAL_FAILED_SENSOR_MSG)
                (apply_calibration s device_id cx cy cz)).
  { unfold apply_calibration. emits_auto; try discriminate.
    all: eapply emits_weaken; [|apply emits_set_parameters_sets].
    all: intros e; destruct e; simpl; try tauto; discriminate. }
  eapply wp_mono; [apply H|].
  intros a w' evs HF Hin. rewrite Forall_forall in HF.
  exact (HF _ Hin eq_refl).
Qed.

(** The apply step reads the scale of the device once. *)
Lemma apply_calibration_reads_once s device_id cx cy cz (w : W) :
  wp (apply_calibration s device_id cx cy cz) w
     (fun _ _ evs => List.length (scale_reads evs) = 1%nat).
Proof.
  unfold apply_calibration.
  repeat wp_step.
  1: { eapply wp_mono; [apply emits_set_parameters_sets|].
       intros failed w1 pe Hsets.
       assert (Hnone : scale_reads pe = []).
       { clear - Hsets. induction Hsets as [|e t He _ IH]; [reflexivity|].
         destruct e; simpl in *; try contradiction. exact IH. }
       destruct failed; repeat wp_step.
       all: cbn [app]; rewrite <- ?app_assoc.
       all: unfold scale_reads in *; cbn [flat_map app].
       all: rewrite !flat_map_app, Hnone; reflexivity. }
  all: reflexivity.
Qed.

Lemma apply_calibration_run s device_id cx cy cz (w : W) :
  wp (apply_calibration s device_id cx cy cz) w
     (fun res _ evs => apply_run (device_path s) s device_id cx cy cz res evs).
Proof.
  eapply wp_mono.
  { apply wp_conj; [apply apply_calibration_spec|].
    apply wp_conj; [apply emits_apply_events|].
    apply wp_conj; [apply apply_calibration_handles|].
    apply wp_conj; [apply apply_calibration_progress|].
    apply wp_conj; [apply apply_calibration_no_sensor_failure|].
    apply apply_calibration_reads_once. }
  cbv beta. intros res w' evs (H1 & H2 & H3 & H4 & H5 & H6).
  unfold apply_run. repeat (split; [assumption|]). exact H6.
Qed.

(** A run of [calibrate_instance_run] always ends, in one of the three ways
    of [anatomy]. *)
Lemma calibrate_instance_run_anatomy s device_id (w : W) :
  exists res w' evs,
    calibrate_instance_run s device_id w = Some (res, w', evs) /\
    anatomy (device_path s) s device_id res evs.
Proof.
  rewrite calibrate_instance_run_unfold.
  destruct (plat_new calibration_maxcount w) as [x w1].
  destruct (plat_new calibration_maxcount w1) as [y w2].
  destruct (plat_new calibration_maxcount w2) as [z w3]. cbv zeta.
  destruct (negb x || negb y || negb z) eqn:Hmem.
  { do 3 eexists. split; [reflexivity|]. left. exists x, y, z.
    split; [now destruct x, y, z|]. now split. }
  assert (Hxyz : x = true /\ y = true /\ z = true) by now destruct x, y, z.
  destruct Hxyz as (-> & -> & ->).
  rewrite acquisition_unfold.
  destruct (plat_orb_subscribe_multi s _) as [sub w5].
  destruct (sub <? 0) eqn:Hsub.
  { rewrite sphere_fit_unfold. cbn [acq_res]. change (ERROR =? OK) with false.
    cbv iota beta. cbn [andb]. cbv iota.
    destruct (plat_uninitialized _) as [[[ux uy] uz] ur].
    do 3 eexists. split; [reflexivity|]. right. left. exists sub.
    apply Z.ltb_lt in Hsub. split; [exact Hsub|]. split; [reflexivity|].
    unfold allocations. cbn [app]. reflexivity. }
  apply Z.ltb_ge in Hsub.
  destruct (plat_hrt_absolute_time _) as [t0 w6].
  destruct (proj1 (wp_run _ _ _)
              (wp_conj _ _ _ _
                 (acquire_from_start sub (uint64 (t0 + calibration_interval)) OK
                    fresh_buffer fresh_buffer fresh_buffer
                    (plat_log info msg_turn_on_all_sides w6))
                 (wp_conj _ _ _ _
                    (acquire_keeps acquire_fuel sub
                       (uint64 (t0 + calibration_interval))
                       start_acq (plat_log info msg_turn_on_all_sides w6)
                       ltac:(simpl; unfold calibration_maxcount; lia)
                       ltac:(simpl; lia)
                       ltac:(simpl; unfold calibration_maxcount, acquire_fuel; lia)
                       eq_refl eq_refl eq_refl)
                    (acquire_paced acquire_fuel sub
                       (uint64 (t0 + calibration_interval))
                       start_acq (plat_log info msg_turn_on_all_sides w6)
                       ltac:(simpl; unfold calibration_maxcount; lia)
                       ltac:(simpl; lia)
                       ltac:(simpl; unfold calibration_maxcount, acquire_fuel; lia)))))
    as (a & w7 & loop & Hrun & Hacq & Hkept & Hpaced).
  unfold start_acq in Hrun |- *. rewrite Hrun. fold start_acq in Hacq |- *.
  rewrite sphere_fit_unfold.
  set (shape := fun rest : list event =>
         allocations true true true
           ++ EvSubscribe s sub :: EvSetInterval sub 104 :: EvTime t0
           :: EvLog info msg_turn_on_all_sides :: loop ++ EvClose sub :: rest).
  assert (Hshape : forall (res : Z) (w' : W) rest,
            after_acquisition (device_path s) s device_id a res rest ->
            exists (res0 : Z) (w0 : W) evs,
              Some (res, w', shape rest) = Some (res0, w0, evs) /\
              anatomy (device_path s) s device_id res0 evs).
  { intros res w' rest Hafter. exists res, w', (shape rest).
    split; [reflexivity|]. right. right. exists sub, t0, a, loop, rest.
    split; [exact Hsub|]. split; [reflexivity|]. auto. }
  assert (Hres : acq_res a = ERROR \/ acq_res a = OK).
  { destruct Hacq as (_ & _ & _ & _ & [(H & _)|(H & _)]); [now left|now right]. }
  destruct Hres as [Hres|Hres]; rewrite Hres.
  { change (ERROR =? OK) with false. cbn [andb]. cbv iota.
    destruct (plat_uninitialized _) as [[[ux uy] uz] ur].
    replace (_ ++ _ ++ []) with (shape [])
      by (unfold shape, allocations; cbn [app]; rewrite <- ?app_assoc, ?app_nil_r;
          reflexivity).
    apply Hshape. left. now repeat split. }
  change (OK =? OK) with true. cbn [andb].
  destruct (120 <? calibration_counter a) eqn:Hmany; cbv iota.
  - apply Z.ltb_lt in Hmany. cbv zeta.
    destruct (plat_sphere_fit _ _ _ _ _ _ _) as [[[cx cy] cz] rad]. cbn [fst snd].
    destruct (finite_centre cx cy cz) eqn:Hfin.
    + change (OK =? OK) with true. cbv iota.
      destruct (proj1 (wp_run _ _ _)
                  (apply_calibration_run s device_id cx cy cz
                     (plat_log info (CAL_PROGRESS_MSG sensor_name 80)
                        (plat_log info (CAL_PROGRESS_MSG sensor_name 70)
                           (plat_close sub w7)))))
        as (r & w8 & e3 & -> & Happ).
      match goal with
      | |- exists _ _ _, Some (_, _, ?l) = _ /\ _ =>
          replace l with
            (shape (fit_events
                      (firstn (Z.to_nat (calibration_counter a)) (acq_x a))
                      (firstn (Z.to_nat (calibration_counter a)) (acq_y a))
                      (firstn (Z.to_nat (calibration_counter a)) (acq_z a))
                      (calibration_counter a) cx cy cz rad ++ e3))
      end.
      2: { unfold shape, allocations, fit_events. rewrite Hfin.
           cbn [app]. rewrite <- ?app_assoc. reflexivity. }
      apply Hshape. right. right. split; [exact Hres|]. split; [exact Hmany|].
      exists cx, cy, cz, rad, e3. split; [reflexivity|]. now rewrite Hfin.
    + change (ERROR =? OK) with false. cbv iota.
      match goal with
      | |- exists _ _ _, Some (_, _, ?l) = _ /\ _ =>
          replace l with
            (shape (fit_events
                      (firstn (Z.to_nat (calibration_counter a)) (acq_x a))
                      (firstn (Z.to_nat (calibration_counter a)) (acq_y a))
                      (firstn (Z.to_nat (calibration_counter a)) (acq_z a))
                      (calibration_counter a) cx cy cz rad ++ []))
      end.
      2: { unfold shape, allocations, fit_events. rewrite Hfin.
           cbn [app]. rewrite <- ?app_assoc, ?app_nil_r. reflexivity. }
      apply Hshape. right. right. split; [exact Hres|]. split; [exact Hmany|].
      exists cx, cy, cz, rad, []. split; [reflexivity|]. now rewrite Hfin.
  - apply Z.ltb_ge in Hmany.
    destruct (plat_uninitialized (plat_close sub w7)) as [[[cx cy] cz] rad].
    destruct (proj1 (wp_run _ _ _)
                (apply_calibration_run s device_id cx cy cz (plat_close sub w7)))
      as (r & w8 & e3 & -> & Happ).
    change (OK =? OK) with true. cbv iota.
    match goal with
    | |- exists _ _ _, Some (_, _, ?l) = _ /\ _ => replace l with (shape e3)
    end.
    2: { unfold shape, allocations. cbn [app]. rewrite <- ?app_assoc. reflexivity. }
    apply Hshape. right. left. split; [exact Hres|]. split; [exact Hmany|].
    now exists cx, cy, cz.
Qed.
End ApplyRun.

(** * Further properties of the routine: the ways out *)

Section WaysOut.
Context {W : Type} {P : Platform W}.

Lemma calibrate_instance_of_run s device_id (w w' : W) res body :
  calibrate_instance_run s device_id w = Some (res, w', body) ->
  calibrate_instance s device_id w
  = Some (res, w', EvEnter s device_id :: body ++ [EvLeave s res]).
Proof.
  intros Hrun. unfold calibrate_instance. run_unfold. rewrite Hrun. reflexivity.
Qed.

(** [calibrate_instance] always returns, and the calls between its entry
    and its return are one of the three runs of [anatomy]. *)
Lemma calibrate_instance_anatomy s device_id (w : W) :
  exists res w' body,
    calibrate_instance s device_id w
      = Some (res, w', EvEnter s device_id :: body ++ [EvLeave s res]) /\
    anatomy (device_path s) s device_id res body.
Proof.
  destruct (calibrate_instance_run_anatomy s device_id w)
    as (res & w' & body & Hrun & Hshape).
  exists res, w', body. split; [|exact Hshape].
  now apply calibrate_instance_of_run.
Qed.

(** X4.  A magnetometer whose device cannot be opened is passed over in
    silence: the pass is the [open] alone, with no message, no [close] and
    no calibration, and the status and the count of the earlier passes are
    left as they were (lines 96-101). *)
Theorem absent_device_is_skipped s st (w w1 : W) fd :
  plat_open (device_path s) O_RDONLY w = (fd, w1) ->
  fd < 0 ->
  calibrate_mag s st w = Some (st, w1, [EvOpen (device_path s) O_RDONLY fd]).
Proof.
  unfold device_path. intros Hopen Hfd.
  rewrite calibrate_mag_run, Hopen.
  apply Z.ltb_lt in Hfd. now rewrite Hfd.
Qed.

(** X5.  When none of the three devices can be opened, the run is the start
    message, the pause, the three [open]s and the failure message: nothing
    is calibrated, nothing is saved, and the status returned is the ERROR
    the routine starts from (lines 87-101 and 139-155). *)
Theorem no_magnetometer_reports_failure (w w1 w2 w3 : W) fd0 fd1 fd2 :
  plat_open (device_path 0) O_RDONLY
    (plat_sleep 1000000 (plat_log info (CAL_STARTED_MSG sensor_name) w))
    = (fd0, w1) ->
  plat_open (device_path 1) O_RDONLY w1 = (fd1, w2) ->
  plat_open (device_path 2) O_RDONLY w2 = (fd2, w3) ->
  fd0 < 0 -> fd1 < 0 -> fd2 < 0 ->
  do_mag_calibration w
  = Some (ERROR, plat_log critical (CAL_FAILED_MSG sensor_name) w3,
          [EvLog info (CAL_STARTED_MSG sensor_name); EvSleep 1000000;
           EvOpen (device_path 0) O_RDONLY fd0;
           EvOpen (device_path 1) O_RDONLY fd1;
           EvOpen (device_path 2) O_RDONLY fd2;
           EvLog critical (CAL_FAILED_MSG sensor_name)]).
Proof.
  unfold device_path. intros H0 H1 H2 F0 F1 F2.
  apply Z.ltb_lt in F0, F1, F2.
  rewrite do_mag_calibration_run.
  unfold calibrate_all_mags, max_mags. rewrite for_loop_3.
  erewrite bind_some; [|rewrite calibrate_mag_run, H0, F0; reflexivity|].
  2: { erewrite bind_some; [reflexivity|rewrite calibrate_mag_run, H1, F1; reflexivity|].
       erewrite bind_some; [reflexivity|rewrite calibrate_mag_run, H2, F2; reflexivity|].
       reflexivity. }
  reflexivity.
Qed.

(** X6.  When one of the three allocations gives a null pointer, the
    calibration of the instance ends there with ERROR: all three
    allocations have been attempted and the 20 % progress has been
    announced, the out-of-memory message follows, and there is no
    subscription, no poll, no fit and no access to the device or to the
    parameters (lines 167-195). *)
Theorem out_of_memory_ends_the_instance s device_id (w w1 w2 w3 : W) x y z :
  plat_new calibration_maxcount w = (x, w1) ->
  plat_new calibration_maxcount w1 = (y, w2) ->
  plat_new calibration_maxcount w2 = (z, w3) ->
  x && y && z = false ->
  calibrate_instance s device_id w
  = Some (ERROR,
          plat_log critical msg_out_of_memory
            (plat_log info (CAL_PROGRESS_MSG sensor_name 20) w3),
          [EvEnter s device_id;
           EvNew calibration_maxcount x; EvNew calibration_maxcount y;
           EvNew calibration_maxcount z;
           EvLog info (CAL_PROGRESS_MSG sensor_name 20);
           EvLog critical msg_out_of_memory;
           EvLeave s ERROR]).
Proof.
  intros Hx Hy Hz Hnull.
  rewrite (calibrate_instance_of_run s device_id w
             (plat_log critical msg_out_of_memory
                (plat_log info (CAL_PROGRESS_MSG sensor_name 20) w3))
             ERROR (allocations x y z ++ [EvLog critical msg_out_of_memory]));
    [reflexivity|].
  rewrite calibrate_instance_run_unfold, Hx, Hy, Hz. cbv zeta.
  replace (negb x || negb y || negb z) with true by now destruct x, y, z.
  reflexivity.
Qed.

(** X7.  When the topic of the instance cannot be subscribed to, the
    calibration of the instance ends with ERROR after the message: the
    update interval is not set, nothing is polled, no descriptor is
    closed, the fit is not invoked and the device is not opened (lines
    197-203, 260 and 285). *)
Theorem refused_subscription_ends_the_instance s device_id
    (w w1 w2 w3 w4 : W) sub :
  plat_new calibration_maxcount w = (true, w1) ->
  plat_new calibration_maxcount w1 = (true, w2) ->
  plat_new calibration_maxcount w2 = (true, w3) ->
  plat_orb_subscribe_multi s
    (plat_log info (CAL_PROGRESS_MSG sensor_name 20) w3) = (sub, w4) ->
  sub < 0 ->
  calibrate_instance s device_id w
  = Some (ERROR, plat_log critical msg_no_mag_found w4,
          [EvEnter s device_id;
           EvNew calibration_maxcount true; EvNew calibration_maxcount true;
           EvNew calibration_maxcount true;
           EvLog info (CAL_PROGRESS_MSG sensor_name 20);
           EvSubscribe s sub;
           EvLog critical msg_no_mag_found;
           EvLeave s ERROR]).
Proof.
  intros Hx Hy Hz Hsub Hneg.
  rewrite (calibrate_instance_of_run s device_id w
             (plat_log critical msg_no_mag_found w4) ERROR
             (allocations true true true
                ++ [EvSubscribe s sub; EvLog critical msg_no_mag_found]));
    [reflexivity|].
  rewrite calibrate_instance_run_unfold, Hx, Hy, Hz. cbv zeta. cbn [negb orb].
  rewrite acquisition_unfold, Hsub.
  apply Z.ltb_lt in Hneg. rewrite Hneg.
  rewrite sphere_fit_unfold. cbn [acq_res]. change (ERROR =? OK) with false.
  cbn [andb]. cbv iota.
  destruct (plat_uninitialized _) as [[[ux uy] uz] ur]. reflexivity.
Qed.
End WaysOut.

(** On a platform with one magnetometer, the pass for index 1 is the
    failed [open] alone. *)
Lemma absent_device_is_skipped_witness :
  calibrate_mag 1 (mk_cal ERROR 0) Sim.one_mag
  = Some (mk_cal ERROR 0, Sim.one_mag, [EvOpen "/dev/mag1" O_RDONLY (-1)]).
Proof.
  apply (absent_device_is_skipped (P := Sim.platform) 1 (mk_cal ERROR 0)
           Sim.one_mag Sim.one_mag (-1)).
  - reflexivity.
  - reflexivity.
Defined.

(** On a platform with no magnetometer the run fails after three [open]s. *)
Lemma no_magnetometer_reports_failure_witness :
  do_mag_calibration SimFaults.no_device
  = Some (ERROR, Sim.with_clock 1000000 SimFaults.no_device,
          [EvLog info (CAL_STARTED_MSG sensor_name); EvSleep 1000000;
           EvOpen "/dev/mag0" O_RDONLY (-1);
           EvOpen "/dev/mag1" O_RDONLY (-1);
           EvOpen "/dev/mag2" O_RDONLY (-1);
           EvLog critical (CAL_FAILED_MSG sensor_name)]).
Proof.
  apply (no_magnetometer_reports_failure (P := Sim.platform)
           SimFaults.no_device
           (Sim.with_clock 1000000 SimFaults.no_device)
           (Sim.with_clock 1000000 SimFaults.no_device)
           (Sim.with_clock 1000000 SimFaults.no_device)
           (-1) (-1) (-1)).
  - reflexivity.
  - reflexivity.
  - reflexivity.
  - reflexivity.
  - reflexivity.
  - reflexivity.
Defined.

(** On a platform without memory the instance ends before it subscribes. *)
Lemma out_of_memory_ends_the_instance_witness :
  calibrate_instance (P := SimFaults.starved) 0 131594 Sim.one_mag
  = Some (ERROR, Sim.one_mag,
          [EvEnter 0 131594;
           EvNew 240 false; EvNew 240 false; EvNew 240 false;
           EvLog info (CAL_PROGRESS_MSG sensor_name 20);
           EvLog critical msg_out_of_memory;
           EvLeave 0 ERROR]).
Proof.
  apply (out_of_memory_ends_the_instance (P := SimFaults.starved) 0 131594
           Sim.one_mag Sim.one_mag Sim.one_mag Sim.one_mag false false false).
  - reflexivity.
  - reflexivity.
  - reflexivity.
  - reflexivity.
Defined.

(** On a platform that refuses every subscription the instance ends before
    it polls. *)
Lemma refused_subscription_ends_the_instance_witness :
  calibrate_instance (P := SimFaults.deaf) 0 131594 Sim.one_mag
  = Some (ERROR, Sim.one_mag,
          [EvEnter 0 131594;
           EvNew 240 true; EvNew 240 true; EvNew 240 true;
           EvLog info (CAL_PROGRESS_MSG sensor_name 20);
           EvSubscribe 0 (-1);
           EvLog critical msg_no_mag_found;
           EvLeave 0 ERROR]).
Proof.
  apply (refused_subscription_ends_the_instance (P := SimFaults.deaf) 0 131594
           Sim.one_mag Sim.one_mag Sim.one_mag Sim.one_mag Sim.one_mag (-1)).
  - reflexivity.
  - reflexivity.
  - reflexivity.
  - reflexivity.
  - reflexivity.
Defined.

(** ** What the parts of a run show *)

Lemma sorted_app (l1 l2 : list Z) (b : Z) :
  StronglySorted Z.le l1 -> StronglySorted Z.le l2 ->
  Forall (fun p => p <= b) l1 -> Forall (fun p => b <= p) l2 ->
  StronglySorted Z.le (l1 ++ l2).
Proof.
  intros S1 S2 B1 B2. induction S1 as [|h t St IH Hh]; [exact S2|].
  inversion B1 as [|? ? Hb Bt]; subst. cbn [app]. constructor; [now apply IH|].
  apply Forall_app. split; [exact Hh|].
  eapply Forall_impl; [|exact B2]. intros p Hp. cbv beta in Hp. lia.
Qed.

Lemma all_equal_sorted (v : Z) (l : list Z) :
  Forall (fun p => p = v) l -> StronglySorted Z.le l.
Proof.
  induction 1 as [|h t Hh Ht IH]; constructor; [exact IH|].
  eapply Forall_impl; [|exact Ht]. intros p Hp. cbv beta in Hp. lia.
Qed.

Lemma poll_results_count evs :
  Z.of_nat (List.length (poll_results evs))
  = samples_received evs + failed_polls evs.
Proof.
  induction evs as [|e t IH]; [reflexivity|].
  destruct e as [| | | | | | | | | | | |fd tmo r| | | | | |]; try exact IH.
  change (poll_results (EvPoll fd tmo r :: t)) with (r :: poll_results t).
  cbn [List.length samples_received failed_polls].
  rewrite Nat2Z.inj_succ, IH. destruct (0 <? r); lia.
Qed.

Lemma poll_results_app l1 l2 :
  poll_results (l1 ++ l2) = poll_results l1 ++ poll_results l2.
Proof. apply flat_map_app. Qed.

Lemma acquire_events_quiet evs :
  Forall acquire_event evs ->
  param_writes evs = [] /\ param_status evs = [] /\ device_writes evs = []
  /\ fit_sizes evs = [] /\ (forall c, held c evs = c /\ peak c evs = c)
  /\ forall xs ys zs n it d out, ~ In (EvFit xs ys zs n it d out) evs.
Proof.
  intros H.
  destruct (sampling_no_writes 0 evs) as (H1 & H2 & H3 & H4).
  { eapply Forall_impl; [apply acquire_event_sampling|exact H]. }
  repeat (split; [assumption|]). split.
  - apply handle_free_held.
    eapply Forall_impl; [apply acquire_event_handle_free|exact H].
  - intros xs ys zs n it d out Hin. rewrite Forall_forall in H.
    exact (H _ Hin).
Qed.

Lemma apply_events_silent evs :
  Forall apply_event evs ->
  failed_polls evs = 0 /\ samples_received evs = 0 /\ poll_results evs = []
  /\ copied_x evs = [] /\ copied_y evs = [] /\ copied_z evs = []
  /\ fit_sizes evs = []
  /\ forall xs ys zs n it d out, ~ In (EvFit xs ys zs n it d out) evs.
Proof.
  intros H. repeat split.
  1-7: induction H as [|e t He _ IH]; [reflexivity|];
       destruct e; simpl in *; try contradiction; exact IH.
  intros xs ys zs n it d out Hin. rewrite Forall_forall in H. exact (H _ Hin).
Qed.

(** What the loop leaves, in terms of the calls it made. *)
Lemma loop_facts (a : acq) (loop : list event) :
  acquired start_acq a loop -> kept start_acq a loop ->
  calibration_counter a = samples_received loop /\
  0 <= samples_received loop <= 240 /\
  0 <= failed_polls loop <= 1001 /\
  (In (EvLog critical CAL_FAILED_SENSOR_MSG) loop <-> 1000 < failed_polls loop) /\
  (1000 < failed_polls loop -> acq_res a = ERROR) /\
  firstn (Z.to_nat (calibration_counter a)) (acq_x a) = copied_x loop /\
  firstn (Z.to_nat (calibration_counter a)) (acq_y a) = copied_y loop /\
  firstn (Z.to_nat (calibration_counter a)) (acq_z a) = copied_z loop /\
  List.length (copied_x loop) = Z.to_nat (samples_received loop) /\
  List.length (copied_y loop) = Z.to_nat (samples_received loop) /\
  List.length (copied_z loop) = Z.to_nat (samples_received loop) /\
  StronglySorted Z.le (progress_values loop) /\
  Forall (fun p => 20 <= p <= 70) (progress_values loop).
Proof.
  intros (_ & HE & HC & HB & HR) (Lx & Ly & Lz & Fx & Fy & Fz & HS & HP).
  unfold start_acq, calibration_maxcount in *.
  cbn [calibration_counter poll_errcount acq_res acq_x acq_y acq_z] in *.
  rewrite Z.add_0_l in HE, HC.
  change (Z.to_nat 0) with 0%nat in *. cbn [firstn app] in *.
  pose proof (samples_received_nonneg loop) as Hs.
  pose proof (failed_polls_nonneg loop) as Hf.
  assert (Hlen : List.length fresh_buffer = 240%nat) by reflexivity.
  rewrite Hlen in Lx, Ly, Lz.
  split; [exact HC|]. split; [lia|].
  split; [destruct HR as [(_ & H & _)|(_ & H & _)]; lia|].
  split; [destruct HR as [(_ & H & Hin)|(_ & H & Hin)]; split; intros; try lia; tauto|].
  split; [destruct HR as [(H & _)|(_ & H & _)]; intros; [exact H|lia]|].
  repeat (split; [assumption|]).
  split; [rewrite <- Fx, length_firstn, Lx, <- HC; lia|].
  split; [rewrite <- Fy, length_firstn, Ly, <- HC; lia|].
  split; [rewrite <- Fz, length_firstn, Lz, <- HC; lia|].
  split; [exact HS|].
  eapply Forall_impl; [|exact HP]. intros p Hp. cbv beta in Hp.
  change (pct (0 + 1)) with 20 in Hp. exact Hp.
Qed.

Lemma fit_events_silent xs ys zs n cx cy cz r :
  let f := fit_events xs ys zs n cx cy cz r in
  failed_polls f = 0 /\ samples_received f = 0 /\ poll_results f = []
  /\ copied_x f = [] /\ copied_y f = [] /\ copied_z f = []
  /\ progress_values f = [70; 80]
  /\ (forall c, held c f = c /\ peak c f = c)
  /\ ~ In (EvLog critical CAL_FAILED_SENSOR_MSG) f.
Proof.
  unfold fit_events. destruct (finite_centre cx cy cz); cbv zeta.
  all: repeat (split; [reflexivity|]).
  all: split; [intros c; simpl; split; lia|].
  all: simpl; intros H; repeat (destruct H as [H|H]; try discriminate); exact H.
Qed.

(** What the part after the acquisition shows. *)
Lemma after_acquisition_facts path s device_id (a : acq) res rest :
  after_acquisition path s device_id a res rest ->
  failed_polls rest = 0 /\ samples_received rest = 0 /\ poll_results rest = []
  /\ copied_x rest = [] /\ copied_y rest = [] /\ copied_z rest = []
  /\ (forall c, held c rest = c /\ peak c rest <= c + 1)
  /\ ~ In (EvLog critical CAL_FAILED_SENSOR_MSG) rest
  /\ StronglySorted Z.le (progress_values rest)
  /\ Forall (fun p => 70 <= p <= 90) (progress_values rest).
Proof.
  intros [(_ & _ & ->)|[(_ & _ & cx & cy & cz & Hrun)
                       |(_ & _ & cx & cy & cz & r & post & -> & Hpost)]].
  - repeat (split; [reflexivity|]).
    split; [intros c; simpl; split; lia|].
    split; [intros []|]. split; constructor.
  - destruct Hrun as (_ & Hev & Hh & Hp & Hn & _).
    destruct (apply_events_silent _ Hev) as (H1 & H2 & H3 & H4 & H5 & H6 & _).
    repeat (split; [assumption|]).
    split; [eapply all_equal_sorted; exact Hp|].
    eapply Forall_impl; [|exact Hp]. intros p ->. lia.
  - destruct (fit_events_silent
                (firstn (Z.to_nat (calibration_counter a)) (acq_x a))
                (firstn (Z.to_nat (calibration_counter a)) (acq_y a))
                (firstn (Z.to_nat (calibration_counter a)) (acq_z a))
                (calibration_counter a) cx cy cz r)
      as (F1 & F2 & F3 & F4 & F5 & F6 & F7 & F8 & F9).
    assert (Hpost' :
              failed_polls post = 0 /\ samples_received post = 0
              /\ poll_results post = []
              /\ copied_x post = [] /\ copied_y post = [] /\ copied_z post = []
              /\ (forall c, held c post = c /\ peak c post <= c + 1)
              /\ ~ In (EvLog critical CAL_FAILED_SENSOR_MSG) post
              /\ Forall (fun p => p = 90) (progress_values post)).
    { destruct (finite_centre cx cy cz).
      - destruct Hpost as (_ & Hev & Hh & Hp & Hn & _).
        destruct (apply_events_silent _ Hev) as (H1 & H2 & H3 & H4 & H5 & H6 & _).
        now repeat (split; [assumption|]).
      - destruct Hpost as [-> _]. repeat (split; [reflexivity|]).
        split; [intros c; simpl; split; lia|].
        split; [intros []|constructor]. }
    destruct Hpost' as (P1 & P2 & P3 & P4 & P5 & P6 & P7 & P8 & P9).
    rewrite failed_polls_app, samples_received_app, poll_results_app,
      copied_x_app, copied_y_app, copied_z_app, progress_values_app.
    rewrite F1, F2, F3, F4, F5, F6, F7, P1, P2, P3, P4, P5, P6.
    repeat (split; [reflexivity|]).
    split.
    { intros c. rewrite held_app, peak_app.
      destruct (F8 c) as [-> ->]. destruct (P7 c) as [-> Hpk]. split; lia. }
    split.
    { intros Hin. apply in_app_or in Hin as [Hin|Hin]; tauto. }
    split.
    + apply (sorted_app [70; 80] _ 80).
      * repeat constructor; lia.
      * eapply all_equal_sorted; exact P9.
      * repeat constructor; lia.
      * eapply Forall_impl; [|exact P9]. intros p ->. lia.
    + apply Forall_app. split; [repeat constructor; lia|].
      eapply Forall_impl; [|exact P9]. intros p ->. lia.
Qed.

(** The observations of a whole run of [calibrate_instance] that went
    through the acquisition, from those of its loop and of what follows. *)
Lemma run_observations s device_id sub t0 loop rest res :
  let evs :=
    EvEnter s device_id
      :: (allocations true true true
            ++ EvSubscribe s sub :: EvSetInterval sub 104 :: EvTime t0
            :: EvLog info msg_turn_on_all_sides :: loop
            ++ EvClose sub :: rest)
      ++ [EvLeave s res] in
  failed_polls evs = failed_polls loop + failed_polls rest /\
  samples_received evs = samples_received loop + samples_received rest /\
  poll_results evs = poll_results loop ++ poll_results rest /\
  copied_x evs = copied_x loop ++ copied_x rest /\
  copied_y evs = copied_y loop ++ copied_y rest /\
  copied_z evs = copied_z loop ++ copied_z rest /\
  progress_values evs = 20 :: progress_values loop ++ progress_values rest /\
  fit_sizes evs = fit_sizes loop ++ fit_sizes rest /\
  device_writes evs = device_writes loop ++ device_writes rest /\
  param_writes evs = param_writes loop ++ param_writes rest /\
  param_status evs = param_status loop ++ param_status rest /\
  (forall e, In e evs ->
     In e loop \/ In e rest \/
     In e [EvEnter s device_id; EvNew calibration_maxcount true;
           EvLog info (CAL_PROGRESS_MSG sensor_name 20);
           EvSubscribe s sub; EvSetInterval sub 104; EvTime t0;
           EvLog info msg_turn_on_all_sides; EvClose sub; EvLeave s res]) /\
  (forall e, In e loop \/ In e rest -> In e evs).
Proof.
  cbv zeta. unfold allocations. cbn [app].
  rewrite <- !app_assoc. cbn [app].
  cbn [failed_polls samples_received].
  unfold poll_results, copied_x, copied_y, copied_z, progress_values, fit_sizes,
    device_writes, param_writes, param_status.
  cbn [flat_map app].
  rewrite failed_polls_app, samples_received_app, !flat_map_app.
  cbn [failed_polls samples_received flat_map app].
  rewrite failed_polls_app, samples_received_app, !flat_map_app.
  cbn [failed_polls samples_received flat_map app].
  rewrite !app_nil_r, !Z.add_0_r.
  repeat (split; [reflexivity|]).
  split.
  - intros e Hin. cbn [In] in Hin |- *.
    repeat (destruct Hin as [Hin|Hin]; [tauto|]).
    apply in_app_or in Hin as [Hin|Hin]; [tauto|].
    destruct Hin as [Hin|Hin]; [tauto|].
    apply in_app_or in Hin as [Hin|Hin]; [tauto|].
    destruct Hin as [Hin|[]]. tauto.
  - intros e Hin. do 9 right. apply in_or_app.
    destruct Hin as [Hin|Hin]; [now left|right].
    right. apply in_or_app. now left.
Qed.

(** * Further properties of the routine: one instance *)

Section InstanceProperties.
Context {W : Type} {P : Platform W}.

(** X8.  The sensor-failure message is in the run of an instance exactly
    when more than 1000 of its polls brought no sample; there are then
    exactly 1001 of them, the status is ERROR, the fit is not invoked, and
    nothing is written to the device or to the parameters (lines 244-248,
    260 and 285). *)
Theorem sensor_failure_aborts_the_instance s device_id (w : W) :
  exists res w' evs,
    calibrate_instance s device_id w = Some (res, w', evs) /\
    (In (EvLog critical CAL_FAILED_SENSOR_MSG) evs <-> 1000 < failed_polls evs) /\
    (1000 < failed_polls evs ->
     failed_polls evs = 1001 /\ res = ERROR /\ fit_sizes evs = [] /\
     device_writes evs = [] /\ param_writes evs = []).
Proof.
  destruct (calibrate_instance_anatomy s device_id w)
    as (res & w' & body & Hci & Hshape).
  exists res, w'. eexists. split; [exact Hci|].
  destruct Hshape as [(x & y & z & _ & -> & ->)
                     |[(sub & _ & -> & ->)
                      |(sub & t0 & a & loop & rest & _ & -> & Hacq & Hkept & Hpaced & Hafter)]].
  - unfold allocations. cbn [app failed_polls]. split; [|lia].
    split; [|lia]. cbn [In]. intros H.
    repeat (destruct H as [H|H]; [discriminate|]). destruct H.
  - unfold allocations. cbn [app failed_polls]. split; [|lia].
    split; [|lia]. cbn [In]. intros H.
    repeat (destruct H as [H|H]; [discriminate|]). destruct H.
  - destruct (run_observations s device_id sub t0 loop rest res)
      as (-> & _ & _ & _ & _ & _ & _ & -> & -> & -> & _ & Hin & Hin').
    destruct (loop_facts a loop Hacq Hkept)
      as (_ & _ & Hf & Hmsg & Herr & _).
    destruct Hacq as (Hev & _).
    destruct (acquire_events_quiet _ Hev) as (-> & _ & -> & -> & _).
    destruct (after_acquisition_facts _ _ _ _ _ _ Hafter)
      as (-> & _ & _ & _ & _ & _ & _ & Hno & _).
    rewrite Z.add_0_r. cbn [app]. split.
    + rewrite <- Hmsg. split.
      * intros H. apply Hin in H as [H|[H|H]]; [exact H|contradiction|].
        cbn [In] in H.
        repeat (destruct H as [H|H]; [discriminate|]). destruct H.
      * intros H. apply Hin'. now left.
    + intros Hover. split; [lia|].
      destruct Hafter as [(_ & -> & ->)|[(Hok & _)|(Hok & _)]].
      * now repeat split.
      * rewrite (Herr Hover) in Hok. discriminate.
      * rewrite (Herr Hover) in Hok. discriminate.
Qed.

(** X9.  When the fit is invoked it is handed, coordinate by coordinate,
    exactly the samples [orb_copy] delivered during the run, in the order
    they came, with their number as the size, 100 iterations and the delta
    0.0 (lines 228-234 and 264). *)
Theorem fit_is_given_the_samples_received s device_id (w : W) :
  exists res w' evs,
    calibrate_instance s device_id w = Some (res, w', evs) /\
    forall xs ys zs n it d out,
      In (EvFit xs ys zs n it d out) evs ->
      xs = copied_x evs /\ ys = copied_y evs /\ zs = copied_z evs /\
      n = Z.of_nat (List.length xs) /\ n = samples_received evs /\
      it = 100 /\ d = Lit.f0_0.
Proof.
  destruct (calibrate_instance_anatomy s device_id w)
    as (res & w' & body & Hci & Hshape).
  exists res, w'. eexists. split; [exact Hci|].
  intros xs ys zs n it d out Hfit.
  destruct Hshape as [(x & y & z & _ & -> & ->)
                     |[(sub & _ & -> & ->)
                      |(sub & t0 & a & loop & rest & _ & -> & Hacq & Hkept & Hpaced & Hafter)]].
  - exfalso. unfold allocations in Hfit. cbn [app In] in Hfit.
    repeat (destruct Hfit as [Hfit|Hfit]; [discriminate|]). destruct Hfit.
  - exfalso. unfold allocations in Hfit. cbn [app In] in Hfit.
    repeat (destruct Hfit as [Hfit|Hfit]; [discriminate|]). destruct Hfit.
  - destruct (run_observations s device_id sub t0 loop rest res)
      as (_ & -> & _ & -> & -> & -> & _ & _ & _ & _ & _ & Hin & _).
    destruct (loop_facts a loop Hacq Hkept)
      as (Hc & Hs & _ & _ & _ & Fx & Fy & Fz & Lx & _).
    destruct (after_acquisition_facts _ _ _ _ _ _ Hafter)
      as (_ & -> & _ & -> & -> & -> & _).
    rewrite !app_nil_r, Z.add_0_r.
    destruct Hacq as (Hev & _).
    destruct (acquire_events_quiet _ Hev) as (_ & _ & _ & _ & _ & Hnofit).
    apply Hin in Hfit as [Hfit|[Hfit|Hfit]].
    + now apply Hnofit in Hfit.
    + destruct Hafter as [(_ & _ & ->)
                         |[(_ & _ & cx & cy & cz & Hrun)
                          |(_ & _ & cx & cy & cz & r & post & -> & Hpost)]].
      * destruct Hfit.
      * destruct Hrun as (_ & Happ & _).
        destruct (apply_events_silent _ Happ) as (_ & _ & _ & _ & _ & _ & _ & Hno).
        now apply Hno in Hfit.
      * apply in_app_or in Hfit as [Hfit|Hfit].
        -- unfold fit_events in Hfit. cbn [In] in Hfit.
           destruct Hfit as [Hfit|[Hfit|[Hfit|Hfit]]]; try discriminate.
           ++ injection Hfit as <- <- <- <- <- <- <-.
              rewrite Fx, Fy, Fz, Lx, Hc.
              repeat split; try reflexivity. lia.
           ++ destruct (finite_centre cx cy cz); [destruct Hfit|].
              destruct Hfit as [Hfit|[]]. discriminate.
        -- destruct (finite_centre cx cy cz).
           ++ destruct Hpost as (_ & Happ & _).
              destruct (apply_events_silent _ Happ)
                as (_ & _ & _ & _ & _ & _ & _ & Hno).
              now apply Hno in Hfit.
           ++ destruct Hpost as [-> _]. destruct Hfit.
    + exfalso. cbn [In] in Hfit.
      repeat (destruct Hfit as [Hfit|Hfit]; [discriminate|]). destruct Hfit.
Qed.

(** X10.  The acquisition of an instance is bounded: at most 240 samples
    are received, at most 1001 polls bring none, so at most 1241 polls are
    made whatever the clock says; and every sample received is copied
    exactly once (lines 217-249). *)
Theorem acquisition_is_bounded s device_id (w : W) :
  exists res w' evs,
    calibrate_instance s device_id w = Some (res, w', evs) /\
    0 <= samples_received evs <= 240 /\
    0 <= failed_polls evs <= 1001 /\
    (List.length (poll_results evs) <= 1241)%nat /\
    List.length (copied_x evs) = Z.to_nat (samples_received evs).
Proof.
  destruct (calibrate_instance_anatomy s device_id w)
    as (res & w' & body & Hci & Hshape).
  exists res, w'. eexists. split; [exact Hci|].
  destruct Hshape as [(x & y & z & _ & -> & ->)
                     |[(sub & _ & -> & ->)
                      |(sub & t0 & a & loop & rest & _ & -> & Hacq & Hkept & Hpaced & Hafter)]].
  - unfold allocations. simpl. repeat split; lia.
  - unfold allocations. simpl. repeat split; lia.
  - match goal with
    | |- context [poll_results ?l] => pose proof (poll_results_count l) as Hcount
    end.
    destruct (run_observations s device_id sub t0 loop rest res)
      as (Hf & Hs & _ & Hx & _).
    rewrite Hf, Hs in Hcount. rewrite Hf, Hs, Hx.
    destruct (loop_facts a loop Hacq Hkept)
      as (_ & Hsb & Hfb & _ & _ & _ & _ & _ & Lx & _).
    destruct (after_acquisition_facts _ _ _ _ _ _ Hafter)
      as (Rf & Rs & _ & Rx & _).
    rewrite Rf, Rs in Hcount. rewrite Rf, Rs, Rx, app_nil_r, !Z.add_0_r.
    repeat split; lia.
Qed.

(** X11.  The progress reported during the calibration of one instance
    starts at 20 %, never goes back, and stays at or below 90 % (lines 175,
    236-238, 263-265 and 370). *)
Theorem progress_never_goes_back s device_id (w : W) :
  exists res w' evs,
    calibrate_instance s device_id w = Some (res, w', evs) /\
    hd_error (progress_values evs) = Some 20 /\
    StronglySorted Z.le (progress_values evs) /\
    Forall (fun p => 20 <= p <= 90) (progress_values evs).
Proof.
  destruct (calibrate_instance_anatomy s device_id w)
    as (res & w' & body & Hci & Hshape).
  exists res, w'. eexists. split; [exact Hci|].
  destruct Hshape as [(x & y & z & _ & -> & ->)
                     |[(sub & _ & -> & ->)
                      |(sub & t0 & a & loop & rest & _ & -> & Hacq & Hkept & Hpaced & Hafter)]].
  - unfold allocations. simpl. repeat split; repeat constructor; lia.
  - unfold allocations. simpl. repeat split; repeat constructor; lia.
  - destruct (run_observations s device_id sub t0 loop rest res)
      as (_ & _ & _ & _ & _ & _ & -> & _).
    destruct (loop_facts a loop Hacq Hkept)
      as (_ & _ & _ & _ & _ & _ & _ & _ & _ & _ & _ & LS & LB).
    destruct (after_acquisition_facts _ _ _ _ _ _ Hafter)
      as (_ & _ & _ & _ & _ & _ & _ & _ & RS & RB).
    split; [reflexivity|].
    assert (Hall : Forall (fun p => 20 <= p <= 90)
                     (progress_values loop ++ progress_values rest)).
    { apply Forall_app. split.
      - eapply Forall_impl; [|exact LB]. intros p Hp. cbv beta in Hp. lia.
      - eapply Forall_impl; [|exact RB]. intros p Hp. cbv beta in Hp. lia. }
    split.
    + constructor.
      * apply (sorted_app _ _ 70); [exact LS|exact RS| |].
        -- eapply Forall_impl; [|exact LB]. intros p Hp. cbv beta in Hp. lia.
        -- eapply Forall_impl; [|exact RB]. intros p Hp. cbv beta in Hp. lia.
      * eapply Forall_impl; [|exact Hall]. intros p Hp. cbv beta in Hp. lia.
    + constructor; [lia|exact Hall].
Qed.
End InstanceProperties.

Lemma distinct_NoDup l : distinct l = true -> NoDup l.
Proof.
  induction l as [|h t IH]; [constructor|].
  cbn [distinct]. intros H. apply andb_prop in H as [Hh Ht].
  constructor; [|now apply IH].
  intros Hin. apply negb_true_iff in Hh.
  assert (Hex : existsb (String.eqb h) t = true).
  { apply existsb_exists. exists h. split; [exact Hin|apply String.eqb_refl]. }
  congruence.
Qed.

Lemma all_ok_statuses l :
  existsb write_failed l = false -> l = repeat OK (List.length l).
Proof.
  induction l as [|r t IH]; [reflexivity|].
  cbn [existsb List.length repeat]. intros H.
  apply orb_false_elim in H as [Hr Ht].
  unfold write_failed in Hr. apply negb_false_iff, Z.eqb_eq in Hr.
  rewrite <- Hr, <- IH by exact Ht. reflexivity.
Qed.

(** An apply step that ends OK has written everything. *)
Lemma applied_ok path s device_id cx cy cz evs :
  applied path s device_id cx cy cz OK evs ->
  exists m,
    device_writes evs = [(scale_for_device m cx cy cz, OK)] /\
    param_writes evs
      = parameter_fields s device_id (scale_for_parameters device_id m cx cy cz) /\
    param_status evs = repeat OK 19.
Proof.
  intros (fd & gr & m & rest & -> & H).
  change (device_writes (EvOpen path 0 fd :: EvGetScale fd gr m :: rest))
    with (device_writes rest).
  change (param_writes (EvOpen path 0 fd :: EvGetScale fd gr m :: rest))
    with (param_writes rest).
  change (param_status (EvOpen path 0 fd :: EvGetScale fd gr m :: rest))
    with (param_status rest).
  destruct H as [(Hgr & Hres & _)|(-> & sr & Hd & [(Hsr & Hres & _)|(-> & Hw & Hl & Hres)])].
  - congruence.
  - congruence.
  - exists m. split; [exact Hd|]. split; [exact Hw|].
    destruct (existsb write_failed (param_status rest)) eqn:Hf; [discriminate|].
    rewrite (all_ok_statuses _ Hf), Hl. reflexivity.
Qed.

(** The parameters an apply step writes are none, or the nineteen of its
    instance. *)
Lemma applied_names path s device_id cx cy cz res evs :
  applied path s device_id cx cy cz res evs ->
  param_names evs = [] \/ param_names evs = field_names s.
Proof.
  intros H. unfold param_names.
  destruct (applied_writes _ _ _ _ _ _ _ _ H) as [(-> & _)|(-> & _)];
    [now left|now right].
Qed.

Lemma scale_reads_app l1 l2 :
  scale_reads (l1 ++ l2) = scale_reads l1 ++ scale_reads l2.
Proof. apply flat_map_app. Qed.

Lemma acquire_events_no_scale_read evs :
  Forall acquire_event evs -> scale_reads evs = [].
Proof.
  induction 1 as [|e t He _ IH]; [reflexivity|].
  destruct e; simpl in *; try contradiction; exact IH.
Qed.

Lemma run_scale_reads s device_id sub t0 loop rest res :
  scale_reads
    (EvEnter s device_id
       :: (allocations true true true
             ++ EvSubscribe s sub :: EvSetInterval sub 104 :: EvTime t0
             :: EvLog info msg_turn_on_all_sides :: loop
             ++ EvClose sub :: rest)
       ++ [EvLeave s res])
  = scale_reads loop ++ scale_reads rest.
Proof.
  unfold allocations. cbn [app]. rewrite <- !app_assoc. cbn [app].
  unfold scale_reads. cbn [flat_map app].
  rewrite !flat_map_app. cbn [flat_map app]. rewrite !flat_map_app.
  cbn [flat_map app]. now rewrite app_nil_r.
Qed.

(** An apply step that ends OK read the scale once, handed it back with
    the offsets replaced, and wrote everything. *)
Lemma apply_run_ok path s device_id cx cy cz evs :
  apply_run path s device_id cx cy cz OK evs ->
  exists m,
    scale_reads evs = [(OK, m)] /\
    device_writes evs = [(scale_for_device m cx cy cz, OK)] /\
    param_writes evs
      = parameter_fields s device_id (scale_for_parameters device_id m cx cy cz) /\
    param_status evs = repeat OK 19 /\
    forall xs ys zs n it d out, ~ In (EvFit xs ys zs n it d out) evs.
Proof.
  intros (Happ & Hev & _ & _ & _ & Hone).
  destruct (apply_events_silent _ Hev) as (_ & _ & _ & _ & _ & _ & _ & Hnofit).
  destruct Happ as (fd & gr & m & rest & -> & H).
  change (device_writes (EvOpen path 0 fd :: EvGetScale fd gr m :: rest))
    with (device_writes rest).
  change (param_writes (EvOpen path 0 fd :: EvGetScale fd gr m :: rest))
    with (param_writes rest).
  change (param_status (EvOpen path 0 fd :: EvGetScale fd gr m :: rest))
    with (param_status rest).
  change (scale_reads (EvOpen path 0 fd :: EvGetScale fd gr m :: rest))
    with ((gr, m) :: scale_reads rest) in *.
  assert (Hrest : scale_reads rest = []).
  { destruct (scale_reads rest); [reflexivity|discriminate Hone]. }
  rewrite Hrest.
  destruct H as [(Hgr & Hres & _)|(-> & sr & Hd & [(Hsr & Hres & _)|(-> & Hw & Hl & Hres)])].
  - congruence.
  - congruence.
  - exists m. split; [reflexivity|]. split; [exact Hd|]. split; [exact Hw|].
    split; [|exact Hnofit].
    destruct (existsb write_failed (param_status rest)) eqn:Hf; [discriminate|].
    rewrite (all_ok_statuses _ Hf), Hl. reflexivity.
Qed.

(** What follows the acquisition, when the status it ends on is OK. *)
Lemma after_acquisition_ok path s device_id (a : acq) rest :
  after_acquisition path s device_id a OK rest ->
  exists m cx cy cz,
    scale_reads rest = [(OK, m)] /\
    device_writes rest = [(scale_for_device m cx cy cz, OK)] /\
    param_writes rest
      = parameter_fields s device_id (scale_for_parameters device_id m cx cy cz) /\
    param_status rest = repeat OK 19 /\
    forall xs ys zs n it d ox oy oz orad,
      In (EvFit xs ys zs n it d (ox, oy, oz, orad)) rest ->
      ox = cx /\ oy = cy /\ oz = cz.
Proof.
  intros [(_ & Hres & _)|[(_ & _ & cx & cy & cz & Hrun)
                         |(_ & _ & cx & cy & cz & r & post & -> & Hpost)]].
  - discriminate Hres.
  - destruct (apply_run_ok _ _ _ _ _ _ _ Hrun) as (m & H1 & H2 & H3 & H4 & H5).
    exists m, cx, cy, cz. repeat (split; [assumption|]).
    intros xs ys zs n it d ox oy oz orad Hin. now apply H5 in Hin.
  - destruct (finite_centre cx cy cz) eqn:Hfin;
      [|destruct Hpost as [_ Hres]; discriminate Hres].
    destruct (apply_run_ok _ _ _ _ _ _ _ Hpost) as (m & H1 & H2 & H3 & H4 & H5).
    destruct (fit_events_no_writes
                (firstn (Z.to_nat (calibration_counter a)) (acq_x a))
                (firstn (Z.to_nat (calibration_counter a)) (acq_y a))
                (firstn (Z.to_nat (calibration_counter a)) (acq_z a))
                (calibration_counter a) cx cy cz r) as (F1 & F2 & F3 & _).
    exists m, cx, cy, cz.
    rewrite scale_reads_app, device_writes_app, param_writes_app,
      param_status_app, F1, F2, F3, H1, H2, H3, H4.
    split; [unfold fit_events; now rewrite Hfin|].
    repeat (split; [reflexivity|]).
    intros xs ys zs n it d ox oy oz orad Hin.
    apply in_app_or in Hin as [Hin|Hin]; [|now apply H5 in Hin].
    unfold fit_events in Hin. rewrite Hfin in Hin. cbn [In] in Hin.
    destruct Hin as [Hin|[Hin|[Hin|[]]]]; try discriminate.
    injection Hin as _ _ _ _ _ _ <- <- <-. now repeat split.
Qed.

Section InstanceWrites.
Context {W : Type} {P : Platform W}.

(** What a run of [calibrate_instance] shows of its writes and of its
    descriptors, from those of its apply step. *)
Lemma calibrate_instance_writes s device_id (w : W) :
  exists res w' evs,
    calibrate_instance s device_id w = Some (res, w', evs) /\
    (exists rest, evs = EvEnter s device_id :: rest) /\
    (forall c, held c evs = c /\ peak c evs <= c + 1) /\
    (param_names evs = [] \/ param_names evs = field_names s) /\
    (forall s' id', In (EvEnter s' id') evs -> s' = s /\ id' = device_id) /\
    (res = OK ->
     exists m cx cy cz,
       device_writes evs = [(scale_for_device m cx cy cz, OK)] /\
       param_writes evs
         = parameter_fields s device_id
             (scale_for_parameters device_id m cx cy cz) /\
       param_status evs = repeat OK 19).
Proof.
  destruct (calibrate_instance_anatomy s device_id w)
    as (res & w' & body & Hci & Hshape).
  exists res, w'. eexists. split; [exact Hci|].
  split; [eexists; reflexivity|].
  destruct Hshape as [(x & y & z & _ & -> & ->)
                     |[(sub & Hsub & -> & ->)
                      |(sub & t0 & a & loop & rest & Hsub & -> & Hacq & Hkept & Hpaced & Hafter)]].
  - unfold allocations. cbn [app]. split; [intros c; simpl; split; lia|].
    split; [now left|]. split; [|discriminate].
    intros s' id' Hin. cbn [In] in Hin.
    destruct Hin as [Hin|Hin]; [injection Hin as <- <-; now split|].
    repeat (destruct Hin as [Hin|Hin]; [discriminate|]). destruct Hin.
  - unfold allocations. cbn [app]. apply Z.ltb_lt in Hsub. split.
    { intros c. cbn [held peak handle_step]. rewrite Hsub. split; lia. }
    split; [now left|]. split; [|discriminate].
    intros s' id' Hin. cbn [In] in Hin.
    destruct Hin as [Hin|Hin]; [injection Hin as <- <-; now split|].
    repeat (destruct Hin as [Hin|Hin]; [discriminate|]). destruct Hin.
  - destruct (run_observations s device_id sub t0 loop rest res)
      as (_ & _ & _ & _ & _ & _ & _ & _ & Hdw & Hpw & Hps & Hin & _).
    destruct Hacq as (Hev & Hacq).
    destruct (acquire_events_quiet _ Hev) as (Lpw & Lps & Ldw & _ & Lh & _).
    destruct (after_acquisition_facts _ _ _ _ _ _ Hafter)
      as (_ & _ & _ & _ & _ & _ & Rh & _).
    unfold param_names. rewrite Hdw, Hpw, Hps, Lpw, Lps, Ldw. cbn [app].
    split.
    { intros c. unfold allocations. cbn [app held peak handle_step].
      apply Z.ltb_ge in Hsub. rewrite Hsub.
      rewrite <- !app_assoc. cbn [app].
      rewrite held_app, peak_app. destruct (Lh (c + 1)) as [-> ->].
      cbn [held peak handle_step]. rewrite Hsub.
      replace (c + 1 - 1) with c by lia.
      rewrite held_app, peak_app. destruct (Rh c) as [-> Hpk].
      cbn [held peak handle_step]. split; lia. }
    assert (Hrest :
              (param_writes rest = [] \/ map fst (param_writes rest) = field_names s)
              /\ (res = OK ->
                  exists m cx cy cz,
                    device_writes rest = [(scale_for_device m cx cy cz, OK)] /\
                    param_writes rest
                      = parameter_fields s device_id
                          (scale_for_parameters device_id m cx cy cz) /\
                    param_status rest = repeat OK 19)).
    { destruct Hafter as [(_ & -> & ->)
                         |[(_ & _ & cx & cy & cz & Hrun)
                          |(_ & _ & cx & cy & cz & r & post & -> & Hpost)]].
      - split; [now left|discriminate].
      - destruct Hrun as (Happ & _). split.
        + destruct (applied_writes _ _ _ _ _ _ _ _ Happ) as [(-> & _)|(-> & _)];
            [now left|now right].
        + intros ->. destruct (applied_ok _ _ _ _ _ _ _ Happ) as (m & H).
          now exists m, cx, cy, cz.
      - destruct (fit_events_no_writes
                    (firstn (Z.to_nat (calibration_counter a)) (acq_x a))
                    (firstn (Z.to_nat (calibration_counter a)) (acq_y a))
                    (firstn (Z.to_nat (calibration_counter a)) (acq_z a))
                    (calibration_counter a) cx cy cz r) as (F1 & F2 & F3 & _).
        rewrite device_writes_app, param_writes_app, param_status_app, F1, F2, F3.
        cbn [app].
        destruct (finite_centre cx cy cz).
        + destruct Hpost as (Happ & _). split.
          * destruct (applied_writes _ _ _ _ _ _ _ _ Happ) as [(-> & _)|(-> & _)];
              [now left|now right].
          * intros ->. destruct (applied_ok _ _ _ _ _ _ _ Happ) as (m & H).
            now exists m, cx, cy, cz.
        + destruct Hpost as [-> ->]. split; [now left|discriminate]. }
    destruct Hrest as [Hnames Hok].
    split; [destruct Hnames as [-> | ->]; [now left|now right]|].
    split; [|exact Hok].
    intros s' id' Hent. apply Hin in Hent as [Hent|[Hent|Hent]].
    + exfalso. rewrite Forall_forall in Hev. exact (Hev _ Hent).
    + exfalso.
      destruct Hafter as [(_ & _ & ->)
                         |[(_ & _ & cx & cy & cz & Hrun)
                          |(_ & _ & cx & cy & cz & r & post & -> & Hpost)]].
      * destruct Hent.
      * destruct Hrun as (_ & Happ & _). rewrite Forall_forall in Happ.
        exact (Happ _ Hent).
      * apply in_app_or in Hent as [Hent|Hent].
        -- unfold fit_events in Hent. cbn [In] in Hent.
           repeat (destruct Hent as [Hent|Hent]; [discriminate|]).
           destruct (finite_centre cx cy cz); [destruct Hent|].
           destruct Hent as [Hent|[]]. discriminate.
        -- destruct (finite_centre cx cy cz).
           ++ destruct Hpost as (_ & Happ & _). rewrite Forall_forall in Happ.
              exact (Happ _ Hent).
           ++ destruct Hpost as [-> _]. destruct Hent.
    + cbn [In] in Hent.
      destruct Hent as [Hent|Hent]; [injection Hent as <- <-; now split|].
      repeat (destruct Hent as [Hent|Hent]; [discriminate|]). destruct Hent.
Qed.

(** X12.  A calibration of an instance that returns OK has read the scale
    of the device exactly once, with the status OK; has handed the device,
    exactly once, that scale with only the offsets replaced, and got OK
    for it; and has written all nineteen parameters of the instance, from
    that scale with the same offsets, each with the status OK.  If the fit
    was invoked, the offsets are the centre it gave (lines 260-271 and
    285-368). *)
Theorem success_means_everything_was_written s device_id (w : W) :
  exists res w' evs,
    calibrate_instance s device_id w = Some (res, w', evs) /\
    (res = OK ->
     exists m cx cy cz,
       scale_reads evs = [(OK, m)] /\
       device_writes evs = [(scale_for_device m cx cy cz, OK)] /\
       param_writes evs
         = parameter_fields s device_id
             (scale_for_parameters device_id m cx cy cz) /\
       param_status evs = repeat OK 19 /\
       forall xs ys zs n it d ox oy oz orad,
         In (EvFit xs ys zs n it d (ox, oy, oz, orad)) evs ->
         ox = cx /\ oy = cy /\ oz = cz).
Proof.
  destruct (calibrate_instance_anatomy s device_id w)
    as (res & w' & body & Hci & Hshape).
  exists res, w'. eexists. split; [exact Hci|].
  intros ->.
  destruct Hshape as [(x & y & z & _ & Hres & _)
                     |[(sub & _ & Hres & _)
                      |(sub & t0 & a & loop & rest & _ & -> & Hacq & _ & _ & Hafter)]];
    try discriminate Hres.
  destruct (after_acquisition_ok _ _ _ _ _ Hafter)
    as (m & cx & cy & cz & Rs & Rd & Rp & Rt & Rf).
  destruct (run_observations s device_id sub t0 loop rest OK)
    as (_ & _ & _ & _ & _ & _ & _ & _ & -> & -> & -> & Hin & _).
  destruct Hacq as (Hev & _).
  destruct (acquire_events_quiet _ Hev) as (-> & -> & -> & _ & _ & Hnofit).
  exists m, cx, cy, cz. cbn [app].
  split; [|repeat (split; [assumption|])].
  - rewrite run_scale_reads, (acquire_events_no_scale_read _ Hev). exact Rs.
  - intros xs ys zs n it d ox oy oz orad Hfit.
    apply Hin in Hfit as [Hfit|[Hfit|Hfit]].
    + now apply Hnofit in Hfit.
    + exact (Rf _ _ _ _ _ _ _ _ _ _ Hfit).
    + exfalso. cbn [In] in Hfit.
      repeat (destruct Hfit as [Hfit|Hfit]; [discriminate|]). destruct Hfit.
Qed.
End InstanceWrites.

(** * Further properties of the routine: the passes and the whole run *)

Lemma closing_events_quiet evs :
  Forall closing_event evs ->
  param_writes evs = [] /\ (forall c, held c evs = c /\ peak c evs = c).
Proof.
  intros H. split.
  - induction H as [|e t He _ IH]; [reflexivity|].
    destruct e; simpl in *; try contradiction; exact IH.
  - apply handle_free_held. eapply Forall_impl; [|exact H].
    intros e; destruct e; simpl; tauto.
Qed.

Lemma param_names_app l1 l2 :
  param_names (l1 ++ l2) = param_names l1 ++ param_names l2.
Proof. unfold param_names. now rewrite param_writes_app, map_app. Qed.

Section WholeRun.
Context {W : Type} {P : Platform W}.

(** What a pass shows of its descriptors, of the parameters it writes and
    of what precedes the calibration of its instance. *)
Lemma calibrate_mag_shape s st (w : W) :
  exists st' w' evs,
    calibrate_mag s st w = Some (st', w', evs) /\
    (forall c, held c evs = c /\ peak c evs <= c + 1) /\
    (param_names evs = [] \/ param_names evs = field_names s) /\
    (forall s' id,
       In (EvEnter s' id) evs ->
       exists fd raw rr rest,
         0 <= fd /\ s' = s /\ id = uint32 raw /\
         evs = pass_prefix s fd raw OK ++ range_calibration fd rr
                 ++ EvClose fd :: EvEnter s (uint32 raw) :: rest).
Proof.
  rewrite calibrate_mag_run.
  destruct (plat_open _ _ w) as [fd w1].
  destruct (fd <? 0) eqn:Hfd.
  { do 3 eexists. split; [reflexivity|]. split.
    - intros c. cbn [held peak handle_step]. rewrite Hfd. split; lia.
    - split; [now left|]. intros s' id [Hin|[]]. discriminate. }
  destruct (plat_DEVIOCGDEVICEID _ _) as [raw w2].
  destruct (plat_MAGIOCSSCALE _ _ w2) as [r w3].
  destruct (r =? OK) eqn:Hr.
  2: { do 3 eexists. split; [reflexivity|]. unfold pass_prefix. cbn [app]. split.
       - intros c. cbn [held peak handle_step]. rewrite Hfd. split; lia.
       - split; [now left|]. intros s' id Hin. cbn [In] in Hin.
         repeat (destruct Hin as [Hin|Hin]; [discriminate|]). destruct Hin. }
  apply Z.eqb_eq in Hr. subst r.
  destruct (plat_MAGIOCCALIBRATE fd w3) as [rr w4]. cbv zeta.
  destruct (calibrate_instance_writes s (uint32 raw)
              (plat_close fd (if rr =? OK then w4
                              else plat_log info msg_skipped_scale_calibration w4)))
    as (res & w6 & ievs & -> & (irest & ->) & Hh & Hn & Hent & _).
  do 3 eexists. split; [reflexivity|].
  fold (range_calibration fd rr).
  change (EvRangeCal fd rr
            :: (if rr =? OK then [] else [EvLog info msg_skipped_scale_calibration])
            ++ EvClose fd :: EvEnter s (uint32 raw) :: irest)
    with (range_calibration fd rr ++ EvClose fd :: EvEnter s (uint32 raw) :: irest).
  assert (Hfree : Forall handle_free (range_calibration fd rr)).
  { unfold range_calibration. destruct (rr =? OK); repeat constructor. }
  split; [|split].
  - intros c. unfold pass_prefix. cbn [app held peak handle_step]. rewrite Hfd.
    rewrite held_app, peak_app.
    destruct (handle_free_held _ Hfree (c + 1)) as [-> ->].
    cbn [held peak handle_step]. rewrite Hfd.
    replace (c + 1 - 1) with c by lia.
    destruct (Hh c) as [He Hp]. cbn [held peak handle_step] in He, Hp.
    split; [exact He|lia].
  - unfold param_names in *. unfold pass_prefix. cbn [app param_writes flat_map].
    rewrite param_writes_app.
    assert (Hq : param_writes (range_calibration fd rr) = []).
    { unfold range_calibration. now destruct (rr =? OK). }
    rewrite Hq. exact Hn.
  - intros s' id Hin. exists fd, raw, rr, irest.
    apply Z.ltb_ge in Hfd. split; [exact Hfd|].
    assert (Hin' : In (EvEnter s' id) (EvEnter s (uint32 raw) :: irest)).
    { unfold pass_prefix in Hin. cbn [app In] in Hin.
      repeat (destruct Hin as [Hin|Hin]; [discriminate|]).
      apply in_app_or in Hin as [Hin|Hin].
      - exfalso. unfold range_calibration in Hin.
        destruct (rr =? OK); cbn [In] in Hin;
          repeat (destruct Hin as [Hin|Hin]; [discriminate|]); destruct Hin.
      - destruct Hin as [Hin|Hin]; [discriminate|exact Hin]. }
    destruct (Hent _ _ Hin') as [-> ->]. now repeat split.
Qed.

(** A run of [do_mag_calibration] is its three passes between the opening
    and the closing calls. *)
Lemma do_mag_calibration_passes (w : W) :
  exists res w' st0 st1 st2 wa wb wc wd p0 p1 p2 closing,
    do_mag_calibration w
      = Some (res, w', EvLog info (CAL_STARTED_MSG sensor_name)
                         :: EvSleep 1000000 :: (p0 ++ p1 ++ p2) ++ closing) /\
    calibrate_mag 0 (mk_cal ERROR 0) wa = Some (st0, wb, p0) /\
    calibrate_mag 1 st0 wb = Some (st1, wc, p1) /\
    calibrate_mag 2 st1 wc = Some (st2, wd, p2) /\
    Forall closing_event closing.
Proof.
  rewrite do_mag_calibration_run.
  destruct (calibrate_all_mags_run
              (plat_sleep 1000000 (plat_log info (CAL_STARTED_MSG sensor_name) w)))
    as (o0 & o1 & o2 & w1 & w2 & w3 & fd0 & fd1 & fd2 & e0 & e1 & e2
        & H0 & H1 & H2 & -> & _).
  destruct (negb _).
  - destruct (plat_param_save_default _) as [res w4].
    do 13 eexists. split; [reflexivity|].
    split; [apply H0|]. split; [apply H1|]. split; [apply H2|].
    destruct (res =? OK); repeat constructor.
  - do 13 eexists. split; [reflexivity|].
    split; [apply H0|]. split; [apply H1|]. split; [apply H2|].
    repeat constructor.
Qed.

(** X13.  Over a whole run of [do_mag_calibration] every descriptor that
    [open] or [orb_subscribe_multi] gave is closed again, and no two are
    ever held at once: the device is closed before the topic of its
    instance is subscribed to, and the topic before the device is opened
    again (lines 97, 128, 198, 251, 289 and 308). *)
Theorem descriptors_are_given_back (w : W) :
  exists res w' evs,
    do_mag_calibration w = Some (res, w', evs) /\
    held 0 evs = 0 /\ peak 0 evs <= 1.
Proof.
  destruct (do_mag_calibration_passes w)
    as (res & w' & st0 & st1 & st2 & wa & wb & wc & wd & p0 & p1 & p2 & closing
        & Hrun & H0 & H1 & H2 & Hc).
  exists res, w'. eexists. split; [exact Hrun|].
  destruct (calibrate_mag_shape 0 (mk_cal ERROR 0) wa)
    as (? & ? & ? & E0 & G0 & _).
  destruct (calibrate_mag_shape 1 st0 wb) as (? & ? & ? & E1 & G1 & _).
  destruct (calibrate_mag_shape 2 st1 wc) as (? & ? & ? & E2 & G2 & _).
  rewrite H0 in E0. rewrite H1 in E1. rewrite H2 in E2.
  injection E0 as <- <- <-. injection E1 as <- <- <-. injection E2 as <- <- <-.
  destruct (closing_events_quiet _ Hc) as [_ Gc].
  cbn [held peak handle_step].
  destruct (G0 0) as [A0 K0]. destruct (G1 0) as [A1 K1].
  destruct (G2 0) as [A2 K2]. destruct (Gc 0) as [Ac Kc].
  repeat (rewrite ?held_app, ?peak_app, ?A0, ?A1, ?A2, ?Ac, ?Kc).
  split; lia.
Qed.

(** X14.  No parameter is written twice in a run of [do_mag_calibration]:
    the nineteen names of an instance differ from each other and from
    those of the other instances (lines 335-362). *)
Theorem no_parameter_is_written_twice (w : W) :
  exists res w' evs,
    do_mag_calibration w = Some (res, w', evs) /\
    NoDup (param_names evs).
Proof.
  destruct (do_mag_calibration_passes w)
    as (res & w' & st0 & st1 & st2 & wa & wb & wc & wd & p0 & p1 & p2 & closing
        & Hrun & H0 & H1 & H2 & Hc).
  exists res, w'. eexists. split; [exact Hrun|].
  destruct (calibrate_mag_shape 0 (mk_cal ERROR 0) wa)
    as (? & ? & ? & E0 & _ & N0 & _).
  destruct (calibrate_mag_shape 1 st0 wb) as (? & ? & ? & E1 & _ & N1 & _).
  destruct (calibrate_mag_shape 2 st1 wc) as (? & ? & ? & E2 & _ & N2 & _).
  rewrite H0 in E0. rewrite H1 in E1. rewrite H2 in E2.
  injection E0 as <- <- <-. injection E1 as <- <- <-. injection E2 as <- <- <-.
  destruct (closing_events_quiet _ Hc) as [Nc _].
  change (param_names (EvLog info (CAL_STARTED_MSG sensor_name)
                         :: EvSleep 1000000 :: (p0 ++ p1 ++ p2) ++ closing))
    with (param_names ((p0 ++ p1 ++ p2) ++ closing)).
  rewrite !param_names_app.
  unfold param_names at 4. rewrite Nc. cbn [map]. rewrite app_nil_r.
  destruct N0 as [-> | ->], N1 as [-> | ->], N2 as [-> | ->];
    apply distinct_NoDup; vm_compute; reflexivity.
Qed.

(** X15.  Within a pass, the calibration of the instance is entered only
    after the device opened, the reset of its scale to the null scale
    answered OK, the range calibration was tried and the device was closed;
    it is entered for the index of the pass, with the identity the device
    gave, as an unsigned 32-bit word (lines 97-131). *)
Theorem instance_is_entered_after_the_reset s st (w : W) :
  exists st' w' evs,
    calibrate_mag s st w = Some (st', w', evs) /\
    forall s' id,
      In (EvEnter s' id) evs ->
      exists fd raw rr rest,
        0 <= fd /\ s' = s /\ id = uint32 raw /\
        evs = pass_prefix s fd raw OK ++ range_calibration fd rr
                ++ EvClose fd :: EvEnter s (uint32 raw) :: rest.
Proof.
  destruct (calibrate_mag_shape s st w) as (st' & w' & evs & Hrun & _ & _ & H).
  now exists st', w', evs.
Qed.
End WholeRun.

(** * Further properties of the routine: the pace of the acquisition *)

Lemma no_clock_no_poll_times l : clock_readings l = [] -> poll_times l = [].
Proof.
  induction l as [|e t IH]; [reflexivity|].
  destruct e; try exact IH. discriminate.
Qed.

Lemma apply_events_still evs :
  Forall apply_event evs ->
  clock_readings evs = [] /\ (forall sub, Forall (reads_from sub) evs) /\
  forall s sub, ~ In (EvSubscribe s sub) evs.
Proof.
  intros H. split; [|split].
  - induction H as [|e t He _ IH]; [reflexivity|].
    destruct e; simpl in *; try contradiction; exact IH.
  - intros sub. eapply Forall_impl; [|exact H].
    intros e; destruct e; simpl; tauto.
  - intros s sub Hin. rewrite Forall_forall in H. exact (H _ Hin).
Qed.

Lemma after_acquisition_still path s device_id (a : acq) res rest :
  after_acquisition path s device_id a res rest ->
  clock_readings rest = [] /\ (forall sub, Forall (reads_from sub) rest) /\
  forall s' sub, ~ In (EvSubscribe s' sub) rest.
Proof.
  intros [(_ & _ & ->)|[(_ & _ & cx & cy & cz & Hrun)
                       |(_ & _ & cx & cy & cz & r & post & -> & Hpost)]].
  - split; [reflexivity|]. split; [constructor|intros ? ? []].
  - destruct Hrun as (_ & Hev & _). now apply apply_events_still.
  - assert (Hpost' : Forall apply_event post).
    { destruct (finite_centre cx cy cz).
      - now destruct Hpost as (_ & Hev & _).
      - destruct Hpost as [-> _]. constructor. }
    destruct (apply_events_still _ Hpost') as (C & R & S).
    rewrite clock_readings_app, C, app_nil_r.
    unfold fit_events. split; [|split].
    + now destruct (finite_centre cx cy cz).
    + intros sub. apply Forall_app. split; [|apply R].
      destruct (finite_centre cx cy cz); repeat constructor.
    + intros s' sub Hin. apply in_app_or in Hin as [Hin|Hin]; [|now apply S in Hin].
      cbn [In] in Hin.
      repeat (destruct Hin as [Hin|Hin]; [discriminate|]).
      destruct (finite_centre cx cy cz); [destruct Hin|].
      destruct Hin as [Hin|[]]. discriminate.
Qed.



Section Pace.
Context {W : Type} {P : Platform W}.

(** X16.  Every poll of the calibration of an instance directly follows a
    reading of the clock, and that reading was below the deadline, 25
    seconds after the first reading (in 64-bit unsigned arithmetic).  A
    loop that was not aborted by 1001 failed polls and did not fill its
    240 cells ends on a reading that has reached the deadline (lines 210
    and 217-218). *)
Theorem polls_are_paced_by_the_clock s device_id (w : W) :
  exists res w' evs,
    calibrate_instance s device_id w = Some (res, w', evs) /\
    List.length (poll_times evs) = List.length (poll_results evs) /\
    forall t0,
      hd_error (clock_readings evs) = Some t0 ->
      Forall (fun t => t < uint64 (t0 + calibration_interval)) (poll_times evs) /\
      (failed_polls evs <= 1000 -> samples_received evs < 240 ->
       uint64 (t0 + calibration_interval) <= last (clock_readings evs) 0).
Proof.
  destruct (calibrate_instance_anatomy s device_id w)
    as (res & w' & body & Hci & Hshape).
  exists res, w'. eexists. split; [exact Hci|].
  destruct Hshape as [(x & y & z & _ & -> & ->)
                     |[(sub & _ & -> & ->)
                      |(sub & t0 & a & loop & rest & _ & -> & Hacq & Hkept & Hpaced & Hafter)]].
  - unfold allocations. cbn. split; [reflexivity|]. discriminate.
  - unfold allocations. cbn. split; [reflexivity|]. discriminate.
  - destruct (run_observations s device_id sub t0 loop rest res)
      as (-> & -> & -> & _).
    destruct (loop_facts a loop Hacq Hkept) as (Hc & _).
    destruct Hacq as (_ & He & _).
    destruct (after_acquisition_facts _ _ _ _ _ _ Hafter) as (-> & -> & -> & _).
    destruct (after_acquisition_still _ _ _ _ _ _ Hafter) as (Rc & _).
    destruct Hpaced as (PL & PB & _ & PN & PD).
    unfold start_acq in He. cbn [poll_errcount] in He.
    rewrite app_nil_r, !Z.add_0_r.
    assert (Htimes :
              poll_times
                (EvEnter s device_id
                   :: (allocations true true true
                         ++ EvSubscribe s sub :: EvSetInterval sub 104 :: EvTime t0
                         :: EvLog info msg_turn_on_all_sides :: loop
                         ++ EvClose sub :: rest) ++ [EvLeave s res])
              = poll_times loop).
    { unfold allocations. cbn [app poll_times].
      rewrite <- app_assoc. cbn [app].
      rewrite poll_times_app by exact I. cbn [poll_times].
      rewrite (no_clock_no_poll_times (rest ++ [EvLeave s res]));
        [apply app_nil_r|].
      now rewrite clock_readings_app, Rc. }
    assert (Hclock :
              clock_readings
                (EvEnter s device_id
                   :: (allocations true true true
                         ++ EvSubscribe s sub :: EvSetInterval sub 104 :: EvTime t0
                         :: EvLog info msg_turn_on_all_sides :: loop
                         ++ EvClose sub :: rest) ++ [EvLeave s res])
              = [t0] ++ clock_readings loop).
    { unfold allocations. cbn [app].
      rewrite <- app_assoc. cbn [app].
      change (clock_readings
                (EvEnter s device_id :: EvNew calibration_maxcount true
                   :: EvNew calibration_maxcount true
                   :: EvNew calibration_maxcount true
                   :: EvLog info (CAL_PROGRESS_MSG sensor_name 20)
                   :: EvSubscribe s sub :: EvSetInterval sub 104 :: EvTime t0
                   :: EvLog info msg_turn_on_all_sides
                   :: loop ++ EvClose sub :: rest ++ [EvLeave s res]))
        with (t0 :: clock_readings (loop ++ EvClose sub :: rest ++ [EvLeave s res])).
      rewrite clock_readings_app.
      change (clock_readings (EvClose sub :: rest ++ [EvLeave s res]))
        with (clock_readings (rest ++ [EvLeave s res])).
      rewrite clock_readings_app, Rc. cbn [clock_readings flat_map app].
      now rewrite app_nil_r. }
    rewrite Htimes, Hclock. split; [exact PL|].
    intros t0' [= <-]. split; [exact PB|].
    intros Hf Hs. rewrite (last_app_nonempty [t0] _ 0 PN).
    apply PD; unfold calibration_maxcount; lia.
Qed.

End Pace.

Section FailureStatus.
Context {W : Type} {P : Platform W}.

(** X18.  When no instance calibrated, what [do_mag_calibration] returns is
    the status of the last pass whose device opened: the answer of the
    failed reset of the scale, or what [calibrate_instance] returned, and
    not necessarily ERROR; it is the initial ERROR only when no device
    opened.  Nothing is saved (lines 87, 111, 131 and 151-155). *)
Theorem failed_run_returns_the_last_status (w : W) :
  exists o0 o1 o2 w1 w2 w3 e0 e1 e2 res w' evs,
    (forall st,
       calibrate_mag 0 st
         (plat_sleep 1000000 (plat_log info (CAL_STARTED_MSG sensor_name) w))
       = Some (next_cal o0 st, w1, e0)) /\
    (forall st, calibrate_mag 1 st w1 = Some (next_cal o1 st, w2, e1)) /\
    (forall st, calibrate_mag 2 st w2 = Some (next_cal o2 st, w3, e2)) /\
    do_mag_calibration w = Some (res, w', evs) /\
    (outcome_ok o0 || outcome_ok o1 || outcome_ok o2 = false ->
     res = last_status [o0; o1; o2] /\ res <> OK /\ save_results evs = [] /\
     evs = EvLog info (CAL_STARTED_MSG sensor_name) :: EvSleep 1000000
             :: (e0 ++ e1 ++ e2) ++ [EvLog critical (CAL_FAILED_MSG sensor_name)]).
Proof.
  rewrite do_mag_calibration_run.
  destruct (calibrate_all_mags_run
              (plat_sleep 1000000 (plat_log info (CAL_STARTED_MSG sensor_name) w)))
    as (o0 & o1 & o2 & w1 & w2 & w3 & fd0 & fd1 & fd2 & e0 & e1 & e2
        & H0 & H1 & H2 & -> & (A0 & A1 & A2) & _).
  destruct (next_cal_count o0 o1 o2) as [Hcount Hneq].
  exists o0, o1, o2, w1, w2, w3.
  exists (EvOpen (device_path 0) O_RDONLY fd0 :: e0),
         (EvOpen (device_path 1) O_RDONLY fd1 :: e1),
         (EvOpen (device_path 2) O_RDONLY fd2 :: e2).
  destruct (calibrated_ok _ =? 0) eqn:Hzero; cbn [negb].
  - do 3 eexists. split; [exact H0|]. split; [exact H1|]. split; [exact H2|].
    split; [reflexivity|]. intros Hnone.
    split; [|split; [|split; [|reflexivity]]].
    + unfold last_status. cbn [fold_left].
      destruct o0 as [r0|], o1 as [r1|], o2 as [r2|]; cbn [next_cal cal_res];
        reflexivity.
    + now apply Hneq.
    + change (save_results
                (EvLog info (CAL_STARTED_MSG sensor_name) :: EvSleep 1000000
                   :: ((EvOpen (device_path 0) O_RDONLY fd0 :: e0)
                         ++ (EvOpen (device_path 1) O_RDONLY fd1 :: e1)
                         ++ (EvOpen (device_path 2) O_RDONLY fd2 :: e2))
                   ++ [EvLog critical (CAL_FAILED_MSG sensor_name)]))
        with (save_results
                (((EvOpen (device_path 0) O_RDONLY fd0 :: e0)
                    ++ (EvOpen (device_path 1) O_RDONLY fd1 :: e1)
                    ++ (EvOpen (device_path 2) O_RDONLY fd2 :: e2))
                   ++ [EvLog critical (CAL_FAILED_MSG sensor_name)])).
      rewrite !save_results_app.
      change (save_results (EvOpen (device_path 0) O_RDONLY fd0 :: e0))
        with (save_results e0).
      change (save_results (EvOpen (device_path 1) O_RDONLY fd1 :: e1))
        with (save_results e1).
      change (save_results (EvOpen (device_path 2) O_RDONLY fd2 :: e2))
        with (save_results e2).
      rewrite (about_no_save _ _ _ A0), (about_no_save _ _ _ A1),
        (about_no_save _ _ _ A2). reflexivity.
  - destruct (plat_param_save_default _) as [res w4].
    do 3 eexists. split; [exact H0|]. split; [exact H1|]. split; [exact H2|].
    split; [reflexivity|]. intros Hnone.
    rewrite Hnone in Hcount. discriminate.
Qed.
End FailureStatus.

(** ** The cases of the properties above, on the simulated platform

    Each of the three runs below meets the premise of one of the
    conditional statements above: an aborted run, a run that succeeds, and
    a run that the deadline ends. *)

Example an_aborted_run :
  let evs := trace (calibrate_instance 0 131594
                      (Sim.with_polls (repeat (-1) 1001) Sim.one_mag)) in
  (1000 <? failed_polls evs) = true /\
  existsb (fun e => match e with
                    | EvLog critical CAL_FAILED_SENSOR_MSG => true
                    | _ => false
                    end) evs = true.
Proof. vm_compute. split; reflexivity. Qed.

Example a_successful_run :
  let run := calibrate_instance 0 131594
               (Sim.with_polls (repeat 1 240) Sim.one_mag) in
  value run = Some OK /\ fit_sizes (trace run) = [240] /\
  List.length (param_status (trace run)) = 19%nat.
Proof. vm_compute. repeat split; reflexivity. Qed.

Example a_run_ended_by_the_deadline :
  let evs := trace (calibrate_instance 0 131594 Scenario.half) in
  hd_error (clock_readings evs) = Some 0 /\
  (failed_polls evs <=? 1000) = true /\
  (samples_received evs <? 240) = true /\
  (uint64 (0 + calibration_interval) <=? last (clock_readings evs) 0) = true.
Proof. vm_compute. repeat split; reflexivity. Qed.
